(** * Position ledger of the investment tracker (src/app.py)

    Shallow embedding of the spreadsheet-backed ledger: the cell values a
    pandas DataFrame holds, the normalisation run on every load
    ([get_data_cached]), the whole-table writer ([save_data]), the three
    mutating operations ([add_buy_position], [close_position],
    [delete_trade]) and the two queries ([get_open_positions],
    [get_closed_trades]).

    Modelling decisions:
    - a DataFrame is its column list plus its rows, each row a finite map
      from column name to cell; the RangeIndex produced by a read makes row
      labels coincide with positions;
    - a cell carries its kind: an int64 column holds [Int] cells, a float64
      column [Float] cells and NaN. The dtype of a column is read off its
      cells ([column_dtype]); [df.at[idx, col] = v] stores [v] converted to
      that dtype and raises [TypeError] when [v] does not fit it, as pandas 3
      does;
    - decimal numbers (float64 in the program) are rationals [Q], so float
      arithmetic is exact here; results are compared with [Qeq]. int64
      arithmetic wraps around;
    - the Google Sheets connection is a store holding the table last written;
      a read delivers an empty cell as a missing value (NaN). The
      [st.cache_data] cache is an optional table next to the store; every
      call that hits the cache receives its own copy, so in-memory edits
      never reach the cached value;
    - pandas/numpy routines whose code is not part of the repository are
      taken as an interface ([Pandas]) where their exact result is not
      determined by app.py; the default sort ([kind='quicksort']) is
      transcribed from numpy's portable implementation. *)

From Stdlib Require Import ZArith QArith Qround Lqa String Ascii List DecimalString.
From Stdlib Require Import Sorting.Permutation Sorting.Sorted.
From stdpp Require Import gmap strings list fin_maps.

Set Warnings "-clear-no-such-hyp".

Local Open Scope string_scope.
Local Open Scope Z_scope.

(** ** Cell values *)

(** A pandas [Timestamp]: a calendar date and the nanoseconds elapsed since
    midnight of that date. *)
Record timestamp := MkTs { ts_year : Z; ts_month : Z; ts_day : Z; ts_nanos : Z }.

(** What a DataFrame cell can hold in this program. *)
Inductive cell :=
| PyNone
| NaN
| NaT
| Int (z : Z)
| Float (q : Q)
| Str (s : string)
| Timestamp (t : timestamp).

(** Exceptions the modelled code can raise. *)
Inductive exn := TypeError | ZeroDivisionError.

(** Sequencing of computations that may raise. *)
#[global] Instance exn_bind : MBind (sum exn) := fun A B (f : A -> exn + B) (m : exn + A) =>
  match m with
  | inl e => inl e
  | inr a => f a
  end.

(** A number as [pd.to_numeric] reads it: an integer or a float. *)
Inductive number := NInt (z : Z) | NFloat (q : Q).

(** The dtypes a column of this program can have. *)
Inductive dtype := int64 | float64 | datetime64 | str_dtype | object.

(** ** Library interface *)

(** Results of pandas routines on inputs where app.py does not fix them. *)
Class Pandas := {
  (** [pd.to_numeric] on a string it reads as a finite number; [None] when
      the string does not parse. *)
  str_to_number : string -> option number;
  (** The strings [pd.to_numeric] reads as an infinity ("inf", "1e999").
      The model holds no infinite floats: on such a cell of an integer column
      [astype(int)] raises, so the statements about a load are made for
      worksheets without such text in their numeric columns. *)
  str_is_inf : string -> bool;
  (** [pd.to_datetime(col, errors='coerce')] at one cell of a column whose
      format the model does not fix: the column, then the cell. *)
  to_datetime_other : list cell -> cell -> option timestamp;
  (** [str] of a float or of a Timestamp. *)
  repr_other : cell -> string;
  (** [s.upper()] on a string with characters outside ASCII. *)
  upper_other : string -> string
}.

(** ** Calendar dates and the [%Y-%m-%d] format *)

Definition is_leap (y : Z) : bool :=
  ((y mod 4 =? 0) && negb (y mod 100 =? 0)) || (y mod 400 =? 0).

Definition days_in_month (y m : Z) : Z :=
  if m =? 2 then (if is_leap y then 29 else 28)
  else if (m =? 4) || (m =? 6) || (m =? 9) || (m =? 11) then 30
  else 31.

(** Lexicographic order on (year, month, day). *)
Definition ymd_leb (y1 m1 d1 y2 m2 d2 : Z) : bool :=
  (y1 <? y2) || ((y1 =? y2) && ((m1 <? m2) || ((m1 =? m2) && (d1 <=? d2)))).

(** Dates whose midnight a Timestamp can represent
    (1677-09-22 .. 2262-04-11) and that exist in the calendar. *)
Definition valid_date (y m d : Z) : bool :=
  (1 <=? m) && (m <=? 12) && (1 <=? d) && (d <=? days_in_month y m)
  && ymd_leb 1677 9 22 y m d && ymd_leb y m d 2262 4 11.


Definition digit_char (d : Z) : ascii :=
  ascii_of_nat (48 + Z.to_nat d).

Definition char_digit (c : ascii) : option Z :=
  let n := Z.of_nat (nat_of_ascii c) in
  if (48 <=? n) && (n <=? 57) then Some (n - 48) else None.

Definition fmt2 (n : Z) : string :=
  String (digit_char (n / 10 mod 10)) (String (digit_char (n mod 10)) EmptyString).

Definition fmt4 (n : Z) : string :=
  String (digit_char (n / 1000 mod 10)) (String (digit_char (n / 100 mod 10)) (fmt2 n)).

(** [ts.strftime('%Y-%m-%d')]. *)
Definition strftime_ymd (t : timestamp) : string :=
  (fmt4 (ts_year t) ++ "-" ++ fmt2 (ts_month t) ++ "-" ++ fmt2 (ts_day t))%string.

Definition digits2 (a b : ascii) : option Z :=
  match char_digit a, char_digit b with
  | Some x, Some y => Some (10 * x + y)
  | _, _ => None
  end.

Definition digits4 (a b c d : ascii) : option Z :=
  match digits2 a b, digits2 c d with
  | Some x, Some y => Some (100 * x + y)
  | _, _ => None
  end.

(** Parser for exactly the ten-character [YYYY-MM-DD] form; the result is
    midnight of that date. *)
Definition parse_ymd (s : string) : option timestamp :=
  match s with
  | String y1 (String y2 (String y3 (String y4 (String "-"
      (String m1 (String m2 (String "-" (String d1 (String d2 EmptyString))))))))) =>
      match digits4 y1 y2 y3 y4, digits2 m1 m2, digits2 d1 d2 with
      | Some y, Some m, Some d =>
          if valid_date y m d then Some (MkTs y m d 0) else None
      | _, _, _ => None
      end
  | _ => None
  end.

(** ** Cell-level coercions, arithmetic and Python conversions *)

(** Rounding toward zero, as [astype(int)] does on a float column. *)
Definition Qtrunc (q : Q) : Z :=
  if Qle_bool 0 q then Qfloor q else Qceiling q.

Definition INT64_MIN : Z := - 2 ^ 63.
Definition INT64_MAX : Z := 2 ^ 63 - 1.

Definition in_int64 (z : Z) : bool := (INT64_MIN <=? z) && (z <=? INT64_MAX).

(** The int64 an integer operation leaves: the result modulo [2 ^ 64]. *)
Definition wrap64 (z : Z) : Z := (z + 2 ^ 63) mod 2 ^ 64 - 2 ^ 63.

(** [astype(int)] on one float: the fraction is dropped; a value outside
    int64 comes out as [INT64_MIN]. *)
Definition float_to_int (q : Q) : Z :=
  if in_int64 (Qtrunc q) then Qtrunc q else INT64_MIN.

Definition is_int (c : cell) : bool :=
  match c with Int _ => true | _ => false end.

Definition is_float (c : cell) : bool :=
  match c with Float _ => true | _ => false end.

Definition is_number (c : cell) : bool :=
  match c with Int _ | Float _ => true | _ => false end.

Definition is_timestamp (c : cell) : bool :=
  match c with Timestamp _ => true | _ => false end.

(** A datetime64 cell: a Timestamp or the missing date. *)
Definition is_datetime (c : cell) : bool :=
  match c with Timestamp _ | NaT => true | _ => false end.

(** A value [pd.to_datetime] takes as missing. *)
Definition is_null (c : cell) : bool :=
  match c with PyNone | NaN | NaT | Str EmptyString => true | _ => false end.

(** A text cell of the exact form [YYYY-MM-DD]. *)
Definition is_ymd_text (c : cell) : bool :=
  match c with
  | Str s => match parse_ymd s with Some _ => true | None => false end
  | _ => false
  end.

Section Cells.
Context `{Pandas}.

(** [pd.to_numeric(_, errors='coerce')] on one cell; [None] is NaN. *)
Definition to_numeric (c : cell) : option number :=
  match c with
  | Int z => Some (NInt z)
  | Float q => Some (NFloat q)
  | Str s => str_to_number s
  | PyNone | NaN | NaT | Timestamp _ => None
  end.

(** The column [pd.to_numeric] returns is int64 when every cell reads as
    an integer, and float64 otherwise. *)
Definition all_int (col : list cell) : bool :=
  forallb (fun c => match to_numeric c with Some (NInt _) => true | _ => false end) col.

(** [pd.to_numeric(col, errors='coerce').fillna(0).astype(int)] at one cell.
    Integers are taken to lie within int64. *)
Definition coerce_int (c : cell) : cell :=
  match to_numeric c with
  | Some (NInt z) => Int z
  | Some (NFloat q) => Int (float_to_int q)
  | None => Int 0
  end.

(** [pd.to_numeric(col, errors='coerce').fillna(0.0)] at one cell of the
    column [col]: there is no [astype], so a column of integers stays
    int64 (nothing is missing in it, [fillna] changes nothing); in any other
    column every number is a float and a missing one is 0.0. *)
Definition coerce_float (col : list cell) (c : cell) : cell :=
  match to_numeric c with
  | Some (NInt z) => if all_int col then Int z else Float (inject_Z z)
  | Some (NFloat q) => Float q
  | None => Float 0
  end.

(** [pd.to_datetime(col, errors='coerce')] at one cell of the column [col].
    A missing value becomes NaT. For the other cells pandas settles on one
    format for the whole column: a column of Timestamps and missing values
    keeps its Timestamps; in a column whose text cells all have the form
    [YYYY-MM-DD] that is the format, and every text cell is parsed with it;
    any other column is left to the interface. *)
Definition to_datetime (col : list cell) (c : cell) : cell :=
  if is_null c then NaT
  else if forallb (fun x => is_timestamp x || is_null x) col
  then match c with Timestamp t => Timestamp t | _ => NaT end
  else if forallb (fun x => is_ymd_text x || is_null x) col
  then match c with Str s => from_option Timestamp NaT (parse_ymd s) | _ => NaT end
  else from_option Timestamp NaT (to_datetime_other col c).

(** [col.dt.strftime('%Y-%m-%d')] on a datetime cell: NaT becomes NaN. *)
Definition dt_strftime (c : cell) : cell :=
  match c with
  | Timestamp t => Str (strftime_ymd t)
  | _ => NaN
  end.

(** [fillna("")] on one cell. *)
Definition fillna_empty (c : cell) : cell :=
  match c with
  | PyNone | NaN | NaT => Str ""
  | _ => c
  end.

(** Python truthiness ([if old_notes]). NaN is a non-zero float. *)
Definition py_bool (c : cell) : bool :=
  match c with
  | PyNone => false
  | Int z => negb (z =? 0)
  | Float q => negb (Qeq_bool q 0)
  | Str s => negb (String.eqb s "")
  | NaN | NaT | Timestamp _ => true
  end.

Definition str_of_pos (p : positive) : string :=
  NilEmpty.string_of_uint (Pos.to_uint p).

(** Python [str]. *)
Definition py_str (c : cell) : string :=
  match c with
  | PyNone => "None"
  | NaN => "nan"
  | NaT => "NaT"
  | Int 0 => "0"
  | Int (Z.pos p) => str_of_pos p
  | Int (Z.neg p) => ("-" ++ str_of_pos p)%string
  | Str s => s
  | Float _ | Timestamp _ => repr_other c
  end.

End Cells.

(** Binary arithmetic on cells: int64 with int64 stays int64 and wraps
    around, a float operand makes the result float, NaN is absorbing,
    anything else is a [TypeError]. *)
Definition cell_arith (fz : Z -> Z -> Z) (fq : Q -> Q -> Q) (a b : cell) : exn + cell :=
  match a, b with
  | Int x, Int y => inr (Int (wrap64 (fz x y)))
  | Int x, Float y => inr (Float (fq (inject_Z x) y))
  | Float x, Int y => inr (Float (fq x (inject_Z y)))
  | Float x, Float y => inr (Float (fq x y))
  | NaN, (Int _ | Float _ | NaN) => inr NaN
  | (Int _ | Float _), NaN => inr NaN
  | _, _ => inl TypeError
  end.

Definition cell_mul : cell -> cell -> exn + cell := cell_arith Z.mul Qmult.
Definition cell_sub : cell -> cell -> exn + cell := cell_arith Z.sub Qminus.

(** [a != 0]. *)
Definition cell_nonzero (a : cell) : bool :=
  match a with
  | Int z => negb (z =? 0)
  | Float q => negb (Qeq_bool q 0)
  | _ => true
  end.

(** True division [a / b]. A zero divisor is reported as
    [ZeroDivisionError]; the numpy scalars of the program would give an
    infinity or NaN with a warning there, and the model holds no infinities.
    [close_position] divides only after it has checked that the divisor is
    not 0. *)
Definition cell_div (a b : cell) : exn + cell :=
  match b with
  | Int _ | Float _ =>
      if cell_nonzero b
      then match a, b with
           | Int x, Int y => inr (Float (Qdiv (inject_Z x) (inject_Z y)))
           | _, _ => cell_arith Z.div Qdiv a b
           end
      else match a with
           | Int _ | Float _ | NaN => inl ZeroDivisionError
           | _ => inl TypeError
           end
  | _ => cell_arith Z.div Qdiv a b
  end.

(** [col == v] for an integer [v]. *)
Definition cell_eq_int (c : cell) (v : Z) : bool :=
  match c with
  | Int z => z =? v
  | Float q => Qeq_bool q (inject_Z v)
  | _ => false
  end.

(** [col == s] for a string [s]. *)
Definition cell_eq_str (c : cell) (s : string) : bool :=
  match c with
  | Str s' => String.eqb s' s
  | _ => false
  end.

(** ** DataFrames *)

(** A row maps column names to cells. *)
Abbreviation row := (gmap string cell).

Record DataFrame := MkDF { columns : list string; rows : list row }.

(** Canonical header (app.py, [COLUMNS]). *)
Definition COLUMNS : list string :=
  ["id"; "symbol"; "buy_price"; "sell_price"; "quantity";
   "open_date"; "close_date"; "pnl"; "pnl_percent"; "status"; "notes"].

(** [df.at[idx, c]] on the row at [idx]; a cell the row does not carry reads
    as NaN, which is how pandas pads rows that lack a column. *)
Definition cell_at (r : row) (c : string) : cell := default NaN (r !! c).

(** [df.empty]: one of the two axes has length 0. *)
Definition df_empty (df : DataFrame) : bool :=
  match columns df, rows df with
  | [], _ | _, [] => true
  | _, _ => false
  end.

(** [pd.DataFrame(columns=COLUMNS)]. *)
Definition empty_frame : DataFrame := MkDF COLUMNS [].

(** [df[cols]]. *)
Definition select_columns (cols : list string) (df : DataFrame) : DataFrame :=
  MkDF cols (map (fun r : row => filter (fun kv => kv.1 ∈ cols) r) (rows df)).

(** [df[col] = v] for a scalar [v]: a new column goes last. *)
Definition set_column_const (col : string) (v : cell) (df : DataFrame) : DataFrame :=
  MkDF (if bool_decide (col ∈ columns df) then columns df else (columns df ++ [col])%list)
       (map (fun r : row => <[col := v]> r) (rows df)).

(** [df[col]] as the list of its cells. *)
Definition column (col : string) (df : DataFrame) : list cell :=
  map (fun r => cell_at r col) (rows df).

(** [df[col] = f(df[col])] for a column operation that works cell by cell
    once it has seen the column: [f col_cells cell]. *)
Definition map_column (f : list cell -> cell -> cell) (col : string) (df : DataFrame)
    : DataFrame :=
  MkDF (columns df)
       (map (fun r : row => <[col := f (column col df) (cell_at r col)]> r) (rows df)).

(** A row laid out on the columns [cols]. *)
Definition reindex (cols : list string) (r : row) : row :=
  list_to_map (map (fun c => (c, cell_at r c)) cols).

(** [df.fillna("")]: every cell of every column, also one a row does not
    carry. *)
Definition fillna_frame (df : DataFrame) : DataFrame :=
  MkDF (columns df)
       (map (fun r : row => fillna_empty <$> reindex (columns df) r) (rows df)).

(** [df[mask]] for a row-wise mask. *)
Definition filter_rows (p : row -> bool) (df : DataFrame) : DataFrame :=
  MkDF (columns df) (List.filter p (rows df)).

(** [pd.concat([a, b], ignore_index=True)]: the columns of [a], then those
    only [b] has; every row is padded with NaN. The cells are kept as they
    are: the common dtype pandas gives a column (floats for a column that
    mixes integers and floats) does not change the numbers [save_data]
    writes. Ids are taken to lie within int64. *)
Definition concat (a b : DataFrame) : DataFrame :=
  let cols := (columns a ++ List.filter (fun c => negb (bool_decide (c ∈ columns a))) (columns b))%list in
  MkDF cols (map (reindex cols) (rows a ++ rows b)%list).

(** Position of the first row the mask selects ([df[mask].index[0]]). *)
Fixpoint first_index (p : row -> bool) (l : list row) : option nat :=
  match l with
  | [] => None
  | r :: l' => if p r then Some O else S <$> first_index p l'
  end.

(** The dtype of a column, read off its cells: int64 for integers only,
    float64 for numbers with a float or a missing value among them (also
    when everything is missing), datetime64 for Timestamps and NaT, the
    string dtype for text with or without missing values, and object for
    anything else (a column of [None], mixed content, no rows). *)
Definition column_dtype (col : list cell) : dtype :=
  match col with
  | [] => object
  | _ :: _ =>
      if forallb is_int col then int64
      else if forallb (fun c => match c with Int _ | Float _ | NaN => true | _ => false end) col
      then float64
      else if forallb is_datetime col then datetime64
      else if forallb (fun c => match c with Str _ | NaN => true | _ => false end) col
      then str_dtype
      else object
  end.

(** A float without fraction. *)
Definition is_integral (q : Q) : bool := Qeq_bool (inject_Z (Qfloor q)) q.

(** The value a column of dtype [d] holds after [v] was assigned to one of
    its cells; [None] when [v] cannot be held without changing the dtype:
    a float with a fraction or text in an int64 column, text in a float64
    column, a number in a text column. An object column takes anything. *)
Definition cast_to (d : dtype) (v : cell) : option cell :=
  match d, v with
  | object, _ => Some v
  | int64, Int z => if in_int64 z then Some (Int z) else None
  | int64, Float q =>
      if is_integral q && in_int64 (Qfloor q) then Some (Int (Qfloor q)) else None
  | float64, Int z => Some (Float (inject_Z z))
  | float64, Float q => Some (Float q)
  | float64, (NaN | PyNone) => Some NaN
  | datetime64, Timestamp t => Some (Timestamp t)
  | datetime64, (NaT | NaN | PyNone) => Some NaT
  | str_dtype, Str s => Some (Str s)
  | str_dtype, (NaN | PyNone) => Some NaN
  | _, _ => None
  end.

(** The frame with the cell at [(idx, col)] replaced by [v]. *)
Definition assign (idx : nat) (col : string) (v : cell) (df : DataFrame) : DataFrame :=
  MkDF (columns df) (alter (fun r : row => <[col := v]> r) idx (rows df)).

(** [df.at[idx, col] = v]: the value is stored in the dtype of the column;
    a value the column cannot hold raises [TypeError] and leaves the frame
    as it was. *)
Definition set_at (idx : nat) (col : string) (v : cell) (df : DataFrame)
    : exn + DataFrame :=
  match cast_to (column_dtype (column col df)) v with
  | Some v' => inr (assign idx col v' df)
  | None => inl TypeError
  end.

(** [df[col].max()] on an int64 column. The id column is int64 in every
    non-empty frame [get_data] returns; a column holding anything else is
    outside the model and reported as a [TypeError]. *)
Fixpoint series_max (l : list cell) : exn + option Z :=
  match l with
  | [] => inr None
  | Int z :: l' =>
      match series_max l' with
      | inr None => inr (Some z)
      | inr (Some m) => inr (Some (Z.max z m))
      | inl e => inl e
      end
  | _ :: _ => inl TypeError
  end.

(** ** Ordering of the close dates *)

Definition ts_leb (a b : timestamp) : bool :=
  ymd_leb (ts_year a) (ts_month a) (ts_day a) (ts_year b) (ts_month b) (ts_day b)
  && (negb (ymd_leb (ts_year b) (ts_month b) (ts_day b) (ts_year a) (ts_month a) (ts_day a))
      || (ts_nanos a <=? ts_nanos b)).

(** [date_geb a b]: [a] may stand before [b] in a descending sort that puts
    missing dates last ([na_position='last']). *)
Definition date_geb (a b : cell) : bool :=
  match a, b with
  | Timestamp x, Timestamp y => ts_leb y x
  | Timestamp _, _ => true
  | _, Timestamp _ => false
  | _, _ => true
  end.

(** What [sort_values(by=..., ascending=False)] guarantees with the default
    [kind='quicksort']: the rows are rearranged and come out in descending
    key order, missing keys last. The relative order of equal keys is not
    part of it. *)
Definition sort_contract (sort : (row -> cell) -> list row -> list row) : Prop :=
  forall key l,
    Permutation l (sort key l) /\
    Sorted (fun a b => date_geb (key a) (key b) = true) (sort key l).

(** ** The default sort of numpy and pandas *)

(** [a < b] on Timestamps. *)
Definition ts_ltb (a b : timestamp) : bool := ts_leb a b && negb (ts_leb b a).

(** numpy's [argsort] with [kind='quicksort'] (npysort, [aquicksort_]): an
    introsort on an array [tosort] of positions into the keys [v]. Ranges of
    more than 17 positions are partitioned around the median of their
    first, middle and last key, shorter ones are sorted by insertion, and
    heapsort takes over when the depth limit is used up. Pointers into
    [tosort] are offsets; the loops of the C code run on fuel that the
    length of the array bounds. *)
Section Argsort.
Context {A : Type}.
Variable less : A -> A -> bool.
Variable dflt : A.
Variable v : list A.

(** [*p]. *)
Definition at_ (a : list nat) (p : Z) : nat := default 0%nat (a !! Z.to_nat p).

(** [v[*p]]. *)
Definition key_at (a : list nat) (p : Z) : A := nth (at_ a p) v dflt.

(** [*p = x]. *)
Definition put (a : list nat) (p : Z) (x : nat) : list nat := <[Z.to_nat p := x]> a.

(** [INTP_SWAP] on the cells at [p] and [q]. *)
Definition swap (a : list nat) (p q : Z) : list nat := put (put a p (at_ a q)) q (at_ a p).

(** [do { ++pi; } while (less(v[*pi], vp));] *)
Fixpoint scan_up (fuel : nat) (a : list nat) (vp : A) (pi : Z) : Z :=
  match fuel with
  | O => pi
  | S f => if less (key_at a (pi + 1)) vp then scan_up f a vp (pi + 1) else pi + 1
  end.

(** [do { --pj; } while (less(vp, v[*pj]));] *)
Fixpoint scan_down (fuel : nat) (a : list nat) (vp : A) (pj : Z) : Z :=
  match fuel with
  | O => pj
  | S f => if less vp (key_at a (pj - 1)) then scan_down f a vp (pj - 1) else pj - 1
  end.

(** The [for (;;)] loop of the partition. *)
Fixpoint partition_loop (fuel : nat) (a : list nat) (vp : A) (pi pj : Z) : list nat * Z :=
  match fuel with
  | O => (a, pi)
  | S f =>
      let pi := scan_up (length a) a vp pi in
      let pj := scan_down (length a) a vp pj in
      if pj <=? pi then (a, pi) else partition_loop f (swap a pi pj) vp pi pj
  end.

(** One partition of the range [pl..pr]; the result is the array and the
    final place [pi] of the pivot. *)
Definition partition (a : list nat) (pl pr : Z) : list nat * Z :=
  let pm := pl + Z.shiftr (pr - pl) 1 in
  let a := if less (key_at a pm) (key_at a pl) then swap a pm pl else a in
  let a := if less (key_at a pr) (key_at a pm) then swap a pr pm else a in
  let a := if less (key_at a pm) (key_at a pl) then swap a pm pl else a in
  let vp := key_at a pm in
  let a := swap a pm (pr - 1) in
  let '(a, pi) := partition_loop (length a) a vp pl (pr - 1) in
  (swap a pi (pr - 1), pi).

(** [while (pj > pl && less(vp, v[*pk])) { *pj-- = *pk--; }] *)
Fixpoint shift_up (fuel : nat) (a : list nat) (vp : A) (pl pj : Z) : list nat * Z :=
  match fuel with
  | O => (a, pj)
  | S f =>
      if (pl <? pj) && less vp (key_at a (pj - 1))
      then shift_up f (put a pj (at_ a (pj - 1))) vp pl (pj - 1)
      else (a, pj)
  end.

(** The insertion sort of the range [pl..pr], from position [pi] on. *)
Fixpoint insertion_sort (fuel : nat) (a : list nat) (pl pr pi : Z) : list nat :=
  match fuel with
  | O => a
  | S f =>
      if pi <=? pr
      then
        let vi := at_ a pi in
        let '(a, pj) := shift_up (length a) a (nth vi v dflt) pl pi in
        insertion_sort f (put a pj vi) pl pr (pi + 1)
      else a
  end.

(** The sift-down loop of [aheapsort_]; [a[k]] of the C code, which counts
    from 1, is the position [base + k]. *)
Fixpoint sift (fuel : nat) (a : list nat) (base n : Z) (tmp : nat) (i j : Z) : list nat :=
  match fuel with
  | O => put a (base + i) tmp
  | S f =>
      if j <=? n
      then
        let j := if (j <? n) && less (key_at a (base + j)) (key_at a (base + j + 1))
                 then j + 1 else j in
        if less (nth tmp v dflt) (key_at a (base + j))
        then sift f (put a (base + i) (at_ a (base + j))) base n tmp j (j + j)
        else put a (base + i) tmp
      else put a (base + i) tmp
  end.

Fixpoint heapify (fuel : nat) (a : list nat) (base n l : Z) : list nat :=
  match fuel with
  | O => a
  | S f =>
      if 0 <? l
      then heapify f (sift (length a) a base n (at_ a (base + l)) l (Z.shiftl l 1))
                   base n (l - 1)
      else a
  end.

Fixpoint heap_extract (fuel : nat) (a : list nat) (base n : Z) : list nat :=
  match fuel with
  | O => a
  | S f =>
      if 1 <? n
      then
        let tmp := at_ a (base + n) in
        let a := put a (base + n) (at_ a (base + 1)) in
        heap_extract f (sift (length a) a base (n - 1) tmp 1 2) base (n - 1)
      else a
  end.

(** [aheapsort_(vv, pl, n)]. *)
Definition heapsort (a : list nat) (pl n : Z) : list nat :=
  heap_extract (length a) (heapify (length a) a (pl - 1) n (Z.shiftr n 1)) (pl - 1) n.

(** [SMALL_QUICKSORT]. *)
Definition SMALL_QUICKSORT : Z := 16.

(** The outer loop of [aquicksort_]. [stack] holds the ranges still to be
    sorted with the depth left for each; [inner] says that control is inside
    the partitioning loop, where the depth is not looked at. *)
Fixpoint quick_loop (fuel : nat) (a : list nat) (pl pr : Z) (stack : list (Z * Z * Z))
    (cdepth : Z) (inner : bool) : list nat :=
  match fuel with
  | O => a
  | S f =>
      let pop (a : list nat) :=
        match stack with
        | [] => a
        | (pl', pr', cdepth') :: stack' => quick_loop f a pl' pr' stack' cdepth' false
        end in
      if negb inner && (cdepth <? 0)
      then pop (heapsort a pl (pr - pl + 1))
      else if SMALL_QUICKSORT <? pr - pl
      then
        let '(a, pi) := partition a pl pr in
        if pi - pl <? pr - pi
        then quick_loop f a pl (pi - 1) ((pi + 1, pr, cdepth - 1) :: stack) (cdepth - 1) true
        else quick_loop f a (pi + 1) pr ((pl, pi - 1, cdepth - 1) :: stack) (cdepth - 1) true
      else pop (insertion_sort (length a) a pl pr (pl + 1))
  end.

(** [np.argsort(v, kind='quicksort')]: the positions of [v] in ascending
    key order. *)
Definition argsort : list nat :=
  let n := length v in
  quick_loop (4 * n + 4) (seq 0 n) 0 (Z.of_nat n - 1) [] (2 * Z.log2 (Z.of_nat n)) false.

End Argsort.

(** pandas' [nargsort(items, kind='quicksort', ascending=False,
    na_position='last')] on a datetime column: the missing dates are set
    aside, the others are reversed, sorted ascending by numpy and the
    result is reversed again; the missing dates go last. *)
Definition nargsort_desc (items : list cell) : list nat :=
  let idx := seq 0 (length items) in
  let mask (i : nat) := negb (is_timestamp (nth i items NaT)) in
  let non_nan_idx := rev (List.filter (fun i => negb (mask i)) idx) in
  let nan_idx := List.filter mask idx in
  let non_nans :=
    map (fun i => match nth i items NaT with Timestamp t => t | _ => MkTs 0 0 0 0 end)
        non_nan_idx in
  let indexer := map (fun k => nth k non_nan_idx 0%nat) (argsort ts_ltb (MkTs 0 0 0 0) non_nans) in
  (rev indexer ++ nan_idx)%list.

(** [df.sort_values(by=..., ascending=False)] on the rows of a frame, with
    the default [kind='quicksort']. *)
Definition sort_values_quicksort (key : row -> cell) (l : list row) : list row :=
  map (fun i => nth i l ∅) (nargsort_desc (map key l)).

(** ** Store, cache and the effect monad *)

(** The worksheet as last written, and the value memoised by
    [st.cache_data(ttl=None)] ([None] until the first call). *)
Record world := MkWorld { sheet : DataFrame; cache : option DataFrame }.

(** Computations that read and write the world and may raise. *)
Definition M (A : Type) : Type := world -> (exn + A) * world.

#[global] Instance M_ret : MRet M := fun A (x : A) w => (inr x, w).

#[global] Instance M_bind : MBind M := fun A B (f : A -> M B) (m : M A) w =>
  match m w with
  | (inr a, w') => f a w'
  | (inl e, w') => (inl e, w')
  end.

Definition lift {A} (r : exn + A) : M A := fun w => (r, w).

(** A worksheet cell as a read delivers it: an empty cell is a missing
    value. *)
Definition read_cell (c : cell) : cell :=
  match c with
  | Str EmptyString => NaN
  | _ => c
  end.

Definition read_frame (s : DataFrame) : DataFrame :=
  MkDF (columns s) (map (fun r : row => read_cell <$> r) (rows s)).

(** [conn.read(worksheet="Sheet1")]. *)
Definition conn_read : M DataFrame := fun w => (inr (read_frame (sheet w)), w).

(** [conn.update(worksheet="Sheet1", data=df)]. *)
Definition conn_update (df : DataFrame) : M unit :=
  fun w => (inr tt, MkWorld df (cache w)).

(** [@st.cache_data(ttl=None)]: the body runs only while nothing is
    memoised; its result is stored and every later call returns a copy of
    the stored value. Nothing in app.py clears the cache. *)
Definition cache_data (body : M DataFrame) : M DataFrame := fun w =>
  match cache w with
  | Some df => (inr df, w)
  | None =>
      match body w with
      | (inr df, w') => (inr df, MkWorld (sheet w') (Some df))
      | (inl e, w') => (inl e, w')
      end
  end.

(** ** Python string helpers *)

Definition upper_char (c : ascii) : ascii :=
  let n := nat_of_ascii c in
  if (97 <=? n)%nat && (n <=? 122)%nat then ascii_of_nat (n - 32) else c.

(** Upper case of the ASCII letters. *)
Fixpoint ascii_upper (s : string) : string :=
  match s with
  | EmptyString => EmptyString
  | String c s' => String (upper_char c) (ascii_upper s')
  end.

Fixpoint is_ascii (s : string) : bool :=
  match s with
  | EmptyString => true
  | String c s' => (nat_of_ascii c <? 128)%nat && is_ascii s'
  end.

(** [s.upper()]: on ASCII text the letters a-z change; [upper] on other
    text follows the Unicode tables and is left to the interface. *)
Definition py_upper `{Pandas} (s : string) : string :=
  if is_ascii s then ascii_upper s else upper_other s.

(** A [datetime.date] as the date pickers return it. *)
Record date := MkDate { d_year : Z; d_month : Z; d_day : Z }.

(** [pd.to_datetime(d)] for a [datetime.date]: midnight of that day. *)
Definition to_datetime_date (d : date) : cell :=
  Timestamp (MkTs (d_year d) (d_month d) (d_day d) 0).

(** The separator written between the opening and the closing notes. *)
Definition SELL_NOTE_SEP : string := " | 卖出备注: ".

(** ** The ledger (app.py) *)

Section Ledger.
Context `{Pandas}.

(** [sort_values(by=..., ascending=False)] on the rows of a frame. *)
Variable sort_values_desc : (row -> cell) -> list row -> list row.

(** Lines 32-51 of [get_data_cached]: keep the canonical columns that are
    present, add the missing ones filled with [None], coerce the numeric
    and the date columns. *)
Definition normalize (df : DataFrame) : DataFrame :=
  let existing_cols := List.filter (fun c => bool_decide (c ∈ columns df)) COLUMNS in
  let df := select_columns existing_cols df in
  let df := foldl (fun d col =>
                     if bool_decide (col ∈ columns d) then d
                     else set_column_const col PyNone d) df COLUMNS in
  let df := map_column (fun _ => coerce_int) "id" df in
  let df := map_column coerce_float "buy_price" df in
  let df := map_column coerce_float "sell_price" df in
  let df := map_column (fun _ => coerce_int) "quantity" df in
  let df := map_column coerce_float "pnl" df in
  let df := map_column to_datetime "open_date" df in
  let df := map_column to_datetime "close_date" df in
  df.

Definition get_data_cached : M DataFrame :=
  cache_data (
    df ← conn_read;
    if df_empty df || (length (columns df) <? length COLUMNS)%nat
    then
      let df := empty_frame in
      _ ← conn_update df;
      mret df
    else mret (normalize df)).

Definition get_data : M DataFrame := get_data_cached.

(** The frame [save_data] hands to [conn.update]. *)
Definition save_frame (df : DataFrame) : DataFrame :=
  let save_df := df in
  let save_df := map_column to_datetime "open_date" save_df in
  let save_df := map_column to_datetime "close_date" save_df in
  let save_df := map_column (fun _ => dt_strftime) "open_date" save_df in
  let save_df := map_column (fun _ => dt_strftime) "close_date" save_df in
  fillna_frame save_df.

Definition save_data (df : DataFrame) : M unit :=
  conn_update (save_frame df).

(** Lines 84-87 of [add_buy_position]. *)
Definition next_id (df : DataFrame) : exn + Z :=
  if negb (df_empty df) && bool_decide ("id" ∈ columns df)
  then match series_max (column "id" df) with
       | inl e => inl e
       | inr None => inr 1
       | inr (Some m) => inr (if 0 <? m then m + 1 else 1)
       end
  else inr 1.

Definition new_row (new_id : Z) (symbol : string) (buy_price : Q) (quantity : Z)
    (open_date : date) (notes : string) : row :=
  list_to_map
    [("id", Int new_id);
     ("symbol", Str (py_upper symbol));
     ("buy_price", Float buy_price);
     ("sell_price", Float 0);
     ("quantity", Int quantity);
     ("open_date", to_datetime_date open_date);
     ("close_date", PyNone);
     ("pnl", Float 0);
     ("pnl_percent", Float 0);
     ("status", Str "OPEN");
     ("notes", Str notes)].

Definition add_buy_position (symbol : string) (buy_price : Q) (quantity : Z)
    (open_date : date) (notes : string) : M unit :=
  df ← get_data;
  new_id ← lift (next_id df);
  let new_row := MkDF COLUMNS [new_row new_id symbol buy_price quantity open_date notes] in
  let updated_df := concat df new_row in
  save_data updated_df.

(** Lines 123-128 of [close_position]: the values derived from the row. *)
Definition close_values (r : row) (sell_price : Q) (notes : string)
    : exn + (cell * cell * cell) :=
  let buy_price := cell_at r "buy_price" in
  let quantity := cell_at r "quantity" in
  let old_notes := cell_at r "notes" in
  cost ← cell_mul buy_price quantity;
  revenue ← cell_mul (Float sell_price) quantity;
  pnl ← cell_sub revenue cost;
  pnl_percent ← (if cell_nonzero cost
                 then q ← cell_div pnl cost; cell_mul q (Int 100)
                 else inr (Int 0));
  let new_notes :=
    if py_bool old_notes
    then Str (py_str old_notes ++ SELL_NOTE_SEP ++ notes)
    else Str notes in
  inr (pnl, pnl_percent, new_notes).

(** Lines 131-136 of [close_position]: six assignments, each of which may
    raise. *)
Definition close_row (idx : nat) (sell_price : Q) (close_date : date)
    (pnl pnl_percent new_notes : cell) (df : DataFrame) : exn + DataFrame :=
  df ← set_at idx "sell_price" (Float sell_price) df;
  df ← set_at idx "close_date" (to_datetime_date close_date) df;
  df ← set_at idx "pnl" pnl df;
  df ← set_at idx "pnl_percent" pnl_percent df;
  df ← set_at idx "status" (Str "CLOSED") df;
  set_at idx "notes" new_notes df.

Definition close_position (trade_id : Z) (sell_price : Q) (close_date : date)
    (notes : string) : M unit :=
  df ← get_data;
  let mask := fun r : row => cell_eq_int (cell_at r "id") trade_id in
  match first_index mask (rows df) with
  | Some idx =>
      match rows df !! idx with
      | Some r =>
          '(pnl, pnl_percent, new_notes) ← lift (close_values r sell_price notes);
          df ← lift (close_row idx sell_price close_date pnl pnl_percent new_notes df);
          save_data df
      | None => mret tt
      end
  | None => mret tt
  end.

Definition delete_trade (trade_id : Z) : M unit :=
  df ← get_data;
  let df := filter_rows (fun r => negb (cell_eq_int (cell_at r "id") trade_id)) df in
  save_data df.

Definition get_open_positions : M DataFrame :=
  df ← get_data;
  if df_empty df then mret df
  else mret (filter_rows (fun r => cell_eq_str (cell_at r "status") "OPEN") df).

Definition get_closed_trades : M DataFrame :=
  df ← get_data;
  if df_empty df then mret df
  else
    let df := filter_rows (fun r => cell_eq_str (cell_at r "status") "CLOSED") df in
    let df := map_column to_datetime "close_date" df in
    mret (MkDF (columns df)
               (sort_values_desc (fun r => cell_at r "close_date") (rows df))).

End Ledger.

(** ** The page script (app.py, lines 160-312) *)

(** [x > 0] for a float. *)
Definition Qpos (q : Q) : bool := negb (Qle_bool q 0).

Section Page.
Context `{Pandas}.

(** Lines 182-188: the buy form submits only a non-empty symbol with a
    positive price and quantity; the result says whether it did. *)
Definition on_buy_submit (symbol : string) (price : Q) (quantity : Z)
    (date_val : date) (notes : string) : M bool :=
  if negb (String.eqb symbol "") && Qpos price && (0 <? quantity)
  then
    _ ← add_buy_position symbol price quantity date_val notes;
    mret true
  else mret false.


End Page.

(** [x > 0] on a numeric cell, as the mask [closed_df['pnl'] > 0] has it. *)
Definition cell_pos (c : cell) : bool :=
  match c with
  | Int z => 0 <? z
  | Float q => Qpos q
  | _ => false
  end.

(** Line 249: the share of closed trades with a positive pnl, in percent. *)
Definition win_rate (closed : DataFrame) : Q :=
  let n := length (rows closed) in
  if (0 <? n)%nat
  then (inject_Z (Z.of_nat (length (List.filter (fun r => cell_pos (cell_at r "pnl")) (rows closed))))
        / inject_Z (Z.of_nat n) * 100)%Q
  else 0%Q.

(** Line 265: the label of a bar, profit ("盈利") for [x >= 0]. *)
Definition pnl_label (q : Q) : string :=
  if Qle_bool 0 q then "盈利" else "亏损".

(** ** Vocabulary of the statements *)

(** What the coerced columns hold after a load: integers in [id] and
    [quantity], numbers (int64 or float64, by column) in the price columns
    and [pnl], datetimes in the two date columns. *)
Definition row_typed (r : row) : bool :=
  is_int (cell_at r "id") && is_number (cell_at r "buy_price")
  && is_number (cell_at r "sell_price") && is_int (cell_at r "quantity")
  && is_number (cell_at r "pnl") && is_datetime (cell_at r "open_date")
  && is_datetime (cell_at r "close_date").

Definition frame_typed (df : DataFrame) : Prop :=
  columns df ≡ₚ COLUMNS /\ Forall (fun r => row_typed r = true) (rows df).

(** A frame with the canonical columns whose id column holds integers. *)
Definition id_typed (df : DataFrame) : Prop :=
  columns df ≡ₚ COLUMNS /\
  Forall (fun r => is_int (cell_at r "id") = true) (rows df).

(** Worlds a run of the program can be in: whatever is memoised came out of
    a load. *)
Definition cache_ok (w : world) : Prop :=
  match cache w with
  | Some df => frame_typed df
  | None => True
  end.

(** The cell of column [c] that normalisation starts from: the loaded cell,
    or [None] for a column the loaded table lacks. *)
Definition loaded_cell (cols : list string) (r : row) (c : string) : cell :=
  if bool_decide (c ∈ cols) then cell_at r c else PyNone.

(** The coercion [get_data_cached] applies to the cell [x] of a column
    [c] whose cells are [col] (none for the text columns and for
    [pnl_percent]). *)
Definition coerce_cell `{Pandas} (c : string) : list cell -> cell -> cell :=
  if bool_decide (c = "id") || bool_decide (c = "quantity") then fun _ => coerce_int
  else if bool_decide (c = "buy_price") || bool_decide (c = "sell_price")
          || bool_decide (c = "pnl") then coerce_float
  else if bool_decide (c = "open_date") || bool_decide (c = "close_date") then to_datetime
  else fun _ x => x.

(** The coercion of the whole column [c]. *)
Definition coerce_column `{Pandas} (c : string) (col : list cell) : list cell :=
  map (coerce_cell c col) col.

(** The seven column coercions of [get_data_cached], in program order. *)
Definition coerce_columns `{Pandas} (d : DataFrame) : DataFrame :=
  map_column to_datetime "close_date"
   (map_column to_datetime "open_date"
    (map_column coerce_float "pnl"
     (map_column (fun _ => coerce_int) "quantity"
      (map_column coerce_float "sell_price"
       (map_column coerce_float "buy_price"
        (map_column (fun _ => coerce_int) "id" d)))))).

(** No text cell of the five numeric columns reads as an infinity. *)
Definition finite_numbers `{Pandas} (df : DataFrame) : bool :=
  forallb
    (fun c => forallb (fun x => match x with Str s => negb (str_is_inf s) | _ => true end)
                      (column c df))
    ["id"; "buy_price"; "sell_price"; "quantity"; "pnl"].

(** The column [c] of a loaded table as normalisation starts from it. *)
Definition loaded_column (df : DataFrame) (c : string) : list cell :=
  map (fun r => loaded_cell (columns df) r c) (rows df).

(** What [save_data] writes for the cell [v] of the column [c] of [df]:
    both date columns pass through [to_datetime] and [strftime], then every
    missing value becomes the empty string. *)
Definition save_cell `{Pandas} (df : DataFrame) (c : string) (v : cell) : cell :=
  if bool_decide (c = "open_date" \/ c = "close_date")
  then fillna_empty (dt_strftime (to_datetime (column c df) v))
  else fillna_empty v.

(** The row [save_data] writes for the row [r] of [df]. *)
Definition save_row `{Pandas} (df : DataFrame) (r : row) : row :=
  list_to_map (map (fun c => (c, save_cell df c (cell_at r c))) (columns df)).

(** The same for a frame whose date columns hold nothing but Timestamps and
    missing values: a date is written as [YYYY-MM-DD] text, a missing value
    as the empty string, anything else as it is. *)
Definition saved_cell (c : string) (v : cell) : cell :=
  if bool_decide (c = "open_date" \/ c = "close_date")
  then match v with Timestamp t => Str (strftime_ymd t) | _ => Str "" end
  else fillna_empty v.

Definition saved_row (cols : list string) (r : row) : row :=
  list_to_map (map (fun c => (c, saved_cell c (cell_at r c))) cols).

(** Both date columns of [df] hold nothing but Timestamps and missing
    values. *)
Definition dates_clean (df : DataFrame) : bool :=
  forallb (fun x => is_timestamp x || is_null x) (column "open_date" df)
  && forallb (fun x => is_timestamp x || is_null x) (column "close_date" df).

(** The row lines 131-136 of [close_position] leave at the closed index,
    from the six values as the columns hold them. *)
Definition closed_row (sell_price close_date pnl pnl_percent status new_notes : cell)
    (r : row) : row :=
  <["notes" := new_notes]>
    (<["status" := status]>
      (<["pnl_percent" := pnl_percent]>
        (<["pnl" := pnl]>
          (<["close_date" := close_date]>
            (<["sell_price" := sell_price]> r))))).

(** The value the column [col] of [df] holds after [v] was assigned to one
    of its cells ([None]: the assignment raises). *)
Definition stored (df : DataFrame) (col : string) (v : cell) : option cell :=
  cast_to (column_dtype (column col df)) v.

(** The six values of lines 131-136 as the columns of [df] hold them;
    [None] when one of the assignments raises. *)
Definition close_cells (df : DataFrame) (sell_price : Q) (close_date : date)
    (pnl pnl_percent new_notes : cell) : option (row -> row) :=
  v1 ← stored df "sell_price" (Float sell_price);
  v2 ← stored df "close_date" (to_datetime_date close_date);
  v3 ← stored df "pnl" pnl;
  v4 ← stored df "pnl_percent" pnl_percent;
  v5 ← stored df "status" (Str "CLOSED");
  v6 ← stored df "notes" new_notes;
  Some (closed_row v1 v2 v3 v4 v5 v6).

(** The number a numeric cell holds. *)
Definition cell_holds (c : cell) (q : Q) : Prop :=
  match c with
  | Int z => (inject_Z z == q)%Q
  | Float x => (x == q)%Q
  | _ => False
  end.

(** Two cells hold the same value: they are equal, or hold the same number,
    one as an integer and the other as a float. *)
Definition same_value (a b : cell) : Prop :=
  a = b \/ exists q, cell_holds a q /\ cell_holds b q.

(** Line 123 on a loaded row: the cost basis as a number, for the price cell
    [bp] (int64 or float64) and the quantity [q]. *)
Definition cost_of (bp : cell) (q : Z) : Q :=
  match bp with
  | Int b => inject_Z (wrap64 (b * q))
  | Float b => (b * inject_Z q)%Q
  | _ => 0%Q
  end.

(** Lines 124-125: the profit at the sell price [sp]. *)
Definition pnl_of (bp : cell) (q : Z) (sp : Q) : Q :=
  (sp * inject_Z q - cost_of bp q)%Q.

(** Line 126: the profit in percent of the cost, or the integer 0 when the
    cost is 0. *)
Definition pct_of (bp : cell) (q : Z) (sp : Q) : cell :=
  if Qeq_bool (cost_of bp q) 0 then Int 0
  else Float (pnl_of bp q sp / cost_of bp q * inject_Z 100)%Q.

(** The notes [close_position] stores, from the notes the row had. *)
Definition closing_notes `{Pandas} (old_notes : cell) (notes : string) : cell :=
  if py_bool old_notes
  then Str (py_str old_notes ++ SELL_NOTE_SEP ++ notes)
  else Str notes.

(** What [close_position] does to the row [r] of the loaded frame [df]:
    the update of lines 131-136 with the values of lines 123-128, or [None]
    when one of the six assignments raises. *)
Definition close_update `{Pandas} (df : DataFrame) (r : row) (sell_price : Q)
    (close_date : date) (notes : string) : option (row -> row) :=
  match cell_at r "quantity" with
  | Int q =>
      let bp := cell_at r "buy_price" in
      close_cells df sell_price close_date (Float (pnl_of bp q sell_price))
        (pct_of bp q sell_price) (closing_notes (cell_at r "notes") notes)
  | _ => None
  end.

(** None of the six assignments raises: every value fits the dtype of its
    column. *)
Definition close_accepts `{Pandas} (df : DataFrame) (r : row) (sell_price : Q)
    (close_date : date) (notes : string) : bool :=
  match close_update df r sell_price close_date notes with
  | Some _ => true
  | None => false
  end.

(** The mask [df['id'] == trade_id]. *)
Definition id_is (trade_id : Z) (r : row) : bool :=
  cell_eq_int (cell_at r "id") trade_id.

(** One step of the loop that adds the missing columns. *)
Definition fill_step (d : DataFrame) (col : string) : DataFrame :=
  if bool_decide (col ∈ columns d) then d else set_column_const col PyNone d.

(** What the loop over [COLUMNS] maintains, for loaded rows [rows0] and
    selected columns [E]: the frame's rows are the loaded rows seen through
    some [g]; a column of the frame carries the loaded cell when it was
    selected and [None] when it was added. *)
Definition fill_inv (rows0 : list row) (E : list string) (d : DataFrame)
    (g : row -> row) : Prop :=
  rows d = map g rows0 /\
  NoDup (columns d) /\
  (forall c, c ∈ E -> c ∈ columns d) /\
  (forall (r : row) c,
      g r !! c = if bool_decide (c ∈ columns d)
                 then (if bool_decide (c ∈ E) then r !! c else Some PyNone)
                 else None).

(** The integer an int64 cell holds. *)
Definition int_val (c : cell) : Z :=
  match c with Int z => z | _ => 0 end.

Definition ids (df : DataFrame) : list Z :=
  map (fun r => int_val (cell_at r "id")) (rows df).

(** [max(l ∪ {0})]. *)
Definition max0 (l : list Z) : Z := foldr Z.max 0 l.


(** The three mutating operations and their arguments. *)
Inductive mutation :=
| Open (symbol : string) (buy_price : Q) (quantity : Z) (open_date : date) (notes : string)
| Close (trade_id : Z) (sell_price : Q) (close_date : date) (notes : string)
| Delete (trade_id : Z).

Definition run_mutation `{Pandas} (m : mutation) : M unit :=
  match m with
  | Open s p q d n => add_buy_position s p q d n
  | Close i p d n => close_position i p d n
  | Delete i => delete_trade i
  end.

(** A restart of the process: the worksheet stays, the memoised value is
    gone. *)
Definition restart (w : world) : world := MkWorld (sheet w) None.

(** An instance of the library interface in which nothing parses beyond the
    formats the model fixes itself. *)
Definition bare_pandas : Pandas :=
  {| str_to_number := fun _ => None;
     str_is_inf := fun _ => false;
     to_datetime_other := fun _ _ => None;
     repr_other := fun _ => "";
     upper_other := fun s => s |}.

(** ** Canonical tables *)





(** ** Sample worksheets *)

(** A worksheet row given by its eleven cells, in header order. *)
Definition sheet_row (id symbol buy_price sell_price quantity open_date close_date
    pnl pnl_percent status notes : cell) : row :=
  list_to_map
    [("id", id); ("symbol", symbol); ("buy_price", buy_price);
     ("sell_price", sell_price); ("quantity", quantity);
     ("open_date", open_date); ("close_date", close_date); ("pnl", pnl);
     ("pnl_percent", pnl_percent); ("status", status); ("notes", notes)].

(** The cells of a row, in header order. *)
Definition cells (r : row) : list cell := map (cell_at r) COLUMNS.

(** One open position: 10 AAPL bought at 100, opened with the note "A". *)
Definition sheet_one_open : DataFrame :=
  MkDF COLUMNS
    [sheet_row (Int 1) (Str "AAPL") (Int 100) (Int 0) (Int 10)
       (Str "2024-01-05") NaN (Int 0) (Int 0) (Str "OPEN") (Str "A")].

(** ** A sorting routine that meets [sort_contract] *)

Fixpoint insert_desc (key : row -> cell) (x : row) (l : list row) : list row :=
  match l with
  | [] => [x]
  | y :: l' =>
      if date_geb (key x) (key y) then x :: y :: l'
      else y :: insert_desc key x l'
  end.

(** Insertion sort, descending; rows with equal keys keep their order. *)
Definition stable_sort_desc (key : row -> cell) (l : list row) : list row :=
  foldr (insert_desc key) [] l.

(** The row predicate of [get_closed_trades]. *)
Definition is_closed (r : row) : bool := cell_eq_str (cell_at r "status") "CLOSED".

(** The row predicate of [get_open_positions]. *)
Definition is_open (r : row) : bool := cell_eq_str (cell_at r "status") "OPEN".

(** [by_close_date a b]: [a] may stand before [b] in the closed-trades
    listing. *)
Definition by_close_date (a b : row) : Prop :=
  date_geb (cell_at a "close_date") (cell_at b "close_date") = true.

(** Three closed trades; the first two were closed on the same day, the
    third later. *)
Definition sheet_three_closed : DataFrame :=
  MkDF COLUMNS
    [sheet_row (Int 1) (Str "AAPL") (Int 100) (Int 150) (Int 10)
       (Str "2024-01-05") (Str "2024-02-01") (Int 500) (Int 50) (Str "CLOSED") (Str "a");
     sheet_row (Int 2) (Str "MSFT") (Int 50) (Int 40) (Int 2)
       (Str "2024-01-06") (Str "2024-02-01") (Int (-20)) (Int (-20)) (Str "CLOSED") (Str "b");
     sheet_row (Int 3) (Str "GOOG") (Int 70) (Int 77) (Int 1)
       (Str "2024-01-07") (Str "2024-03-01") (Int 7) (Int 10) (Str "CLOSED") (Str "c")].

(** A canonical table with two trades, one open and one closed. *)
Definition frame_two_trades : DataFrame :=
  MkDF COLUMNS
    [sheet_row (Int 1) (Str "AAPL") (Float 100) (Float 0) (Int 10)
       (Timestamp (MkTs 2024 1 5 0)) PyNone (Float 0) (Float 0) (Str "OPEN") (Str "");
     sheet_row (Int 2) (Str "MSFT") (Float (101 # 2)) (Float 40) (Int 2)
       (Timestamp (MkTs 2024 1 6 34200000000000)) (Timestamp (MkTs 2024 2 29 0))
       (Float (-21)) (Float (-2100 # 101)) (Str "CLOSED") (Str "b")].

(** One position whose status cell holds neither OPEN nor CLOSED, between
    an open and a closed one. *)
Definition sheet_odd_status : DataFrame :=
  MkDF COLUMNS
    [sheet_row (Int 1) (Str "AAPL") (Int 100) (Int 0) (Int 10)
       (Str "2024-01-05") NaN (Int 0) (Int 0) (Str "OPEN") (Str "a");
     sheet_row (Int 7) (Str "MSFT") (Int 50) (Int 0) (Int 2)
       (Str "2024-01-06") NaN (Int 0) (Int 0) (Str "open") (Str "b");
     sheet_row (Int 3) (Str "GOOG") (Int 70) (Int 77) (Int 1)
       (Str "2024-01-07") (Str "2024-03-01") (Int 7) (Int 10) (Str "CLOSED") (Str "c")].

(** A cell with its number in lowest terms, to read off computed floats. *)
Definition canon (c : cell) : cell :=
  match c with Float q => Float (Qred q) | _ => c end.

(** One open position bought at price 0: 5 shares of FREE. *)
Definition sheet_zero_cost : DataFrame :=
  MkDF COLUMNS
    [sheet_row (Int 1) (Str "FREE") (Int 0) (Int 0) (Int 5)
       (Str "2024-01-05") NaN (Int 0) (Int 0) (Str "OPEN") (Str "gift")].


(** Two open positions as [save_data] leaves them: the first was opened
    without notes, so its notes cell is the empty string; the second
    carries the note "held". *)
Definition sheet_no_notes : DataFrame :=
  MkDF COLUMNS
    [sheet_row (Int 1) (Str "AAPL") (Int 100) (Int 0) (Int 10)
       (Str "2024-01-05") (Str "") (Int 0) (Int 0) (Str "OPEN") (Str "");
     sheet_row (Int 2) (Str "MSFT") (Int 50) (Int 0) (Int 2)
       (Str "2024-01-06") (Str "") (Int 0) (Int 0) (Str "OPEN") (Str "held")].

(** The first of these positions alone: no cell of the notes column holds
    text. *)
Definition sheet_all_notes_empty : DataFrame :=
  MkDF COLUMNS
    [sheet_row (Int 1) (Str "AAPL") (Int 100) (Int 0) (Int 10)
       (Str "2024-01-05") (Str "") (Int 0) (Int 0) (Str "OPEN") (Str "")].

(** Eighteen trades with the ids 1 to 18, all closed on the same day. *)
Definition sheet_same_day : DataFrame :=
  MkDF COLUMNS
    (map (fun i : nat =>
            sheet_row (Int (Z.of_nat i)) (Str "AAPL") (Int 100) (Int 150) (Int 10)
              (Str "2024-01-05") (Str "2024-02-01") (Int 500) (Int 50) (Str "CLOSED")
              (Str "a"))
         (seq 1 18)).

(** One open position whose prices are not whole numbers. *)
Definition sheet_float_prices : DataFrame :=
  MkDF COLUMNS
    [sheet_row (Int 1) (Str "AAPL") (Float (201 # 2)) (Float 0) (Int 10)
       (Str "2024-01-05") (Str "") (Float 0) (Float 0) (Str "OPEN") (Str "A")].

(** The rows of the worksheet, each as its cells in header order with
    floats in lowest terms. *)
Definition sheet_cells (w : world) : list (list cell) :=
  map (fun r => map canon (cells r)) (rows (sheet w)).

(** A worksheet with an extraneous column, without the [notes] column and
    with malformed or empty cells. *)
Definition sheet_dirty : DataFrame :=
  MkDF ["id"; "symbol"; "buy_price"; "sell_price"; "quantity"; "open_date";
        "close_date"; "pnl"; "pnl_percent"; "status"; "extra"]
    [list_to_map
       [("id", Str "x7"); ("symbol", NaN); ("buy_price", Str "abc");
        ("sell_price", NaN); ("quantity", Float (5 # 2));
        ("open_date", Str "yesterday"); ("close_date", NaN); ("pnl", NaN);
        ("pnl_percent", Str "n/a"); ("status", NaN); ("extra", Int 1)]].

(** The frame a successful query returned ([None] if the call raised). *)
Definition returned {A} (r : (exn + A) * world) : option A :=
  match r.1 with inr a => Some a | inl _ => None end.

(** * Properties *)

(** ** Running computations *)

Lemma get_data_hit `{Pandas} w df :
  cache w = Some df -> get_data w = (inr df, w).
Proof.
  intros Hc. unfold get_data, get_data_cached, cache_data. by rewrite Hc.
Qed.

Lemma df_empty_read (s : DataFrame) : df_empty (read_frame s) = df_empty s.
Proof. unfold df_empty, read_frame. cbn [columns rows]. by destruct (columns s), (rows s). Qed.

Lemma get_data_miss `{Pandas} w :
  cache w = None ->
  get_data w =
    if df_empty (sheet w) || (length (columns (sheet w)) <? length COLUMNS)%nat
    then (inr empty_frame, MkWorld empty_frame (Some empty_frame))
    else (inr (normalize (read_frame (sheet w))),
          MkWorld (sheet w) (Some (normalize (read_frame (sheet w))))).
Proof.
  intros Hc. unfold get_data, get_data_cached, cache_data. rewrite Hc.
  unfold mbind, M_bind, conn_read. rewrite df_empty_read.
  change (columns (read_frame (sheet w))) with (columns (sheet w)).
  destruct (df_empty (sheet w) || _); reflexivity.
Qed.

(** ** Normalisation *)

Lemma NoDup_COLUMNS : NoDup COLUMNS.
Proof. apply (bool_decide_unpack (NoDup COLUMNS)). vm_compute. exact I. Qed.

Section FillMissing.
Variable rows0 : list row.
Variable E : list string.

Local Abbreviation fill_inv := (fill_inv rows0 E).

Lemma fill_step_inv d g col :
  fill_inv d g ->
  exists g', fill_inv (fill_step d col) g' /\
             col ∈ columns (fill_step d col) /\
             (forall c, c ∈ columns (fill_step d col) -> c ∈ columns d \/ c = col) /\
             (forall c, c ∈ columns d -> c ∈ columns (fill_step d col)).
Proof.
  intros (Hrows & Hnd & HE & Hg). unfold fill_step.
  destruct (bool_decide (col ∈ columns d)) eqn:Hin.
  - apply bool_decide_eq_true in Hin. exists g. repeat split; auto.
  - apply bool_decide_eq_false in Hin.
    exists (fun r => <[col := PyNone]> (g r)).
    unfold set_column_const. rewrite bool_decide_eq_false_2 by done. simpl.
    repeat split.
    + rewrite Hrows, map_map. reflexivity.
    + apply NoDup_app. repeat split; auto.
      * intros x Hx Hx'. apply list_elem_of_singleton in Hx'. by subst.
      * apply NoDup_singleton.
    + intros c Hc. apply elem_of_app. left. by apply HE.
    + intros r c. simpl. destruct (decide (col = c)) as [->|Hne].
      * rewrite lookup_insert_eq.
        repeat case_bool_decide; try done; exfalso; set_solver.
      * rewrite lookup_insert_ne by done. rewrite Hg.
        repeat case_bool_decide; try done; exfalso; set_solver.
    + apply elem_of_app. right. by apply list_elem_of_singleton.
    + intros c [?|Hs]%elem_of_app; [by left|]. right.
      by apply list_elem_of_singleton in Hs.
    + intros c Hc. apply elem_of_app. by left.
Qed.

Lemma fill_inv_foldl L : forall d g,
  fill_inv d g ->
  exists g', fill_inv (foldl fill_step d L) g' /\
             (forall c, c ∈ L -> c ∈ columns (foldl fill_step d L)) /\
             (forall c, c ∈ columns (foldl fill_step d L) -> c ∈ columns d \/ c ∈ L) /\
             (forall c, c ∈ columns d -> c ∈ columns (foldl fill_step d L)).
Proof.
  induction L as [|a L IH]; intros d g Hinv; simpl.
  - exists g. split; [exact Hinv|]. split; [|split; [|done]].
    + intros c Hc. by apply elem_of_nil in Hc.
    + intros c Hc. by left.
  - destruct (fill_step_inv d g a Hinv) as (g1 & Hinv1 & Ha & Hsub & Hmono).
    destruct (IH _ _ Hinv1) as (g2 & Hinv2 & HL & Hsub2 & Hmono2).
    exists g2. split; [exact Hinv2|]. split; [|split].
    + intros c [-> | Hc]%elem_of_cons; auto.
    + intros c Hc. destruct (Hsub2 c Hc) as [Hc1|Hc1].
      * destruct (Hsub c Hc1) as [Hc2 | ->]; [by left|]. right. by left.
      * right. by right.
    + auto.
Qed.
End FillMissing.

Lemma cell_at_insert (r : row) k v c :
  cell_at (<[k := v]> r) c = if decide (k = c) then v else cell_at r c.
Proof.
  unfold cell_at. destruct (decide (k = c)) as [->|Hne].
  - by rewrite lookup_insert_eq.
  - by rewrite lookup_insert_ne.
Qed.

Lemma elem_of_existing (cols : list string) c :
  c ∈ List.filter (fun c => bool_decide (c ∈ cols)) COLUMNS <-> c ∈ COLUMNS /\ c ∈ cols.
Proof.
  rewrite !list_elem_of_In, filter_In, <- !list_elem_of_In.
  by rewrite bool_decide_eq_true.
Qed.

Lemma select_fill_inv (df : DataFrame) :
  let E := List.filter (fun c => bool_decide (c ∈ columns df)) COLUMNS in
  fill_inv (rows df) E (select_columns E df)
           (fun r : row => filter (fun kv => kv.1 ∈ E) r).
Proof.
  intros E. unfold fill_inv, select_columns. simpl. split; [done|].
  split; [unfold E; apply NoDup_ListNoDup, List.NoDup_filter, NoDup_ListNoDup, NoDup_COLUMNS|]. split; [done|].
  intros r c. apply option_eq. intros x.
  rewrite map_lookup_filter_Some. simpl.
  repeat case_bool_decide; naive_solver.
Qed.

Lemma normalize_unfold `{Pandas} (df : DataFrame) :
  normalize df =
  coerce_columns
    (foldl fill_step
       (select_columns (List.filter (fun c => bool_decide (c ∈ columns df)) COLUMNS) df)
       COLUMNS).
Proof. reflexivity. Qed.

(** The columns a column operation does not name are left alone. *)
Lemma column_map_column (f : list cell -> cell -> cell) c c' (d : DataFrame) :
  column c (map_column f c' d) =
    if decide (c' = c) then map (f (column c' d)) (column c' d) else column c d.
Proof.
  destruct (decide (c' = c)) as [->|Hne].
  - unfold column, map_column. cbn [rows]. rewrite !map_map. apply map_ext. intros r.
    rewrite cell_at_insert. by destruct (decide (c = c)).
  - unfold column, map_column. cbn [rows]. rewrite map_map. apply map_ext. intros r.
    rewrite cell_at_insert. by destruct (decide (c' = c)).
Qed.

(** One column coercion, seen from the frame [d0] the coercions started
    from: the columns in [done] went through [F], the others are as they
    were. *)
Lemma map_column_step (F : string -> list cell -> cell -> cell)
    (d0 d : DataFrame) (g : row -> row) (done : list string) col :
  rows d = map g (rows d0) ->
  (forall r c, cell_at (g r) c =
     if bool_decide (c ∈ done) then F c (column c d0) (cell_at r c) else cell_at r c) ->
  col ∉ done ->
  exists g',
    rows (map_column (F col) col d) = map g' (rows d0) /\
    (forall r c, cell_at (g' r) c =
       if bool_decide (c ∈ col :: done) then F c (column c d0) (cell_at r c)
       else cell_at r c).
Proof.
  intros Hrows Hg Hcol.
  assert (Hcolumn : column col d = column col d0).
  { unfold column. rewrite Hrows, map_map. apply map_ext. intros r.
    rewrite Hg. by rewrite bool_decide_eq_false_2. }
  exists (fun r => <[col := F col (column col d0) (cell_at (g r) col)]> (g r)). split.
  - unfold map_column. cbn [rows]. rewrite Hcolumn, Hrows, map_map. reflexivity.
  - intros r c. rewrite cell_at_insert. destruct (decide (col = c)) as [->|Hne].
    + rewrite bool_decide_eq_true_2 by left. rewrite Hg.
      by rewrite bool_decide_eq_false_2.
    + rewrite Hg. repeat case_bool_decide; try done; exfalso; set_solver.
Qed.

Ltac coerce_cell_eval :=
  unfold coerce_cell;
  repeat (case_bool_decide; try discriminate; try contradiction);
  reflexivity.

Lemma coerce_cell_id `{Pandas} : coerce_cell "id" = fun _ => coerce_int.
Proof. coerce_cell_eval. Qed.
Lemma coerce_cell_quantity `{Pandas} : coerce_cell "quantity" = fun _ => coerce_int.
Proof. coerce_cell_eval. Qed.
Lemma coerce_cell_buy_price `{Pandas} : coerce_cell "buy_price" = coerce_float.
Proof. coerce_cell_eval. Qed.
Lemma coerce_cell_sell_price `{Pandas} : coerce_cell "sell_price" = coerce_float.
Proof. coerce_cell_eval. Qed.
Lemma coerce_cell_pnl `{Pandas} : coerce_cell "pnl" = coerce_float.
Proof. coerce_cell_eval. Qed.
Lemma coerce_cell_open_date `{Pandas} : coerce_cell "open_date" = to_datetime.
Proof. coerce_cell_eval. Qed.
Lemma coerce_cell_close_date `{Pandas} : coerce_cell "close_date" = to_datetime.
Proof. coerce_cell_eval. Qed.
Lemma coerce_cell_symbol `{Pandas} : coerce_cell "symbol" = fun _ x => x.
Proof. coerce_cell_eval. Qed.
Lemma coerce_cell_status `{Pandas} : coerce_cell "status" = fun _ x => x.
Proof. coerce_cell_eval. Qed.
Lemma coerce_cell_notes `{Pandas} : coerce_cell "notes" = fun _ x => x.
Proof. coerce_cell_eval. Qed.

Lemma coerce_cell_other `{Pandas} c :
  c ∉ ["close_date"; "open_date"; "pnl"; "quantity"; "sell_price"; "buy_price"; "id"] ->
  coerce_cell c = fun _ x => x.
Proof.
  intros Hc. unfold coerce_cell.
  repeat (case_bool_decide; [exfalso; subst; set_solver|]). reflexivity.
Qed.

Lemma coerce_columns_eq `{Pandas} (d : DataFrame) :
  coerce_columns d =
  map_column (coerce_cell "close_date") "close_date"
   (map_column (coerce_cell "open_date") "open_date"
    (map_column (coerce_cell "pnl") "pnl"
     (map_column (coerce_cell "quantity") "quantity"
      (map_column (coerce_cell "sell_price") "sell_price"
       (map_column (coerce_cell "buy_price") "buy_price"
        (map_column (coerce_cell "id") "id" d)))))).
Proof.
  rewrite coerce_cell_id, coerce_cell_quantity, coerce_cell_buy_price,
    coerce_cell_sell_price, coerce_cell_pnl, coerce_cell_open_date,
    coerce_cell_close_date.
  reflexivity.
Qed.

Lemma coerce_columns_spec `{Pandas} (d : DataFrame) :
  columns (coerce_columns d) = columns d /\
  exists g : row -> row,
    rows (coerce_columns d) = map g (rows d) /\
    forall r c, cell_at (g r) c = coerce_cell c (column c d) (cell_at r c).
Proof.
  split; [reflexivity|]. rewrite coerce_columns_eq.
  destruct (map_column_step coerce_cell d d (fun r => r) [] "id")
    as (g1 & Hr1 & Hg1); [by rewrite map_id|done|set_solver|].
  destruct (map_column_step coerce_cell d _ g1 _ "buy_price" Hr1 Hg1)
    as (g2 & Hr2 & Hg2); [set_solver|].
  destruct (map_column_step coerce_cell d _ g2 _ "sell_price" Hr2 Hg2)
    as (g3 & Hr3 & Hg3); [set_solver|].
  destruct (map_column_step coerce_cell d _ g3 _ "quantity" Hr3 Hg3)
    as (g4 & Hr4 & Hg4); [set_solver|].
  destruct (map_column_step coerce_cell d _ g4 _ "pnl" Hr4 Hg4)
    as (g5 & Hr5 & Hg5); [set_solver|].
  destruct (map_column_step coerce_cell d _ g5 _ "open_date" Hr5 Hg5)
    as (g6 & Hr6 & Hg6); [set_solver|].
  destruct (map_column_step coerce_cell d _ g6 _ "close_date" Hr6 Hg6)
    as (g7 & Hr7 & Hg7); [set_solver|].
  exists g7. split; [exact Hr7|]. intros r c. rewrite Hg7.
  case_bool_decide as Hc; [reflexivity|]. by rewrite (coerce_cell_other c Hc).
Qed.

Lemma normalize_spec `{Pandas} (df : DataFrame) :
  columns (normalize df) ≡ₚ COLUMNS /\
  exists g : row -> row,
    rows (normalize df) = map g (rows df) /\
    forall r c, c ∈ COLUMNS ->
      cell_at (g r) c = coerce_cell c (loaded_column df c) (loaded_cell (columns df) r c).
Proof.
  rewrite normalize_unfold.
  pose proof (select_fill_inv df) as Hsel. cbv zeta in Hsel.
  pose proof (elem_of_existing (columns df)) as HE'.
  set (E := List.filter (fun c => bool_decide (c ∈ columns df)) COLUMNS) in *.
  destruct (fill_inv_foldl (rows df) E COLUMNS _ _ Hsel)
    as (g1 & (Hrows & Hnd & HE & Hg) & Hall & Hsub & _).
  assert (Hsub' : forall c,
            c ∈ columns (foldl fill_step (select_columns E df) COLUMNS) -> c ∈ COLUMNS).
  { intros c Hc. destruct (Hsub c Hc) as [Hc'|Hc']; [|done].
    apply HE' in Hc'. tauto. }
  clear Hsel Hsub.
  set (d1 := foldl fill_step (select_columns E df) COLUMNS) in *. clearbody d1.
  clearbody E.
  destruct (coerce_columns_spec d1) as (Hcols & g2 & Hrows2 & Hg2).
  assert (Hcell : forall r c, c ∈ COLUMNS -> cell_at (g1 r) c = loaded_cell (columns df) r c).
  { intros r c Hc. unfold cell_at, loaded_cell. rewrite Hg.
    rewrite (bool_decide_eq_true_2 _ (Hall c Hc)).
    repeat case_bool_decide; try done; exfalso.
    * match goal with H : _ ∈ E |- _ => apply HE' in H end. tauto.
    * match goal with H : ¬ _ ∈ E |- _ => apply H, HE' end. done. }
  split.
  - rewrite Hcols. apply NoDup_Permutation; [done|apply NoDup_COLUMNS|].
    intros c. split; auto.
  - exists (fun r => g2 (g1 r)). split.
    + rewrite Hrows2, Hrows, map_map. reflexivity.
    + intros r c Hc. rewrite Hg2, (Hcell r c Hc). f_equal.
      unfold column, loaded_column. rewrite Hrows, map_map.
      apply map_ext. intros r0. by apply Hcell.
Qed.

Lemma in_COLUMNS :
  "id" ∈ COLUMNS /\ "symbol" ∈ COLUMNS /\ "buy_price" ∈ COLUMNS /\
  "sell_price" ∈ COLUMNS /\ "quantity" ∈ COLUMNS /\ "open_date" ∈ COLUMNS /\
  "close_date" ∈ COLUMNS /\ "pnl" ∈ COLUMNS /\ "pnl_percent" ∈ COLUMNS /\
  "status" ∈ COLUMNS /\ "notes" ∈ COLUMNS.
Proof. repeat split; apply (bool_decide_unpack _); vm_compute; exact I. Qed.

Lemma coerce_int_is_int `{Pandas} c : is_int (coerce_int c) = true.
Proof. unfold coerce_int. by destruct (to_numeric c) as [[]|]. Qed.

Lemma coerce_float_is_number `{Pandas} col c : is_number (coerce_float col c) = true.
Proof.
  unfold coerce_float. destruct (to_numeric c) as [[]|]; try reflexivity.
  by destruct (all_int col).
Qed.

Lemma to_datetime_is_datetime `{Pandas} col c : is_datetime (to_datetime col c) = true.
Proof.
  unfold to_datetime. destruct (is_null c); [reflexivity|].
  destruct (forallb _ col); [by destruct c|].
  destruct (forallb _ col).
  - destruct c as [| | | | |s|]; try reflexivity. simpl. by destruct (parse_ymd s).
  - by destruct (to_datetime_other col c).
Qed.

Lemma normalize_typed `{Pandas} (df : DataFrame) : frame_typed (normalize df).
Proof.
  destruct (normalize_spec df) as (Hcols & g & Hrows & Hg).
  destruct in_COLUMNS as (Hid & _ & Hbp & Hsp & Hq & Hod & Hcd & Hpnl & _).
  split; [done|]. rewrite Hrows. apply Forall_map, Forall_forall.
  intros r _. unfold row_typed.
  rewrite !Hg by done.
  rewrite coerce_cell_id, coerce_cell_quantity, coerce_cell_buy_price,
    coerce_cell_sell_price, coerce_cell_pnl, coerce_cell_open_date,
    coerce_cell_close_date.
  rewrite !to_datetime_is_datetime, !coerce_int_is_int, !coerce_float_is_number.
  reflexivity.
Qed.

Lemma empty_frame_typed : frame_typed empty_frame.
Proof. split; [done|]. by apply Forall_nil. Qed.

(** [get_data] never raises; from a world a run can reach it returns a
    frame with the loaded dtypes and leaves exactly that frame memoised. *)
Lemma get_data_ok `{Pandas} (w : world) :
  cache_ok w ->
  exists df, get_data w = (inr df, MkWorld (sheet (get_data w).2) (Some df)) /\
             frame_typed df /\
             (cache w = Some df \/ cache w = None).
Proof.
  intros Hok. unfold cache_ok in Hok.
  destruct (cache w) as [df|] eqn:Hc.
  - exists df. rewrite (get_data_hit w df Hc). simpl.
    destruct w as [s c]. simpl in *. subst. auto.
  - rewrite (get_data_miss w Hc).
    destruct (df_empty (sheet w) || _).
    + exists empty_frame. simpl. auto using empty_frame_typed.
    + exists (normalize (read_frame (sheet w))). simpl. auto using normalize_typed.
Qed.

(** ** The read cache *)

Lemma get_data_cache `{Pandas} (w : world) :
  exists df, (get_data w).1 = inr df /\ cache (get_data w).2 = Some df.
Proof.
  destruct (cache w) as [df|] eqn:Hc.
  - exists df. by rewrite (get_data_hit w df Hc).
  - rewrite (get_data_miss w Hc).
    destruct (df_empty (sheet w) || _); eexists; split; reflexivity.
Qed.

(** A mutating operation touches the memoised value only through the
    [get_data] call it starts with. *)
Lemma mutation_keeps_cache `{Pandas} (m : mutation) (w : world) :
  cache (run_mutation m w).2 = cache (get_data w).2.
Proof.
  destruct m as [s p q d n|i p d n|i]; simpl;
    unfold add_buy_position, close_position, delete_trade, mbind, M_bind.
  - destruct (get_data w) as [[e|df] w1]; [reflexivity|].
    unfold lift. destruct (next_id df); reflexivity.
  - destruct (get_data w) as [[e|df] w1]; [reflexivity|].
    destruct (first_index _ _) as [idx|]; [|reflexivity].
    destruct (rows df !! idx) as [r|]; [|reflexivity].
    unfold mbind, M_bind, lift.
    destruct (close_values r p n) as [e|[[a b] c]]; [reflexivity|].
    destruct (close_row idx p d a b c df); reflexivity.
  - destruct (get_data w) as [[e|df] w1]; reflexivity.
Qed.

Lemma get_open_positions_fst `{Pandas} (w w' : world) :
  (get_data w').1 = (get_data w).1 ->
  (get_open_positions w').1 = (get_open_positions w).1.
Proof.
  unfold get_open_positions, mbind, M_bind. intros Heq.
  destruct (get_data w) as [[e|df] w1], (get_data w') as [[e'|df'] w1'];
    simpl in Heq; try discriminate; inversion Heq; subst; [reflexivity|].
  destruct (df_empty df); reflexivity.
Qed.

Lemma get_closed_trades_fst `{Pandas} sort (w w' : world) :
  (get_data w').1 = (get_data w).1 ->
  (get_closed_trades sort w').1 = (get_closed_trades sort w).1.
Proof.
  unfold get_closed_trades, mbind, M_bind. intros Heq.
  destruct (get_data w) as [[e|df] w1], (get_data w') as [[e'|df'] w1'];
    simpl in Heq; try discriminate; inversion Heq; subst; [reflexivity|].
  destruct (df_empty df); reflexivity.
Qed.

(** C1, as the code has it. No mutating operation invalidates or refreshes
    the memoised table: after [open], [close] or [delete] the cache holds
    the table the operation itself read, and [get_data], [listOpen] and
    [listClosed] return exactly what they would have returned before the
    mutation. The mutation is visible only to a read that starts with an
    empty cache. *)
Theorem queries_ignore_mutation `{Pandas} sort (m : mutation) (w : world) :
  let w' := (run_mutation m w).2 in
  cache w' = cache (get_data w).2 /\
  cache w' <> None /\
  (get_data w').1 = (get_data w).1 /\
  (get_open_positions w').1 = (get_open_positions w).1 /\
  (get_closed_trades sort w').1 = (get_closed_trades sort w).1.
Proof.
  intros w'. pose proof (mutation_keeps_cache m w) as Hc. fold w' in Hc.
  destruct (get_data_cache w) as (df & Hdf & Hcache).
  assert (Hget : (get_data w').1 = (get_data w).1).
  { rewrite Hcache in Hc. by rewrite (get_data_hit w' df Hc), Hdf. }
  split; [done|]. split; [by rewrite Hc, Hcache|]. split; [done|].
  split; [by apply get_open_positions_fst|by apply get_closed_trades_fst].
Qed.

(** C1 fails on the code: in a fresh process whose worksheet holds one open
    position, [open] writes a second row to the worksheet, yet [listOpen]
    afterwards still returns the single old row; only after a restart does
    the query see both. *)
Lemma stale_read_after_open :
  let w0 := MkWorld sheet_one_open None in
  let w1 := (@add_buy_position bare_pandas "msft" (50#1) 2 (MkDate 2024 3 1) "n" w0).2 in
  ids (sheet w1) = [1; 2] /\
  ids <$> returned (@get_open_positions bare_pandas w1) = Some [1] /\
  ids <$> returned (@get_open_positions bare_pandas (restart w1)) = Some [1; 2].
Proof. vm_compute. repeat split; reflexivity. Qed.

(** ** Id allocation *)

Lemma max0_nonneg (l : list Z) : 0 <= max0 l.
Proof. induction l as [|z l IH]; simpl; lia. Qed.

Lemma max0_upper (l : list Z) z : z ∈ l -> z <= max0 l.
Proof.
  induction l as [|a l IH]; intros Hin.
  - by apply elem_of_nil in Hin.
  - apply elem_of_cons in Hin as [-> | Hin]; simpl; [lia|].
    specialize (IH Hin). lia.
Qed.

Lemma series_max_ints (l : list Z) :
  exists o, series_max (map Int l) = inr o /\
            match o with
            | None => l = []
            | Some m => l <> [] /\ Z.max 0 m = max0 l
            end.
Proof.
  induction l as [|z l (o & Ho & Hspec)]; simpl.
  - by exists None.
  - rewrite Ho. destruct o as [m|].
    + exists (Some (Z.max z m)). split; [done|]. split; [done|].
      destruct Hspec as [_ Hm]. lia.
    + exists (Some z). subst l. simpl. split; [done|]. split; [done|]. lia.
Qed.

Lemma row_typed_id (r : row) :
  row_typed r = true -> cell_at r "id" = Int (int_val (cell_at r "id")).
Proof.
  unfold row_typed. intros Ht.
  destruct (cell_at r "id"); simpl in *; try discriminate. reflexivity.
Qed.

Lemma column_id_typed (df : DataFrame) :
  Forall (fun r => row_typed r = true) (rows df) ->
  column "id" df = map Int (ids df).
Proof.
  unfold column, ids. rewrite map_map. intros Hall.
  apply map_ext_in. intros r Hr.
  apply row_typed_id. rewrite Forall_forall in Hall. apply Hall.
  by apply list_elem_of_In.
Qed.

Lemma frame_typed_id_column (df : DataFrame) :
  frame_typed df -> "id" ∈ columns df.
Proof.
  intros [Hp _]. rewrite Hp. apply in_COLUMNS.
Qed.

Lemma frame_typed_empty (df : DataFrame) :
  frame_typed df -> df_empty df = true -> rows df = [].
Proof.
  intros [Hp _]. unfold df_empty.
  destruct (columns df) as [|c cs] eqn:Hc.
  - apply Permutation_nil in Hp. discriminate.
  - destruct (rows df); [done|discriminate].
Qed.

(** On a frame with the loaded dtypes the id computed by lines 84-87 is
    [max(ids ∪ {0}) + 1]. *)
Lemma next_id_typed (df : DataFrame) :
  frame_typed df -> next_id df = inr (max0 (ids df) + 1).
Proof.
  intros Ht. unfold next_id.
  destruct (df_empty df) eqn:He; simpl.
  - unfold ids. rewrite (frame_typed_empty df Ht He). reflexivity.
  - rewrite bool_decide_eq_true_2 by by apply frame_typed_id_column.
    rewrite (column_id_typed df (proj2 Ht)).
    destruct (series_max_ints (ids df)) as (o & -> & Hspec).
    destruct o as [m|].
    + destruct Hspec as [_ Hm]. f_equal.
      destruct (0 <? m) eqn:Hpos; [apply Z.ltb_lt in Hpos|apply Z.ltb_ge in Hpos]; lia.
    + rewrite Hspec. reflexivity.
Qed.

(** ** Writing a frame *)

Lemma lookup_tabulate (f : string -> cell) (cols : list string) c :
  (list_to_map (map (fun c => (c, f c)) cols) : row) !! c =
    if bool_decide (c ∈ cols) then Some (f c) else None.
Proof.
  induction cols as [|a cols IH]; cbn [map].
  - rewrite list_to_map_nil, lookup_empty.
    by rewrite bool_decide_eq_false_2 by apply not_elem_of_nil.
  - rewrite list_to_map_cons. destruct (decide (a = c)) as [->|Hne].
    + rewrite lookup_insert_eq. by rewrite bool_decide_eq_true_2 by left.
    + rewrite lookup_insert_ne by done. rewrite IH.
      repeat case_bool_decide; try done; exfalso; set_solver.
Qed.

Lemma lookup_reindex (cols : list string) (r : row) c :
  reindex cols r !! c = if bool_decide (c ∈ cols) then Some (cell_at r c) else None.
Proof. apply (lookup_tabulate (cell_at r)). Qed.

Lemma cell_at_reindex (cols : list string) (r : row) c :
  c ∈ cols -> cell_at (reindex cols r) c = cell_at r c.
Proof.
  intros Hc. unfold cell_at at 1. by rewrite lookup_reindex, bool_decide_eq_true_2.
Qed.

Lemma lookup_save_row `{Pandas} (df : DataFrame) (r : row) c :
  save_row df r !! c =
    if bool_decide (c ∈ columns df) then Some (save_cell df c (cell_at r c)) else None.
Proof. apply (lookup_tabulate (fun c => save_cell df c (cell_at r c))). Qed.

Lemma save_frame_columns `{Pandas} (df : DataFrame) :
  columns (save_frame df) = columns df.
Proof. reflexivity. Qed.

(** [save_data] writes the rows one by one, each laid out on the columns
    of the frame. *)
Lemma save_frame_rows `{Pandas} (df : DataFrame) :
  rows (save_frame df) = map (save_row df) (rows df).
Proof.
  unfold save_frame, fillna_frame.
  set (d1 := map_column to_datetime "open_date" df).
  set (d2 := map_column to_datetime "close_date" d1).
  set (d3 := map_column (fun _ => dt_strftime) "open_date" d2).
  set (d4 := map_column (fun _ => dt_strftime) "close_date" d3).
  assert (Hc2 : column "close_date" d1 = column "close_date" df).
  { unfold d1. rewrite column_map_column. by destruct (decide _). }
  assert (H1 : rows d1 =
            map (fun r : row => <["open_date" :=
                   to_datetime (column "open_date" df) (cell_at r "open_date")]> r) (rows df))
    by reflexivity.
  assert (H2 : rows d2 =
            map (fun r : row => <["close_date" :=
                   to_datetime (column "close_date" d1) (cell_at r "close_date")]> r) (rows d1))
    by reflexivity.
  assert (H3 : rows d3 =
            map (fun r : row => <["open_date" := dt_strftime (cell_at r "open_date")]> r)
                (rows d2)) by reflexivity.
  assert (H4 : rows d4 =
            map (fun r : row => <["close_date" := dt_strftime (cell_at r "close_date")]> r)
                (rows d3)) by reflexivity.
  assert (Hcols : columns d4 = columns df) by reflexivity.
  clearbody d4 d3 d2 d1. cbn [rows columns].
  rewrite Hcols, H4, H3, H2, H1, Hc2, !map_map.
  apply map_ext. intros r. apply map_eq. intros c.
  rewrite lookup_fmap, lookup_reindex, lookup_save_row.
  case_bool_decide as Hin; [|reflexivity]. cbn [fmap option_fmap option_map].
  f_equal. unfold save_cell. rewrite !cell_at_insert.
  repeat (case_decide; subst; try discriminate; try contradiction);
    repeat (case_bool_decide; try tauto); try reflexivity;
    exfalso; naive_solver.
Qed.

(** A column other than the two dates is written as it is, missing values
    as the empty string. *)
Lemma cell_at_save_row `{Pandas} (df : DataFrame) (r : row) c :
  c ∈ columns df -> c <> "open_date" -> c <> "close_date" ->
  cell_at (save_row df r) c = fillna_empty (cell_at r c).
Proof.
  intros Hin Ho Hc. unfold cell_at at 1. rewrite lookup_save_row.
  rewrite bool_decide_eq_true_2 by done. unfold save_cell.
  by rewrite bool_decide_eq_false_2 by tauto.
Qed.

Lemma cell_at_save_row_date `{Pandas} (df : DataFrame) (r : row) c :
  c ∈ columns df -> c = "open_date" \/ c = "close_date" ->
  cell_at (save_row df r) c =
    fillna_empty (dt_strftime (to_datetime (column c df) (cell_at r c))).
Proof.
  intros Hin Hc. unfold cell_at at 1. rewrite lookup_save_row.
  rewrite bool_decide_eq_true_2 by done. unfold save_cell.
  by rewrite bool_decide_eq_true_2.
Qed.

(** On a column of Timestamps and missing values [to_datetime] keeps the
    Timestamps and turns everything else into NaT. *)
Lemma to_datetime_clean `{Pandas} (col : list cell) (v : cell) :
  forallb (fun x => is_timestamp x || is_null x) col = true ->
  to_datetime col v = match v with Timestamp t => Timestamp t | _ => NaT end.
Proof. intros Hc. unfold to_datetime. rewrite Hc. by destruct v as [| | | | |[]|]. Qed.

Lemma save_cell_clean `{Pandas} (df : DataFrame) c v :
  dates_clean df = true -> save_cell df c v = saved_cell c v.
Proof.
  intros Hd. unfold dates_clean in Hd. apply andb_true_iff in Hd as [Ho Hc].
  unfold save_cell, saved_cell. case_bool_decide as Hdate; [|reflexivity].
  destruct Hdate as [-> | ->]; rewrite to_datetime_clean by done; by destruct v.
Qed.

(** When the date columns hold datetimes, what is written for a row depends
    on that row only. *)
Lemma save_row_clean `{Pandas} (df : DataFrame) (r : row) :
  dates_clean df = true -> save_row df r = saved_row (columns df) r.
Proof.
  intros Hd. unfold save_row, saved_row. f_equal. apply map_ext. intros c.
  by rewrite save_cell_clean.
Qed.

Lemma concat_rows (a b : DataFrame) :
  rows (concat a b) = map (reindex (columns (concat a b))) (rows a ++ rows b)%list.
Proof. reflexivity. Qed.

Lemma concat_columns_l (a b : DataFrame) c :
  c ∈ columns a -> c ∈ columns (concat a b).
Proof. intros Hc. unfold concat. cbn [columns]. apply elem_of_app. by left. Qed.

(** The id a row carries survives the write. *)
Lemma saved_id_plain `{Pandas} (df : DataFrame) (r : row) z :
  "id" ∈ columns df -> cell_at r "id" = Int z ->
  int_val (cell_at (save_row df r) "id") = z.
Proof.
  intros Hin Hz. rewrite cell_at_save_row by done. by rewrite Hz.
Qed.

Ltac lookup_row :=
  rewrite ?list_to_map_cons;
  repeat (rewrite lookup_insert_ne by discriminate);
  rewrite lookup_insert_eq.

Lemma new_row_id `{Pandas} i s p q d n : cell_at (new_row i s p q d n) "id" = Int i.
Proof. unfold cell_at, new_row. lookup_row. reflexivity. Qed.

Lemma ids_saved_append `{Pandas} (df : DataFrame) (r : row) z :
  frame_typed df -> cell_at r "id" = Int z ->
  ids (save_frame (concat df (MkDF COLUMNS [r]))) = (ids df ++ [z])%list.
Proof.
  intros Ht Hz. unfold ids. rewrite save_frame_rows.
  assert (Hin : "id" ∈ columns (concat df (MkDF COLUMNS [r])))
    by by apply concat_columns_l, frame_typed_id_column.
  set (cdf := concat df (MkDF COLUMNS [r])) in *.
  assert (Hrows : rows cdf = map (reindex (columns cdf)) (rows df ++ [r])%list)
    by reflexivity.
  rewrite Hrows. clearbody cdf.
  rewrite !map_map, map_app. cbn [map]. f_equal.
  - apply map_ext_in. intros r0 Hr0. apply saved_id_plain; [done|].
    rewrite cell_at_reindex by done.
    apply row_typed_id. destruct Ht as [_ Hall].
    rewrite Forall_forall in Hall. apply Hall. by apply list_elem_of_In.
  - f_equal. apply saved_id_plain; [done|]. by rewrite cell_at_reindex.
Qed.

(** C2, as the code has it. Starting from any world a run can be in, [open]
    never raises, and the id it gives the new row is [max(ids ∪ {0}) + 1]
    over the ids of the table [get_data] handed it (1 when that table is
    empty). The worksheet it writes carries the ids of that table followed
    by the new id, which is larger than each of them: the new id is fresh
    among the rows of the table that was read, not among all ids ever
    assigned. *)
Theorem open_assigns_max_plus_one `{Pandas} (w : world) s p q d n :
  cache_ok w ->
  exists df sheet1,
    get_data w = (inr df, MkWorld sheet1 (Some df)) /\
    let new_id := max0 (ids df) + 1 in
    let written := save_frame (concat df (MkDF COLUMNS [new_row new_id s p q d n])) in
    add_buy_position s p q d n w = (inr tt, MkWorld written (Some df)) /\
    ids written = (ids df ++ [new_id])%list /\
    (ids df = [] -> new_id = 1) /\
    (forall z, z ∈ ids df -> z < new_id).
Proof.
  intros Hok. destruct (get_data_ok w Hok) as (df & Hget & Ht & _).
  exists df, (sheet (get_data w).2). split; [exact Hget|]. cbv zeta.
  split; [|split; [|split]].
  - unfold add_buy_position, mbind, M_bind. rewrite Hget.
    unfold lift. rewrite (next_id_typed df Ht). reflexivity.
  - apply ids_saved_append; [done|apply new_row_id].
  - intros ->. reflexivity.
  - intros z Hz. apply max0_upper in Hz. lia.
Qed.

Lemma open_assigns_max_plus_one_witness :
  cache_ok (MkWorld sheet_one_open None) /\
  exists df sheet1,
    @get_data bare_pandas (MkWorld sheet_one_open None) = (inr df, MkWorld sheet1 (Some df)) /\
    let new_id := max0 (ids df) + 1 in
    let written :=
      @save_frame bare_pandas
        (concat df (MkDF COLUMNS
                      [@new_row bare_pandas new_id "msft" (50#1) 2 (MkDate 2024 3 1) "n"])) in
    @add_buy_position bare_pandas "msft" (50#1) 2 (MkDate 2024 3 1) "n"
        (MkWorld sheet_one_open None) = (inr tt, MkWorld written (Some df)) /\
    ids written = (ids df ++ [new_id])%list /\
    (ids df = [] -> new_id = 1) /\
    (forall z, z ∈ ids df -> z < new_id).
Proof.
  split; [exact I|].
  apply (@open_assigns_max_plus_one bare_pandas (MkWorld sheet_one_open None)).
  exact I.
Defined.

(** C2 fails on the code, even when every operation starts from a freshly
    loaded table: open, open, delete the second row, open. The third [open]
    hands out id 2, the id the deleted row had. *)
Lemma id_reused_after_delete :
  let op (m : mutation) (w : world) := restart (@run_mutation bare_pandas m w).2 in
  let w0 := MkWorld empty_frame None in
  let w1 := op (Open "aapl" (100#1) 10 (MkDate 2024 1 5) "A") w0 in
  let w2 := op (Open "msft" (50#1) 2 (MkDate 2024 1 6) "B") w1 in
  let w3 := op (Delete 2) w2 in
  let w4 := op (Open "goog" (70#1) 3 (MkDate 2024 1 7) "C") w3 in
  ids (sheet w1) = [1] /\ ids (sheet w2) = [1; 2] /\
  ids (sheet w3) = [1] /\ ids (sheet w4) = [1; 2] /\
  map (fun r => cell_at r "symbol") (rows (sheet w2)) = [Str "AAPL"; Str "MSFT"] /\
  map (fun r => cell_at r "symbol") (rows (sheet w4)) = [Str "AAPL"; Str "GOOG"].
Proof. vm_compute. repeat split; reflexivity. Qed.

(** Within one process the stale cache makes it worse: two [open]s in a row
    both read the table memoised at start-up, both assign id 1, and the
    second write replaces the first row. *)
Lemma id_reused_without_restart :
  let w0 := MkWorld empty_frame None in
  let w1 := (@add_buy_position bare_pandas "aapl" (100#1) 10 (MkDate 2024 1 5) "A" w0).2 in
  let w2 := (@add_buy_position bare_pandas "msft" (50#1) 2 (MkDate 2024 1 6) "B" w1).2 in
  ids (sheet w1) = [1] /\ ids (sheet w2) = [1] /\
  map (fun r => cell_at r "symbol") (rows (sheet w2)) = [Str "MSFT"].
Proof. vm_compute. repeat split; reflexivity. Qed.

(** ** Closing a position *)

Lemma first_index_Some (p : row -> bool) (l : list row) idx :
  first_index p l = Some idx ->
  exists r, l !! idx = Some r /\ p r = true /\
            forall j r', (j < idx)%nat -> l !! j = Some r' -> p r' = false.
Proof.
  revert idx. induction l as [|a l IH]; intros idx Hf; simpl in Hf; [discriminate|].
  destruct (p a) eqn:Hpa.
  - inversion Hf; subst. exists a. split; [done|]. split; [done|]. intros j r' Hj. lia.
  - destruct (first_index p l) as [i|] eqn:Hi; simpl in Hf; [|discriminate].
    inversion Hf; subst. destruct (IH i eq_refl) as (r & Hr & Hpr & Hbefore).
    exists r. split; [done|]. split; [done|].
    intros [|j] r' Hj Hl; simpl in Hl.
    + by inversion Hl; subst.
    + apply (Hbefore j); [lia|done].
Qed.

Lemma first_index_None (p : row -> bool) (l : list row) :
  first_index p l = None -> forall r, r ∈ l -> p r = false.
Proof.
  induction l as [|a l IH]; intros Hf r Hr; simpl in Hf.
  - by apply elem_of_nil in Hr.
  - destruct (p a) eqn:Hpa; [discriminate|].
    destruct (first_index p l); [discriminate|].
    apply elem_of_cons in Hr as [-> | Hr]; auto.
Qed.

Lemma lookup_map {A B} (f : A -> B) (l : list A) i :
  map f l !! i = f <$> l !! i.
Proof. revert i. induction l as [|a l IH]; intros [|i]; simpl; auto. Qed.

(** An assignment leaves the other columns as they are, and with them
    their dtypes. *)
Lemma column_assign idx col v (d : DataFrame) c :
  col <> c -> column c (assign idx col v d) = column c d.
Proof.
  intros Hne. unfold column, assign. cbn [rows]. apply list_eq. intros j.
  rewrite !lookup_map. destruct (decide (j = idx)) as [->|Hj].
  - rewrite list_lookup_alter_eq. destruct (rows d !! idx) as [r|]; [|reflexivity].
    cbn. f_equal. rewrite cell_at_insert. by destruct (decide (col = c)).
  - by rewrite list_lookup_alter_ne.
Qed.

Lemma stored_assign idx col v (d : DataFrame) c x :
  col <> c -> stored (assign idx col v d) c x = stored d c x.
Proof. intros Hne. unfold stored. by rewrite column_assign. Qed.

Lemma set_at_stored idx col v (d : DataFrame) :
  set_at idx col v d =
    match stored d col v with
    | Some v' => inr (assign idx col v' d)
    | None => inl TypeError
    end.
Proof. reflexivity. Qed.

(** The six assignments of lines 131-136 either all go through, and then
    change the row at [idx] only, or the first one that does not fit its
    column raises. *)
Lemma close_row_spec idx sp cd pnl pct nn (df : DataFrame) :
  close_row idx sp cd pnl pct nn df =
    match close_cells df sp cd pnl pct nn with
    | Some f => inr (MkDF (columns df) (alter f idx (rows df)))
    | None => inl TypeError
    end.
Proof.
  unfold close_row, close_cells.
  rewrite set_at_stored.
  destruct (stored df "sell_price" (Float sp)) as [v1|]; [|reflexivity].
  cbn [mbind exn_bind option_bind].
  rewrite set_at_stored, stored_assign by done.
  destruct (stored df "close_date" (to_datetime_date cd)) as [v2|]; [|reflexivity].
  cbn [mbind exn_bind option_bind].
  rewrite set_at_stored, !stored_assign by done.
  destruct (stored df "pnl" pnl) as [v3|]; [|reflexivity].
  cbn [mbind exn_bind option_bind].
  rewrite set_at_stored, !stored_assign by done.
  destruct (stored df "pnl_percent" pct) as [v4|]; [|reflexivity].
  cbn [mbind exn_bind option_bind].
  rewrite set_at_stored, !stored_assign by done.
  destruct (stored df "status" (Str "CLOSED")) as [v5|]; [|reflexivity].
  cbn [mbind exn_bind option_bind].
  rewrite set_at_stored, !stored_assign by done.
  destruct (stored df "notes" nn) as [v6|]; [|reflexivity].
  cbn [mbind exn_bind option_bind].
  unfold assign. cbn [rows columns]. rewrite !list_alter_alter_eq. reflexivity.
Qed.

Lemma row_typed_buy_price (r : row) :
  row_typed r = true -> is_number (cell_at r "buy_price") = true.
Proof.
  unfold row_typed. intros Ht. repeat (apply andb_true_iff in Ht as [Ht ?]).
  repeat match goal with H : _ && _ = true |- _ => apply andb_true_iff in H as [? ?] end.
  assumption.
Qed.

Lemma row_typed_quantity (r : row) :
  row_typed r = true -> exists q, cell_at r "quantity" = Int q.
Proof.
  unfold row_typed. intros Ht.
  destruct (cell_at r "quantity"); simpl in *;
    rewrite ?andb_false_r in Ht; try discriminate. eauto.
Qed.

Lemma Qeq_bool_inject_Z (z : Z) : Qeq_bool (inject_Z z) 0 = (z =? 0).
Proof. unfold Qeq_bool, inject_Z. simpl. by rewrite Z.mul_1_r. Qed.

(** The arithmetic of lines 123-126 on a loaded row: no step raises, the
    profit is a float, and the percentage is a float or the integer 0. *)
Lemma close_values_typed `{Pandas} (r : row) (sp : Q) notes q :
  is_number (cell_at r "buy_price") = true -> cell_at r "quantity" = Int q ->
  close_values r sp notes =
    inr (Float (pnl_of (cell_at r "buy_price") q sp),
         pct_of (cell_at r "buy_price") q sp,
         closing_notes (cell_at r "notes") notes).
Proof.
  intros Hbp Hq. unfold close_values, pct_of, pnl_of. rewrite Hq.
  destruct (cell_at r "buy_price") as [| | |b|b| |]; try discriminate;
    unfold mbind, exn_bind, cell_mul, cell_sub; cbn [cell_arith cell_nonzero cost_of];
    fold (closing_notes (cell_at r "notes") notes).
  - rewrite Qeq_bool_inject_Z.
    destruct (wrap64 (b * q) =? 0) eqn:Hz; cbn [negb]; [reflexivity|].
    unfold cell_div. cbn [cell_nonzero]. rewrite Hz. cbn [negb cell_arith]. reflexivity.
  - destruct (Qeq_bool (b * inject_Z q) 0) eqn:Hz; cbn [negb]; [reflexivity|].
    unfold cell_div. cbn [cell_nonzero]. rewrite Hz. cbn [negb cell_arith]. reflexivity.
Qed.

(** What one call of [close_position] does from a world a run can be in:
    nothing when no row carries the id; otherwise the first such row is
    updated and the table written, unless an assignment raises, and then
    nothing is written. *)
Lemma close_position_spec `{Pandas} (w : world) trade_id (sp : Q) cd notes :
  cache_ok w ->
  exists df,
    (get_data w).1 = inr df /\ frame_typed df /\
    match first_index (id_is trade_id) (rows df) with
    | None => close_position trade_id sp cd notes w = (inr tt, (get_data w).2)
    | Some idx =>
        exists r,
          rows df !! idx = Some r /\ id_is trade_id r = true /\ row_typed r = true /\
          close_position trade_id sp cd notes w =
            match close_update df r sp cd notes with
            | Some f =>
                (inr tt,
                 MkWorld (save_frame (MkDF (columns df) (alter f idx (rows df)))) (Some df))
            | None => (inl TypeError, (get_data w).2)
            end
    end.
Proof.
  intros Hok. destruct (get_data_ok w Hok) as (df & Hget & Ht & _).
  exists df. split; [by rewrite Hget|]. split; [done|].
  unfold close_position, mbind, M_bind. rewrite Hget. fold (id_is trade_id).
  destruct (first_index (id_is trade_id) (rows df)) as [idx|] eqn:Hidx; [|reflexivity].
  destruct (first_index_Some _ _ _ Hidx) as (r & Hr & Hid & _).
  assert (Htr : row_typed r = true).
  { destruct Ht as [_ Hall]. rewrite Forall_forall in Hall. apply Hall.
    by eapply list_elem_of_lookup_2. }
  pose proof (row_typed_buy_price r Htr) as Hbp.
  destruct (row_typed_quantity r Htr) as (q & Hq).
  exists r. repeat (split; [done|]). rewrite Hr.
  unfold mbind, M_bind, lift. rewrite (close_values_typed r sp notes q Hbp Hq).
  rewrite close_row_spec. unfold close_update. rewrite Hq. cbv zeta.
  destruct (close_cells df sp cd _ _ _); reflexivity.
Qed.

(** ** What an accepted assignment stores *)

Lemma cast_to_holds d v v' q :
  cast_to d v = Some v' -> cell_holds v q -> cell_holds v' q.
Proof.
  destruct d, v; simpl; intros Hc Hh; try discriminate; try contradiction;
    try (inversion Hc; subst; exact Hh).
  - destruct (in_int64 z); inversion Hc; subst. exact Hh.
  - destruct (is_integral q0 && in_int64 (Qfloor q0)) eqn:Hi; inversion Hc; subst.
    apply andb_true_iff in Hi as [Hi _]. unfold is_integral in Hi.
    apply Qeq_bool_iff in Hi. simpl. by rewrite Hi.
Qed.

Lemma cast_to_str d s v' : cast_to d (Str s) = Some v' -> v' = Str s.
Proof. destruct d; simpl; intros Hc; inversion Hc; reflexivity. Qed.

Lemma cast_to_timestamp d t v' : cast_to d (Timestamp t) = Some v' -> v' = Timestamp t.
Proof. destruct d; simpl; intros Hc; inversion Hc; reflexivity. Qed.

Lemma pct_of_holds bp q sp :
  exists x, cell_holds (pct_of bp q sp) x /\
    ((cost_of bp q == 0)%Q -> x = 0%Q) /\
    (~ (cost_of bp q == 0)%Q ->
       x = (pnl_of bp q sp / cost_of bp q * inject_Z 100)%Q).
Proof.
  unfold pct_of. destruct (Qeq_bool (cost_of bp q) 0) eqn:Hz.
  - apply Qeq_bool_iff in Hz. exists 0%Q. split; [reflexivity|]. split; [done|].
    intros Hn. contradiction.
  - exists (pnl_of bp q sp / cost_of bp q * inject_Z 100)%Q.
    split; [simpl; reflexivity|]. split; [|done].
    intros Hc. apply Qeq_bool_iff in Hc. congruence.
Qed.

Lemma closing_notes_str `{Pandas} (c : cell) notes :
  exists s, closing_notes c notes = Str s.
Proof. unfold closing_notes. destruct (py_bool c); eauto. Qed.

Ltac lookup_closed :=
  unfold closed_row;
  repeat (rewrite lookup_insert_ne by discriminate);
  rewrite lookup_insert_eq.

(** The update of an accepted close, cell by cell: it sets the six cells
    of lines 131-136 to the sell price, the close date, the profit, the
    percentage, CLOSED and the new notes, each as its column holds it, and
    leaves every other cell of the row as it is. *)
Lemma close_update_cells `{Pandas} (df : DataFrame) (r : row) sp cd notes q f :
  cell_at r "quantity" = Int q ->
  close_update df r sp cd notes = Some f ->
  let bp := cell_at r "buy_price" in
  forall r0 : row,
    cell_holds (cell_at (f r0) "sell_price") sp /\
    cell_at (f r0) "close_date" = to_datetime_date cd /\
    cell_holds (cell_at (f r0) "pnl") (pnl_of bp q sp) /\
    (exists x, cell_holds (cell_at (f r0) "pnl_percent") x /\
       ((cost_of bp q == 0)%Q -> x = 0%Q) /\
       (~ (cost_of bp q == 0)%Q ->
          x = (pnl_of bp q sp / cost_of bp q * inject_Z 100)%Q)) /\
    cell_at (f r0) "status" = Str "CLOSED" /\
    cell_at (f r0) "notes" = closing_notes (cell_at r "notes") notes /\
    (forall c, c ∉ ["sell_price"; "close_date"; "pnl"; "pnl_percent"; "status"; "notes"] ->
       f r0 !! c = r0 !! c).
Proof.
  intros Hq. unfold close_update. rewrite Hq. cbv zeta. unfold close_cells.
  destruct (stored df "sell_price" (Float sp)) as [v1|] eqn:H1; [|discriminate].
  destruct (stored df "close_date" (to_datetime_date cd)) as [v2|] eqn:H2; [|discriminate].
  destruct (stored df "pnl" _) as [v3|] eqn:H3; [|discriminate].
  destruct (stored df "pnl_percent" _) as [v4|] eqn:H4; [|discriminate].
  destruct (stored df "status" _) as [v5|] eqn:H5; [|discriminate].
  destruct (stored df "notes" _) as [v6|] eqn:H6; [|discriminate].
  cbn [mbind option_bind]. intros Hf r0. inversion Hf; subst f. clear Hf.
  unfold stored in *.
  destruct (closing_notes_str (cell_at r "notes") notes) as (s & Hs).
  rewrite Hs in *. apply cast_to_str in H5, H6. subst v5 v6.
  apply cast_to_timestamp in H2. subst v2.
  destruct (pct_of_holds (cell_at r "buy_price") q sp) as (x & Hx & Hx0 & Hx1).
  split; [|split; [|split; [|split; [|split; [|split]]]]].
  - unfold cell_at. lookup_closed. simpl.
    by apply (cast_to_holds _ _ _ _ H1).
  - unfold cell_at. lookup_closed. reflexivity.
  - unfold cell_at. lookup_closed. simpl.
    by apply (cast_to_holds _ _ _ _ H3).
  - exists x. split; [|done]. unfold cell_at. lookup_closed. simpl.
    by apply (cast_to_holds _ _ _ _ H4).
  - unfold cell_at. lookup_closed. reflexivity.
  - unfold cell_at. lookup_closed. reflexivity.
  - intros c Hc. unfold closed_row.
    rewrite !lookup_insert_ne by (intros <-; set_solver). reflexivity.
Qed.

(** ** Date columns of the frames that are written *)

Lemma dates_clean_rows (df : DataFrame) :
  dates_clean df = true <->
  Forall (fun r : row =>
            (is_timestamp (cell_at r "open_date") || is_null (cell_at r "open_date")) = true /\
            (is_timestamp (cell_at r "close_date") || is_null (cell_at r "close_date")) = true)
         (rows df).
Proof.
  unfold dates_clean, column. rewrite andb_true_iff, !forallb_forall, Forall_forall.
  split.
  - intros [Ho Hc] r Hr. apply list_elem_of_In in Hr. split.
    + apply Ho. by apply (in_map (fun r : row => cell_at r "open_date")).
    + apply Hc. by apply (in_map (fun r : row => cell_at r "close_date")).
  - intros Hall. split; intros x Hx; apply in_map_iff in Hx as (r & <- & Hr);
      apply list_elem_of_In in Hr; by apply Hall.
Qed.

Lemma datetime_clean (c : cell) :
  is_datetime c = true -> (is_timestamp c || is_null c) = true.
Proof. by destruct c. Qed.

Lemma row_typed_dates (r : row) :
  row_typed r = true ->
  (is_timestamp (cell_at r "open_date") || is_null (cell_at r "open_date")) = true /\
  (is_timestamp (cell_at r "close_date") || is_null (cell_at r "close_date")) = true.
Proof.
  unfold row_typed. rewrite !andb_true_iff.
  intros ((_ & Ho) & Hc). split; by apply datetime_clean.
Qed.

Lemma frame_typed_dates_clean (df : DataFrame) :
  frame_typed df -> dates_clean df = true.
Proof.
  intros [_ Hall]. apply dates_clean_rows.
  eapply Forall_impl; [exact Hall|]. intros r Hr. by apply row_typed_dates.
Qed.

(** A frame a closed row was put into still has clean date columns. *)
Lemma closed_frame_dates_clean `{Pandas} (df : DataFrame) (r : row) sp cd notes q f idx :
  frame_typed df ->
  cell_at r "quantity" = Int q ->
  close_update df r sp cd notes = Some f ->
  dates_clean (MkDF (columns df) (alter f idx (rows df))) = true.
Proof.
  intros Ht Hq Hf. apply dates_clean_rows. cbn [rows].
  pose proof (proj1 (dates_clean_rows df) (frame_typed_dates_clean df Ht)) as Hall.
  apply Forall_alter; [exact Hall|].
  intros r0 _ [Ho Hc].
  destruct (close_update_cells df r sp cd notes q f Hq Hf r0)
    as (_ & Hcd & _ & _ & _ & _ & Hother).
  split.
  - unfold cell_at. rewrite Hother by set_solver. exact Ho.
  - rewrite Hcd. reflexivity.
Qed.

(** The closed row and the rows around it, as they reach the worksheet. *)
Lemma closed_frame_saved `{Pandas} (df : DataFrame) (r : row) sp cd notes q f idx :
  frame_typed df ->
  rows df !! idx = Some r ->
  cell_at r "quantity" = Int q ->
  close_update df r sp cd notes = Some f ->
  let written := save_frame (MkDF (columns df) (alter f idx (rows df))) in
  columns written = columns df /\
  length (rows written) = length (rows df) /\
  rows written !! idx = Some (saved_row (columns df) (f r)) /\
  (forall j, j <> idx -> rows written !! j = saved_row (columns df) <$> rows df !! j).
Proof.
  intros Ht Hr Hq Hf. cbv zeta.
  pose proof (closed_frame_dates_clean df r sp cd notes q f idx Ht Hq Hf) as Hclean.
  rewrite save_frame_rows. cbn [rows columns].
  split; [reflexivity|]. split; [by rewrite length_map, length_alter|]. split.
  - rewrite lookup_map, list_lookup_alter_eq, Hr. cbn [fmap option_fmap option_map].
    by rewrite save_row_clean.
  - intros j Hj. rewrite lookup_map, list_lookup_alter_ne by done.
    destruct (rows df !! j); [|reflexivity]. cbn [fmap option_fmap option_map].
    by rewrite save_row_clean.
Qed.

Lemma cell_at_saved_row (cols : list string) (r : row) c :
  c ∈ cols -> cell_at (saved_row cols r) c = saved_cell c (cell_at r c).
Proof.
  intros Hc. unfold cell_at at 1, saved_row.
  rewrite (lookup_tabulate (fun c => saved_cell c (cell_at r c))).
  by rewrite bool_decide_eq_true_2.
Qed.

Lemma saved_cell_holds c v q :
  c <> "open_date" -> c <> "close_date" -> cell_holds v q ->
  saved_cell c v = v.
Proof.
  intros Ho Hc Hh. unfold saved_cell. rewrite bool_decide_eq_false_2 by tauto.
  by destruct v.
Qed.

(** ** The two outcomes of a close that finds its row *)

Lemma close_accepted_run `{Pandas} (w : world) trade_id (sp : Q) cd notes df idx r :
  cache_ok w ->
  (get_data w).1 = inr df ->
  first_index (id_is trade_id) (rows df) = Some idx ->
  rows df !! idx = Some r ->
  close_accepts df r sp cd notes = true ->
  exists q f,
    frame_typed df /\ cell_at r "quantity" = Int q /\
    close_update df r sp cd notes = Some f /\
    close_position trade_id sp cd notes w =
      (inr tt, MkWorld (save_frame (MkDF (columns df) (alter f idx (rows df)))) (Some df)).
Proof.
  intros Hok Hdf Hidx Hr Hacc.
  destruct (close_position_spec w trade_id sp cd notes Hok) as (df' & Hdf' & Ht & Hspec).
  rewrite Hdf in Hdf'. inversion Hdf'; subst df'. rewrite Hidx in Hspec.
  destruct Hspec as (r0 & Hr0 & _ & Htr & Hrun).
  rewrite Hr in Hr0. inversion Hr0; subst r0.
  destruct (row_typed_quantity r Htr) as (q & Hq).
  unfold close_accepts in Hacc.
  destruct (close_update df r sp cd notes) as [f|] eqn:Hf; [|discriminate].
  by exists q, f.
Qed.

Lemma close_rejected_run `{Pandas} (w : world) trade_id (sp : Q) cd notes df idx r :
  cache_ok w ->
  (get_data w).1 = inr df ->
  first_index (id_is trade_id) (rows df) = Some idx ->
  rows df !! idx = Some r ->
  close_accepts df r sp cd notes = false ->
  close_position trade_id sp cd notes w = (inl TypeError, (get_data w).2).
Proof.
  intros Hok Hdf Hidx Hr Hacc.
  destruct (close_position_spec w trade_id sp cd notes Hok) as (df' & Hdf' & Ht & Hspec).
  rewrite Hdf in Hdf'. inversion Hdf'; subst df'. rewrite Hidx in Hspec.
  destruct Hspec as (r0 & Hr0 & _ & Htr & Hrun).
  rewrite Hr in Hr0. inversion Hr0; subst r0.
  unfold close_accepts in Hacc.
  by destruct (close_update df r sp cd notes) as [f|] eqn:Hf; [discriminate|].
Qed.

Lemma frame_typed_columns (df : DataFrame) c :
  frame_typed df -> c ∈ COLUMNS -> c ∈ columns df.
Proof. intros [Hp _] Hc. by rewrite Hp. Qed.

(** The cells of the closed row as they reach the worksheet. *)
Lemma saved_closed_cells `{Pandas} (df : DataFrame) (r : row) sp cd notes q f (r0 : row) :
  frame_typed df ->
  cell_at r "quantity" = Int q ->
  close_update df r sp cd notes = Some f ->
  let bp := cell_at r "buy_price" in
  let r' := saved_row (columns df) (f r0) in
  cell_holds (cell_at r' "sell_price") sp /\
  cell_at r' "close_date" =
    Str (strftime_ymd (MkTs (d_year cd) (d_month cd) (d_day cd) 0)) /\
  cell_holds (cell_at r' "pnl") (pnl_of bp q sp) /\
  (exists x, cell_holds (cell_at r' "pnl_percent") x /\
     ((cost_of bp q == 0)%Q -> x = 0%Q) /\
     (~ (cost_of bp q == 0)%Q ->
        x = (pnl_of bp q sp / cost_of bp q * inject_Z 100)%Q)) /\
  cell_at r' "status" = Str "CLOSED" /\
  cell_at r' "notes" = closing_notes (cell_at r "notes") notes /\
  (forall c, c ∈ COLUMNS ->
     c ∉ ["sell_price"; "close_date"; "pnl"; "pnl_percent"; "status"; "notes"] ->
     cell_at r' c = saved_cell c (cell_at r0 c)).
Proof.
  intros Ht Hq Hf. cbv zeta.
  destruct (close_update_cells df r sp cd notes q f Hq Hf r0)
    as (Hsp & Hcd & Hpnl & (x & Hx & Hx0 & Hx1) & Hst & Hno & Hother).
  destruct in_COLUMNS as (_ & _ & _ & Isp & _ & _ & Icd & Ipnl & Ipct & Ist & Ino).
  rewrite !cell_at_saved_row by by apply frame_typed_columns.
  split; [|split; [|split; [|split; [|split; [|split]]]]].
  - by rewrite (saved_cell_holds _ _ sp).
  - rewrite Hcd. unfold saved_cell, to_datetime_date.
    by rewrite bool_decide_eq_true_2 by auto.
  - by rewrite (saved_cell_holds _ _ (pnl_of (cell_at r "buy_price") q sp)).
  - exists x. split; [|done]. by rewrite (saved_cell_holds _ _ x).
  - by rewrite Hst.
  - rewrite Hno. destruct (closing_notes_str (cell_at r "notes") notes) as (s & ->).
    reflexivity.
  - intros c Hc Hnot. rewrite cell_at_saved_row by by apply frame_typed_columns.
    f_equal. unfold cell_at. by rewrite Hother.
Qed.

(** ** The close of the specification's example, and a price with cents *)

(** C4 at a failing input. The worksheet holds one position, 10 shares
    bought at 100; all its prices are whole numbers, so the load leaves the
    price columns int64. Selling at 150.5 raises [TypeError] at the first
    assignment (line 131) and nothing is written: the row stays OPEN and no
    pnl is computed. Selling the same position at 150 goes through and gives
    the figures of the specification: pnl 500, pnl_percent 50, CLOSED. *)
Theorem close_fractional_price_raises :
  let w := MkWorld sheet_one_open None in
  let bad := @close_position bare_pandas 1 (301 # 2) (MkDate 2024 2 1) "B" w in
  let good := @close_position bare_pandas 1 (150 # 1) (MkDate 2024 2 1) "B" w in
  bad.1 = inl TypeError /\
  sheet_cells bad.2 =
    [[Int 1; Str "AAPL"; Int 100; Int 0; Int 10; Str "2024-01-05"; NaN; Int 0; Int 0;
      Str "OPEN"; Str "A"]] /\
  good.1 = inr tt /\
  sheet_cells good.2 =
    [[Int 1; Str "AAPL"; Int 100; Int 150; Int 10; Str "2024-01-05";
      Str "2024-02-01"; Int 500; Int 50; Str "CLOSED"; Str "A | 卖出备注: B"]].
Proof. vm_compute. repeat split; reflexivity. Qed.

(** The same price on a worksheet whose prices have cents: the price
    columns are float64 and the close goes through. *)
Lemma close_fractional_price_on_floats :
  let res := @close_position bare_pandas 1 (301 # 2) (MkDate 2024 2 1) "B"
               (MkWorld sheet_float_prices None) in
  res.1 = inr tt /\
  sheet_cells res.2 =
    [[Int 1; Str "AAPL"; Float (201 # 2); Float (301 # 2); Int 10; Str "2024-01-05";
      Str "2024-02-01"; Float 500; Float (10000 # 201); Str "CLOSED";
      Str "A | 卖出备注: B"]].
Proof. vm_compute. repeat split; reflexivity. Qed.

(** C8 at a failing input. The position of [sheet_zero_cost] was bought at
    price 0, so its cost basis is 0. Selling it at 7.5 raises [TypeError]
    at the first assignment: the price columns are int64. No division is
    attempted, but nothing is written either, so [pnl_percent] is not set.
    Selling it at 7 goes through and stores [pnl_percent = 0]. *)
Theorem close_zero_cost_fractional_price_raises :
  let w := MkWorld sheet_zero_cost None in
  let bad := @close_position bare_pandas 1 (15 # 2) (MkDate 2024 2 1) "sold" w in
  let good := @close_position bare_pandas 1 (7 # 1) (MkDate 2024 2 1) "sold" w in
  bad.1 = inl TypeError /\
  sheet_cells bad.2 =
    [[Int 1; Str "FREE"; Int 0; Int 0; Int 5; Str "2024-01-05"; NaN; Int 0; Int 0;
      Str "OPEN"; Str "gift"]] /\
  good.1 = inr tt /\
  sheet_cells good.2 =
    [[Int 1; Str "FREE"; Int 0; Int 7; Int 5; Str "2024-01-05"; Str "2024-02-01";
      Int 35; Int 0; Str "CLOSED"; Str "gift | 卖出备注: sold"]].
Proof. vm_compute. repeat split; reflexivity. Qed.

(** ** Notes *)

Lemma closing_notes_nonempty `{Pandas} (old notes : string) :
  old <> "" -> closing_notes (Str old) notes = Str (old ++ SELL_NOTE_SEP ++ notes).
Proof.
  intros Hne. unfold closing_notes. cbn [py_bool py_str].
  destruct (String.eqb old "") eqn:He; [|reflexivity].
  apply String.eqb_eq in He. contradiction.
Qed.

Lemma closing_notes_empty `{Pandas} (notes : string) :
  closing_notes (Str "") notes = Str notes /\ closing_notes PyNone notes = Str notes.
Proof. split; reflexivity. Qed.

Lemma closing_notes_nan `{Pandas} (notes : string) :
  closing_notes NaN notes = Str ("nan" ++ SELL_NOTE_SEP ++ notes).
Proof. reflexivity. Qed.

(** The part of C7 the code satisfies: when the row carries a non-empty
    notes string and the close goes through, the stored notes are that
    string, the labelled separator and the close-time text, in this order;
    when the notes cell holds the empty string or [None], the stored notes
    are exactly the close-time text. *)
Lemma close_notes_appended `{Pandas} (w : world) trade_id (sp : Q) cd notes df idx r :
  cache_ok w ->
  (get_data w).1 = inr df ->
  first_index (id_is trade_id) (rows df) = Some idx ->
  rows df !! idx = Some r ->
  close_accepts df r sp cd notes = true ->
  let w' := (close_position trade_id sp cd notes w).2 in
  exists r', rows (sheet w') !! idx = Some r' /\
    cell_at r' "notes" = closing_notes (cell_at r "notes") notes /\
    (forall old, cell_at r "notes" = Str old -> old <> "" ->
       cell_at r' "notes" = Str (old ++ SELL_NOTE_SEP ++ notes)) /\
    (cell_at r "notes" = Str "" \/ cell_at r "notes" = PyNone ->
       cell_at r' "notes" = Str notes).
Proof.
  intros Hok Hdf Hidx Hr Hacc. cbv zeta.
  destruct (close_accepted_run w trade_id sp cd notes df idx r Hok Hdf Hidx Hr Hacc)
    as (q & f & Ht & Hq & Hf & Hrun).
  rewrite Hrun. cbn [snd sheet].
  destruct (closed_frame_saved df r sp cd notes q f idx Ht Hr Hq Hf) as (_ & _ & Hrow & _).
  eexists. split; [exact Hrow|].
  destruct (saved_closed_cells df r sp cd notes q f r Ht Hq Hf)
    as (_ & _ & _ & _ & _ & Hnn & _).
  split; [exact Hnn|]. split.
  - intros old Hold Hne. rewrite Hnn, Hold. by apply closing_notes_nonempty.
  - intros [Hold|Hold]; rewrite Hnn, Hold; reflexivity.
Qed.

(** C7 at the failing input. A position opened without notes is stored with
    an empty notes cell, which a read delivers as NaN. NaN is truthy, so
    closing that position with the note "B" stores "nan | 卖出备注: B"
    instead of exactly "B". When no position of the worksheet has notes the
    notes column is float64, the assignment of the new notes raises
    [TypeError] and nothing is written; "B" is not stored then either. *)
Theorem close_without_prior_notes_prefixes_nan :
  let res := @close_position bare_pandas 1 (150#1) (MkDate 2024 2 1) "B"
               (MkWorld sheet_no_notes None) in
  let res' := @close_position bare_pandas 1 (150#1) (MkDate 2024 2 1) "B"
                (MkWorld sheet_all_notes_empty None) in
  res.1 = inr tt /\
  map (fun r => cell_at r "notes") (rows (sheet res.2))
    = [Str "nan | 卖出备注: B"; Str "held"] /\
  map (fun r => cell_at r "notes") (rows (sheet res.2)) <> [Str "B"; Str "held"] /\
  res'.1 = inl TypeError /\
  map (fun r => cell_at r "notes") (rows (sheet res'.2)) = [Str ""].
Proof.
  vm_compute.
  split; [reflexivity|split; [reflexivity|split; [discriminate|split; reflexivity]]].
Qed.

(** ** Closing a row that is already closed *)




(** ** Normalisation on load *)

(** C5 fails on the code: loading [sheet_dirty] gives the canonical
    columns and the defaults 0, 0.0 and NaT in the coerced columns, but the
    missing [notes] column comes out as [None], the empty [symbol] and
    [status] cells stay NaN and the malformed [pnl_percent] stays the text
    it was; none of them becomes the empty string or 0.0. *)
Lemma load_keeps_text_cells :
  (fun df => (columns df, map cells (rows df)))
    <$> returned (@get_data bare_pandas (MkWorld sheet_dirty None)) =
  Some (COLUMNS,
        [[Int 0; NaN; Float 0; Float 0; Int 2; NaT; NaT; Float 0;
          Str "n/a"; NaN; PyNone]]).
Proof. vm_compute. reflexivity. Qed.

Lemma coerce_defaults `{Pandas} (c : cell) :
  to_numeric c = None ->
  coerce_int c = Int 0 /\ forall col, coerce_float col c = Float 0.
Proof. intros Hc. unfold coerce_int, coerce_float. rewrite Hc. by split. Qed.

Lemma to_datetime_null `{Pandas} col (c : cell) : is_null c = true -> to_datetime col c = NaT.
Proof. intros Hc. unfold to_datetime. by rewrite Hc. Qed.

Lemma all_int_elem `{Pandas} (col : list cell) (c : cell) :
  all_int col = true -> c ∈ col -> exists z, to_numeric c = Some (NInt z).
Proof.
  unfold all_int. rewrite forallb_forall. intros Hall Hc.
  specialize (Hall c (proj1 (list_elem_of_In _ _) Hc)).
  destruct (to_numeric c) as [[z|q]|]; try discriminate. by exists z.
Qed.

(** A float64 column comes out of the numeric coercion as floats, an int64
    column as integers. *)
Lemma coerce_float_kind `{Pandas} (col : list cell) (c : cell) :
  c ∈ col ->
  (if all_int col then is_int (coerce_float col c) else is_float (coerce_float col c)) = true.
Proof.
  intros Hc. unfold coerce_float. destruct (all_int col) eqn:Hall.
  - by destruct (all_int_elem col c Hall Hc) as (z & ->).
  - by destruct (to_numeric c) as [[z|q]|].
Qed.

(** In a column of [YYYY-MM-DD] text and missing values every text cell is
    parsed as that date. *)
Lemma to_datetime_ymd `{Pandas} (col : list cell) (s : string) :
  forallb (fun x => is_ymd_text x || is_null x) col = true ->
  Str s ∈ col ->
  to_datetime col (Str s) = from_option Timestamp NaT (parse_ymd s).
Proof.
  intros Hall Hs. unfold to_datetime.
  destruct (is_null (Str s)) eqn:Hn.
  { destruct s; [reflexivity|discriminate]. }
  destruct (forallb (fun x => is_timestamp x || is_null x) col) eqn:Hts.
  { rewrite forallb_forall in Hts.
    specialize (Hts _ (proj1 (list_elem_of_In _ _) Hs)). rewrite Hn in Hts. discriminate. }
  by rewrite Hall.
Qed.

(** C5, as the code has it. A load that finds a table with no rows or with
    fewer than eleven columns discards it: the result is the empty
    canonical table, which is also written back. Any other table comes out
    with exactly the canonical column set, row by row. [id] and [quantity]
    are integers, with the fraction of a float dropped. [buy_price],
    [sell_price] and [pnl] are numbers: the column stays int64 when each of
    its cells reads as an integer, and is float64 otherwise. The default
    for a cell that is missing or does not parse is 0 (0.0). [open_date]
    and [close_date] are dates or NaT: a missing cell gives NaT, Timestamps
    are kept, and a column of [YYYY-MM-DD] text is parsed as such. [symbol],
    [status] and [notes] are passed through as the read delivered them
    ([None] when the column is missing), not coerced to strings. The
    statement is made for worksheets without text that reads as an infinity
    in the numeric columns. *)
Theorem load_normalizes `{Pandas} (w : world) :
  cache w = None ->
  finite_numbers (read_frame (sheet w)) = true ->
  let loaded := read_frame (sheet w) in
  exists out,
    (get_data w).1 = inr out /\
    columns out ≡ₚ COLUMNS /\
    (df_empty (sheet w) = true \/ (length (columns (sheet w)) < 11)%nat ->
       out = empty_frame /\ sheet (get_data w).2 = empty_frame) /\
    (df_empty (sheet w) = false -> (11 <= length (columns (sheet w)))%nat ->
       exists g : row -> row,
         rows out = map g (rows loaded) /\
         forall r, r ∈ rows loaded ->
           let raw := loaded_cell (columns loaded) r in
           let col := loaded_column loaded in
           cell_at (g r) "id" = coerce_int (raw "id") /\
           cell_at (g r) "quantity" = coerce_int (raw "quantity") /\
           cell_at (g r) "buy_price" = coerce_float (col "buy_price") (raw "buy_price") /\
           cell_at (g r) "sell_price" = coerce_float (col "sell_price") (raw "sell_price") /\
           cell_at (g r) "pnl" = coerce_float (col "pnl") (raw "pnl") /\
           (if all_int (col "buy_price") then is_int (cell_at (g r) "buy_price")
            else is_float (cell_at (g r) "buy_price")) = true /\
           (if all_int (col "sell_price") then is_int (cell_at (g r) "sell_price")
            else is_float (cell_at (g r) "sell_price")) = true /\
           (if all_int (col "pnl") then is_int (cell_at (g r) "pnl")
            else is_float (cell_at (g r) "pnl")) = true /\
           cell_at (g r) "open_date" = to_datetime (col "open_date") (raw "open_date") /\
           cell_at (g r) "close_date" = to_datetime (col "close_date") (raw "close_date") /\
           is_datetime (cell_at (g r) "open_date") = true /\
           is_datetime (cell_at (g r) "close_date") = true /\
           cell_at (g r) "symbol" = raw "symbol" /\
           cell_at (g r) "status" = raw "status" /\
           cell_at (g r) "notes" = raw "notes") /\
    (forall c, to_numeric c = None ->
       coerce_int c = Int 0 /\ forall col, coerce_float col c = Float 0) /\
    (forall z, coerce_int (Int z) = Int z) /\
    (forall q, coerce_int (Float q) = Int (float_to_int q)) /\
    (forall col c, is_null c = true -> to_datetime col c = NaT) /\
    (forall col t,
       forallb (fun x => is_timestamp x || is_null x) col = true ->
       to_datetime col (Timestamp t) = Timestamp t) /\
    (forall col s,
       forallb (fun x => is_ymd_text x || is_null x) col = true -> Str s ∈ col ->
       to_datetime col (Str s) = from_option Timestamp NaT (parse_ymd s)).
Proof.
  intros Hc _. cbv zeta. rewrite (get_data_miss w Hc).
  change (length COLUMNS) with 11%nat.
  assert (Hfacts :
    (forall c, to_numeric c = None ->
       coerce_int c = Int 0 /\ forall col, coerce_float col c = Float 0) /\
    (forall z, coerce_int (Int z) = Int z) /\
    (forall q, coerce_int (Float q) = Int (float_to_int q)) /\
    (forall col c, is_null c = true -> to_datetime col c = NaT) /\
    (forall col t,
       forallb (fun x => is_timestamp x || is_null x) col = true ->
       to_datetime col (Timestamp t) = Timestamp t) /\
    (forall col s,
       forallb (fun x => is_ymd_text x || is_null x) col = true -> Str s ∈ col ->
       to_datetime col (Str s) = from_option Timestamp NaT (parse_ymd s))).
  { split; [apply coerce_defaults|]. split; [reflexivity|]. split; [reflexivity|].
    split; [apply to_datetime_null|]. split; [|apply to_datetime_ymd].
    intros col t Hcol. by rewrite to_datetime_clean. }
  destruct (df_empty (sheet w)) eqn:He; cbn [orb].
  - exists empty_frame. split; [reflexivity|]. split; [reflexivity|].
    split; [by intros _|]. split; [discriminate|]. exact Hfacts.
  - destruct (length (columns (sheet w)) <? 11)%nat eqn:Hlen.
    + apply Nat.ltb_lt in Hlen.
      exists empty_frame. split; [reflexivity|]. split; [reflexivity|].
      split; [by intros _|]. split; [intros _ Hge; lia|]. exact Hfacts.
    + apply Nat.ltb_ge in Hlen.
      exists (normalize (read_frame (sheet w))).
      destruct (normalize_spec (read_frame (sheet w))) as (Hcols & g & Hrows & Hg).
      destruct in_COLUMNS
        as (Hid & Hsym & Hbp & Hsp & Hq & Hod & Hcd & Hpnl & _ & Hst & Hno).
      split; [reflexivity|]. split; [exact Hcols|].
      split; [intros [?|?]; [discriminate|lia]|].
      split; [|exact Hfacts].
      intros _ _. exists g. split; [exact Hrows|]. intros r Hr. cbv zeta.
      rewrite !Hg by done.
      rewrite coerce_cell_id, coerce_cell_quantity, coerce_cell_buy_price,
        coerce_cell_sell_price, coerce_cell_pnl, coerce_cell_open_date,
        coerce_cell_close_date, coerce_cell_symbol, coerce_cell_status,
        coerce_cell_notes.
      rewrite !to_datetime_is_datetime.
      assert (Hin : forall c,
                loaded_cell (columns (read_frame (sheet w))) r c
                  ∈ loaded_column (read_frame (sheet w)) c).
      { intros c. unfold loaded_column. apply list_elem_of_In.
        apply (in_map (fun r0 => loaded_cell (columns (read_frame (sheet w))) r0 c)).
        by apply list_elem_of_In. }
      repeat split; try reflexivity; by apply coerce_float_kind.
Qed.

Lemma load_normalizes_witness :
  cache (MkWorld sheet_dirty None) = None /\
  @finite_numbers bare_pandas (read_frame sheet_dirty) = true /\
  exists out,
    (@get_data bare_pandas (MkWorld sheet_dirty None)).1 = inr out /\
    columns out ≡ₚ COLUMNS.
Proof.
  split; [reflexivity|]. split; [vm_compute; reflexivity|].
  destruct (@load_normalizes bare_pandas (MkWorld sheet_dirty None) eq_refl)
    as (out & Hout & Hcols & _).
  - vm_compute. reflexivity.
  - exists out. split; assumption.
Defined.

(** A float far outside int64 in the [id] column comes out as [INT64_MIN],
    and a column that mixes two date formats is not parsed cell by cell by
    the model: it is left to the interface. *)
Lemma load_examples :
  @coerce_int bare_pandas (Float (10 ^ 30)) = Int INT64_MIN /\
  @coerce_int bare_pandas (Float (5 # 2)) = Int 2 /\
  @coerce_int bare_pandas (Float (- 5 # 2)) = Int (-2) /\
  map (@coerce_float bare_pandas [Int 100; Int 50]) [Int 100; Int 50] = [Int 100; Int 50] /\
  map (@coerce_float bare_pandas [Int 100; Float (101 # 2)]) [Int 100; Float (101 # 2)]
    = [Float 100; Float (101 # 2)] /\
  map (@to_datetime bare_pandas [Str "2024-01-05"; NaN; Str "2024-02-29"])
      [Str "2024-01-05"; NaN; Str "2024-02-29"]
    = [Timestamp (MkTs 2024 1 5 0); NaT; Timestamp (MkTs 2024 2 29 0)] /\
  (forall P : Pandas,
     let col := [Str "01/06/2024"; Str "2024-01-05"] in
     map (@to_datetime P col) col =
       map (fun c => from_option Timestamp NaT (@to_datetime_other P col c)) col).
Proof.
  repeat split; try (vm_compute; reflexivity).
Qed.

(** ** The closed-trades listing *)

Ltac bool_to_prop :=
  repeat (progress (rewrite ?andb_true_iff, ?andb_false_iff, ?orb_true_iff, ?orb_false_iff,
            ?negb_true_iff, ?negb_false_iff, ?Z.ltb_lt, ?Z.ltb_ge, ?Z.eqb_eq,
            ?Z.eqb_neq, ?Z.leb_le, ?Z.leb_gt)).

Lemma ts_leb_total (a b : timestamp) : ts_leb a b = false -> ts_leb b a = true.
Proof.
  unfold ts_leb, ymd_leb. destruct a as [y1 m1 d1 n1], b as [y2 m2 d2 n2]. simpl.
  bool_to_prop. lia.
Qed.

Lemma ts_leb_trans (a b c : timestamp) :
  ts_leb a b = true -> ts_leb b c = true -> ts_leb a c = true.
Proof.
  unfold ts_leb, ymd_leb.
  destruct a as [y1 m1 d1 n1], b as [y2 m2 d2 n2], c as [y3 m3 d3 n3]. simpl.
  bool_to_prop. lia.
Qed.

Lemma date_geb_total (a b : cell) : date_geb a b = false -> date_geb b a = true.
Proof.
  destruct a, b; simpl; try discriminate; try reflexivity. apply ts_leb_total.
Qed.

Lemma date_geb_trans (a b c : cell) :
  date_geb a b = true -> date_geb b c = true -> date_geb a c = true.
Proof.
  destruct a, b, c; simpl; try discriminate; try reflexivity.
  intros H1 H2. exact (ts_leb_trans _ _ _ H2 H1).
Qed.

Section InsertionSort.
Variable key : row -> cell.

Local Abbreviation R := (fun a b : row => date_geb (key a) (key b) = true).

Lemma insert_desc_perm x l : Permutation (x :: l) (insert_desc key x l).
Proof.
  induction l as [|y l IH]; simpl; [done|].
  destruct (date_geb (key x) (key y)); [done|].
  rewrite perm_swap. by constructor.
Qed.

Lemma insert_desc_hd x y l :
  R y x -> HdRel R y l -> HdRel R y (insert_desc key x l).
Proof.
  intros Hyx Hhd. destruct l as [|z l]; simpl.
  - by constructor.
  - destruct (date_geb (key x) (key z)); constructor; [done|].
    by inversion Hhd.
Qed.

Lemma insert_desc_sorted x l : Sorted R l -> Sorted R (insert_desc key x l).
Proof.
  induction l as [|y l IH]; intros Hs; simpl.
  - repeat constructor.
  - destruct (date_geb (key x) (key y)) eqn:Hxy.
    + constructor; [done|]. by constructor.
    + inversion Hs as [|? ? Hs' Hhd]; subst.
      constructor; [by apply IH|].
      apply insert_desc_hd; [|done]. by apply date_geb_total.
Qed.

Lemma stable_sort_desc_perm l : Permutation l (stable_sort_desc key l).
Proof.
  induction l as [|x l IH]; simpl; [done|].
  rewrite <- insert_desc_perm. by constructor.
Qed.

Lemma stable_sort_desc_sorted l : Sorted R (stable_sort_desc key l).
Proof.
  induction l as [|x l IH]; simpl; [constructor|]. by apply insert_desc_sorted.
Qed.
End InsertionSort.

Lemma stable_sort_desc_contract : sort_contract stable_sort_desc.
Proof.
  intros key l. split; [apply stable_sort_desc_perm|apply stable_sort_desc_sorted].
Qed.

Lemma is_closed_iff (r : row) :
  is_closed r = true <-> cell_at r "status" = Str "CLOSED".
Proof.
  unfold is_closed, cell_eq_str. destruct (cell_at r "status"); try (split; discriminate).
  rewrite String.eqb_eq. split; [by intros ->|by inversion 1].
Qed.

Lemma typed_close_dates_clean (l : list row) :
  Forall (fun r => row_typed r = true) l ->
  forallb (fun x => is_timestamp x || is_null x) (map (fun r => cell_at r "close_date") l)
    = true.
Proof.
  intros Hall. apply forallb_forall. intros x Hx.
  apply in_map_iff in Hx as (r & <- & Hr).
  rewrite Forall_forall in Hall.
  apply (row_typed_dates r (Hall r (proj2 (list_elem_of_In _ _) Hr))).
Qed.

(** On a loaded row the conversion in [get_closed_trades] changes nothing:
    the close date already is a datetime. *)
Lemma typed_close_date_fixed `{Pandas} (col : list cell) (r : row) :
  forallb (fun x => is_timestamp x || is_null x) col = true ->
  row_typed r = true ->
  <["close_date" := to_datetime col (cell_at r "close_date")]> r = r.
Proof.
  intros Hcol. unfold row_typed. rewrite !andb_true_iff. intros (_ & Hcd).
  apply insert_id. rewrite to_datetime_clean by done. unfold cell_at in *.
  destruct (r !! "close_date") as [[]|]; simpl in *; try discriminate; reflexivity.
Qed.

Lemma filter_typed (p : row -> bool) (l : list row) :
  Forall (fun r => row_typed r = true) l ->
  Forall (fun r => row_typed r = true) (List.filter p l).
Proof.
  rewrite !Forall_forall. intros Hall r Hr.
  apply Hall. apply list_elem_of_In. apply list_elem_of_In, filter_In in Hr. tauto.
Qed.

Lemma get_closed_trades_rows `{Pandas} sort (w : world) :
  cache_ok w ->
  exists df out,
    (get_data w).1 = inr df /\ frame_typed df /\
    (get_closed_trades sort w).1 = inr out /\
    (rows df = [] /\ rows out = [] \/
     rows out = sort (fun r => cell_at r "close_date") (List.filter is_closed (rows df))).
Proof.
  intros Hok. destruct (get_data_ok w Hok) as (df & Hget & Ht & _).
  unfold get_closed_trades, mbind, M_bind. rewrite Hget.
  destruct (df_empty df) eqn:He.
  - exists df, df. repeat (split; [done|]). left.
    by rewrite (frame_typed_empty df Ht He).
  - eexists df, _. repeat (split; [done|]). right.
    unfold map_column, filter_rows, column. cbn [rows columns]. fold is_closed. f_equal.
    pose proof (filter_typed is_closed (rows df) (proj2 Ht)) as Hft.
    transitivity (map (fun r : row => r) (List.filter is_closed (rows df)));
      [|apply map_id].
    apply map_ext_in. intros r Hr.
    apply typed_close_date_fixed; [by apply typed_close_dates_clean|].
    rewrite Forall_forall in Hft. apply Hft. by apply list_elem_of_In.
Qed.

(** C6, as the code has it. For any sorting routine that does what
    [sort_values] promises, [listClosed] returns exactly the rows with
    status CLOSED, each once, ordered by close date from the most recent to
    the oldest with missing dates last. Nothing is promised about the order
    of rows with equal close dates. *)
Theorem closed_listing_sorted `{Pandas} sort (w : world) :
  sort_contract sort ->
  cache_ok w ->
  exists df out,
    (get_data w).1 = inr df /\
    (get_closed_trades sort w).1 = inr out /\
    rows out ≡ₚ List.filter is_closed (rows df) /\
    (forall r, r ∈ rows out <-> r ∈ rows df /\ cell_at r "status" = Str "CLOSED") /\
    StronglySorted by_close_date (rows out).
Proof.
  intros Hsort Hok.
  destruct (get_closed_trades_rows sort w Hok) as (df & out & Hdf & Ht & Hout & Hrows).
  exists df, out. split; [done|]. split; [done|].
  assert (Hperm : rows out ≡ₚ List.filter is_closed (rows df)).
  { destruct Hrows as [[Hd Ho]|Ho]; rewrite Ho; [by rewrite Hd|].
    symmetry. apply Hsort. }
  split; [exact Hperm|]. split.
  - intros r. rewrite Hperm, list_elem_of_In, filter_In, <- list_elem_of_In.
    by rewrite is_closed_iff.
  - destruct Hrows as [[_ Ho]|Ho]; rewrite Ho; [constructor|].
    apply Sorted_StronglySorted; [|apply Hsort].
    intros a b c. unfold by_close_date. apply date_geb_trans.
Qed.

Lemma closed_listing_sorted_witness :
  sort_contract stable_sort_desc /\
  cache_ok (MkWorld sheet_three_closed None) /\
  exists df out,
    (@get_data bare_pandas (MkWorld sheet_three_closed None)).1 = inr df /\
    (@get_closed_trades bare_pandas stable_sort_desc (MkWorld sheet_three_closed None)).1
      = inr out /\
    rows out ≡ₚ List.filter is_closed (rows df) /\
    (forall r, r ∈ rows out <-> r ∈ rows df /\ cell_at r "status" = Str "CLOSED") /\
    StronglySorted by_close_date (rows out).
Proof.
  split; [exact stable_sort_desc_contract|]. split; [exact I|].
  apply (@closed_listing_sorted bare_pandas stable_sort_desc
           (MkWorld sheet_three_closed None) stable_sort_desc_contract I).
Defined.

(** C6 fails on the code as far as ties go. The eighteen trades of
    [sheet_same_day] are stored with the ids 1 to 18 and were all closed on
    the same day. [listClosed], run with the default sort of pandas and
    numpy, returns each of them once, but not in storage order: the
    quicksort partitions a range of eighteen positions, and the partition
    exchanges equal keys. With three trades, as in [sheet_three_closed],
    the range is sorted by insertion and the two trades closed on the same
    day stay in storage order. *)
Lemma closed_ties_reordered :
  let w := MkWorld sheet_same_day None in
  let listed := ids <$> returned (@get_closed_trades bare_pandas sort_values_quicksort w) in
  ids (sheet w) = [1; 2; 3; 4; 5; 6; 7; 8; 9; 10; 11; 12; 13; 14; 15; 16; 17; 18] /\
  map (fun r => cell_at r "close_date") (rows (sheet w)) = repeat (Str "2024-02-01") 18 /\
  (exists l, listed = Some l /\ l ≡ₚ ids (sheet w) /\ l <> ids (sheet w)) /\
  ids <$> returned (@get_closed_trades bare_pandas sort_values_quicksort
                      (MkWorld sheet_three_closed None)) = Some [3; 1; 2].
Proof.
  cbv zeta. split; [vm_compute; reflexivity|]. split; [vm_compute; reflexivity|].
  split; [|vm_compute; reflexivity].
  exists [1; 2; 17; 16; 15; 14; 13; 12; 11; 10; 9; 8; 7; 6; 5; 4; 3; 18].
  split; [vm_compute; reflexivity|]. split.
  - assert (Hids : ids (sheet (MkWorld sheet_same_day None)) =
                   [1; 2; 3; 4; 5; 6; 7; 8; 9; 10; 11; 12; 13; 14; 15; 16; 17; 18])
      by (vm_compute; reflexivity).
    rewrite Hids. apply NoDup_Permutation.
    + apply (bool_decide_unpack _). vm_compute. exact I.
    + apply (bool_decide_unpack _). vm_compute. exact I.
    + intros z. rewrite !elem_of_cons, !elem_of_nil. tauto.
  - vm_compute. discriminate.
Qed.

(** ** Persistence round trip *)








Lemma strftime_nonempty t : strftime_ymd t <> "".
Proof. unfold strftime_ymd, fmt4. discriminate. Qed.


Lemma is_null_strftime t : is_null (Str (strftime_ymd t)) = false.
Proof.
  pose proof (strftime_nonempty t) as Hne.
  destruct (strftime_ymd t); [contradiction|reflexivity].
Qed.









Lemma cell_at_read (r : row) c : cell_at (read_cell <$> r) c = read_cell (cell_at r c).
Proof. unfold cell_at. rewrite lookup_fmap. by destruct (r !! c). Qed.


Lemma df_empty_save `{Pandas} (df : DataFrame) :
  columns df ≡ₚ COLUMNS ->
  df_empty (save_frame df) = match rows df with [] => true | _ :: _ => false end.
Proof.
  intros Hcols. unfold df_empty. rewrite save_frame_columns, save_frame_rows.
  destruct (columns df) as [|c0 cs].
  - apply Permutation_nil in Hcols. discriminate.
  - by destruct (rows df).
Qed.

(** The load of a worksheet that [save_data] wrote from a frame with the
    canonical columns: the guard of line 26 lets it through unless it has
    no rows. *)
Lemma load_saved `{Pandas} (df : DataFrame) :
  columns df ≡ₚ COLUMNS ->
  (get_data (MkWorld (save_frame df) None)).1 =
    inr (match rows df with
         | [] => empty_frame
         | _ :: _ => normalize (read_frame (save_frame df))
         end).
Proof.
  intros Hcols. rewrite (get_data_miss (MkWorld (save_frame df) None) eq_refl).
  cbn [sheet]. rewrite save_frame_columns, (df_empty_save df Hcols).
  assert (Hlen : length (columns df) = 11%nat) by by rewrite Hcols.
  rewrite Hlen. change (11 <? length COLUMNS)%nat with false.
  by destruct (rows df).
Qed.

Lemma read_saved_rows `{Pandas} (df : DataFrame) :
  rows (read_frame (save_frame df)) =
    map (fun r : row => read_cell <$> save_row df r) (rows df).
Proof. unfold read_frame. cbn [rows]. by rewrite save_frame_rows, map_map. Qed.







(** The round trip evaluated: the worksheet holds dates as text and the
    absent close date as the empty string; the load gives back the dates at
    midnight and the empty notes as a missing value. *)
Lemma roundtrip_example :
  let w1 := restart (@save_data bare_pandas frame_two_trades (MkWorld empty_frame None)).2 in
  map cells (rows (sheet w1)) =
    [[Int 1; Str "AAPL"; Float 100; Float 0; Int 10; Str "2024-01-05"; Str "";
      Float 0; Float 0; Str "OPEN"; Str ""];
     [Int 2; Str "MSFT"; Float (101 # 2); Float 40; Int 2; Str "2024-01-06";
      Str "2024-02-29"; Float (-21); Float (-2100 # 101); Str "CLOSED"; Str "b"]] /\
  (fun df => map cells (rows df)) <$> returned (@get_data bare_pandas w1) =
    Some
    [[Int 1; Str "AAPL"; Float 100; Float 0; Int 10; Timestamp (MkTs 2024 1 5 0); NaT;
      Float 0; Float 0; Str "OPEN"; NaN];
     [Int 2; Str "MSFT"; Float (101 # 2); Float 40; Int 2; Timestamp (MkTs 2024 1 6 0);
      Timestamp (MkTs 2024 2 29 0); Float (-21); Float (-2100 # 101); Str "CLOSED";
      Str "b"]].
Proof. vm_compute. split; reflexivity. Qed.

(** ** Rows whose status is neither OPEN nor CLOSED *)

Lemma is_open_iff (r : row) :
  is_open r = true <-> cell_at r "status" = Str "OPEN".
Proof.
  unfold is_open, cell_eq_str. destruct (cell_at r "status"); try (split; discriminate).
  rewrite String.eqb_eq. split; [by intros ->|by inversion 1].
Qed.

Lemma get_open_positions_rows `{Pandas} (w : world) :
  cache_ok w ->
  exists df out,
    (get_data w).1 = inr df /\ (get_open_positions w).1 = inr out /\
    forall r, r ∈ rows out <-> r ∈ rows df /\ cell_at r "status" = Str "OPEN".
Proof.
  intros Hok. destruct (get_data_ok w Hok) as (df & Hget & Ht & _).
  unfold get_open_positions, mbind, M_bind. rewrite Hget.
  destruct (df_empty df) eqn:He.
  - exists df, df. repeat (split; [done|]). intros r.
    rewrite (frame_typed_empty df Ht He). split; [by intros ?%elem_of_nil|].
    by intros [?%elem_of_nil _].
  - eexists df, _. repeat (split; [done|]). intros r.
    unfold filter_rows. cbn [rows]. fold is_open.
    by rewrite list_elem_of_In, filter_In, <- list_elem_of_In, is_open_iff.
Qed.

Lemma delete_trade_run `{Pandas} (w : world) trade_id :
  cache_ok w ->
  exists df,
    (get_data w).1 = inr df /\ frame_typed df /\
    delete_trade trade_id w =
      (inr tt,
       MkWorld (save_frame (filter_rows (fun r => negb (id_is trade_id r)) df)) (Some df)).
Proof.
  intros Hok. destruct (get_data_ok w Hok) as (df & Hget & Ht & _).
  exists df. split; [by rewrite Hget|]. split; [done|].
  unfold delete_trade, mbind, M_bind. rewrite Hget. reflexivity.
Qed.

Lemma id_is_typed (r : row) trade_id :
  row_typed r = true -> id_is trade_id r = (int_val (cell_at r "id") =? trade_id).
Proof.
  intros Ht. unfold id_is. by rewrite (row_typed_id r Ht).
Qed.

Lemma ids_save_frame `{Pandas} (df : DataFrame) :
  "id" ∈ columns df ->
  Forall (fun r => is_int (cell_at r "id") = true) (rows df) ->
  ids (save_frame df) = ids df.
Proof.
  intros Hid Hall. unfold ids. rewrite save_frame_rows, map_map.
  apply map_ext_in. intros r Hr. rewrite cell_at_save_row by done.
  rewrite Forall_forall in Hall. specialize (Hall r (proj2 (list_elem_of_In _ _) Hr)).
  by destruct (cell_at r "id").
Qed.

Lemma typed_ids_int (l : list row) :
  Forall (fun r => row_typed r = true) l ->
  Forall (fun r => is_int (cell_at r "id") = true) l.
Proof.
  intros Hall. eapply Forall_impl; [exact Hall|].
  intros r Hr. cbv beta in Hr. by rewrite (row_typed_id r Hr).
Qed.

Lemma ids_filter_rows (l : list row) trade_id :
  Forall (fun r => row_typed r = true) l ->
  map (fun r => int_val (cell_at r "id"))
      (List.filter (fun r => negb (id_is trade_id r)) l) =
  List.filter (fun z => negb (z =? trade_id)) (map (fun r => int_val (cell_at r "id")) l).
Proof.
  induction 1 as [|r l Hr Hall IH]; [reflexivity|]. cbn [List.filter map].
  rewrite (id_is_typed r trade_id Hr).
  destruct (int_val (cell_at r "id") =? trade_id); cbn [negb map]; by rewrite IH.
Qed.

(** The ids [delete_trade i] writes: those of the table without [i]. *)
Lemma deleted_ids `{Pandas} (df : DataFrame) trade_id :
  frame_typed df ->
  ids (save_frame (filter_rows (fun r => negb (id_is trade_id r)) df)) =
    List.filter (fun z => negb (z =? trade_id)) (ids df).
Proof.
  intros Ht. rewrite ids_save_frame.
  - unfold ids, filter_rows. cbn [rows]. apply ids_filter_rows. apply Ht.
  - change ("id" ∈ columns df). by apply frame_typed_id_column.
  - unfold filter_rows. cbn [rows]. apply typed_ids_int, filter_typed, Ht.
Qed.

(** After [delete_trade i] no row of the worksheet carries the id [i]. *)
Lemma deleted_id_gone `{Pandas} (df : DataFrame) trade_id :
  frame_typed df ->
  trade_id ∉ ids (save_frame (filter_rows (fun r => negb (id_is trade_id r)) df)).
Proof.
  intros Ht. rewrite (deleted_ids df trade_id Ht). intros Hin.
  apply list_elem_of_In, filter_In in Hin as [_ Hne]. by rewrite Z.eqb_refl in Hne.
Qed.

(** C10. A row of the loaded table whose status is neither the string OPEN
    nor the string CLOSED is in neither listing; its id still bounds the id
    the next [open] assigns from below, and [delete] with its id removes it
    from the worksheet. The status column reaches the table as loaded. *)
Theorem odd_status_row `{Pandas} sort (w : world) df (r : row) :
  sort_contract sort ->
  cache_ok w ->
  (get_data w).1 = inr df ->
  r ∈ rows df ->
  cell_at r "status" <> Str "OPEN" ->
  cell_at r "status" <> Str "CLOSED" ->
  (exists out, (get_open_positions w).1 = inr out /\ r ∉ rows out) /\
  (exists out, (get_closed_trades sort w).1 = inr out /\ r ∉ rows out) /\
  (forall s p q d n,
     exists new_id,
       add_buy_position s p q d n w =
         (inr tt,
          MkWorld (save_frame (concat df (MkDF COLUMNS [new_row new_id s p q d n])))
                  (Some df)) /\
       new_id = max0 (ids df) + 1 /\
       int_val (cell_at r "id") < new_id) /\
  (let w' := (delete_trade (int_val (cell_at r "id")) w).2 in
   (delete_trade (int_val (cell_at r "id")) w).1 = inr tt /\
   int_val (cell_at r "id") ∉ ids (sheet w')) /\
  (forall loaded : DataFrame,
     exists g : row -> row,
       rows (normalize loaded) = map g (rows loaded) /\
       forall r0, cell_at (g r0) "status" = loaded_cell (columns loaded) r0 "status").
Proof.
  intros Hsort Hok Hdf Hr Hno Hnc.
  split; [|split; [|split; [|split]]].
  - destruct (get_open_positions_rows w Hok) as (df' & out & Hdf' & Hout & Hmem).
    exists out. split; [done|]. intros Hin. apply Hmem in Hin as [_ Hst]. contradiction.
  - destruct (get_closed_trades_rows sort w Hok) as (df' & out & Hdf' & _ & Hout & Hrows).
    exists out. split; [done|]. intros Hin.
    destruct Hrows as [[_ Ho]|Ho]; rewrite Ho in Hin; [by apply elem_of_nil in Hin|].
    rewrite <- (proj1 (Hsort _ _)) in Hin.
    apply list_elem_of_In, filter_In in Hin as [_ Hst]. apply is_closed_iff in Hst.
    contradiction.
  - intros s p q d n. exists (max0 (ids df) + 1).
    destruct (get_data_ok w Hok) as (df' & Hget & Ht & _).
    rewrite Hget in Hdf. inversion Hdf; subst df'.
    split; [|split; [reflexivity|]].
    + unfold add_buy_position, mbind, M_bind. rewrite Hget.
      unfold lift. rewrite (next_id_typed df Ht). reflexivity.
    + assert (Hin : int_val (cell_at r "id") ∈ ids df).
      { unfold ids. apply list_elem_of_In, in_map_iff. exists r.
        split; [done|]. by apply list_elem_of_In. }
      apply max0_upper in Hin. lia.
  - cbv zeta.
    destruct (delete_trade_run w (int_val (cell_at r "id")) Hok) as (df' & Hdf' & Ht & Hrun).
    rewrite Hrun. cbn [fst snd sheet]. split; [done|]. by apply deleted_id_gone.
  - intros loaded. destruct (normalize_spec loaded) as (_ & g & Hrows & Hg).
    exists g. split; [done|]. intros r0.
    rewrite (Hg r0 "status") by apply in_COLUMNS. by rewrite coerce_cell_status.
Qed.

Lemma odd_status_row_witness :
  let w := MkWorld sheet_odd_status None in
  let r := default ∅ (rows (@normalize bare_pandas (read_frame sheet_odd_status)) !! 1%nat) in
  cell_at r "status" = Str "open" /\
  (exists out, (@get_open_positions bare_pandas w).1 = inr out /\ r ∉ rows out) /\
  (exists out, (@get_closed_trades bare_pandas stable_sort_desc w).1 = inr out /\
               r ∉ rows out) /\
  (@delete_trade bare_pandas (int_val (cell_at r "id")) w).1 = inr tt /\
  int_val (cell_at r "id")
    ∉ ids (sheet (@delete_trade bare_pandas (int_val (cell_at r "id")) w).2).
Proof.
  cbv zeta. split; [vm_compute; reflexivity|].
  destruct (@odd_status_row bare_pandas stable_sort_desc
              (MkWorld sheet_odd_status None)
              (@normalize bare_pandas (read_frame sheet_odd_status))
              (default ∅ (rows (@normalize bare_pandas (read_frame sheet_odd_status))
                            !! 1%nat)))
    as (Hopen & Hclosed & _ & [Hdel Hgone] & _).
  - exact stable_sort_desc_contract.
  - exact I.
  - reflexivity.
  - apply (list_elem_of_lookup_2 _ 1%nat). vm_compute. reflexivity.
  - vm_compute. discriminate.
  - vm_compute. discriminate.
  - repeat split; assumption.
Defined.

(** The listings and the next id on [sheet_odd_status], evaluated: the row
    with status "open" (id 7) is in neither listing, the next id is 8, and
    deleting id 7 leaves ids 1 and 3. *)
Lemma odd_status_example :
  let w := MkWorld sheet_odd_status None in
  ids <$> returned (@get_open_positions bare_pandas w) = Some [1] /\
  ids <$> returned (@get_closed_trades bare_pandas stable_sort_desc w) = Some [3] /\
  ids (sheet (@add_buy_position bare_pandas "nvda" (9#1) 1 (MkDate 2024 4 1) "" w).2)
    = [1; 7; 3; 8] /\
  ids (sheet (@delete_trade bare_pandas 7 w).2) = [1; 3].
Proof. vm_compute. repeat split; reflexivity. Qed.

(** * Further properties of the ledger *)

(** ** Reading *)

(** After its first call [get_data] is a pure lookup: a second call returns
    the same table and leaves worksheet and cache as they are, whatever the
    worksheet holds by then. *)
Theorem get_data_idempotent `{Pandas} (w : world) :
  get_data (get_data w).2 = ((get_data w).1, (get_data w).2) /\
  forall sheet', (get_data (MkWorld sheet' (cache (get_data w).2))).1 = (get_data w).1.
Proof.
  destruct (get_data_cache w) as (df & Hdf & Hc). split.
  - rewrite (get_data_hit _ df Hc), Hdf. reflexivity.
  - intros sheet'. rewrite Hc.
    by rewrite (get_data_hit (MkWorld sheet' (Some df)) df eq_refl), Hdf.
Qed.

(** [listOpen] returns the rows with status OPEN in storage order, and
    nothing else. *)
Theorem open_listing_in_storage_order `{Pandas} (w : world) :
  cache_ok w ->
  exists df out,
    (get_data w).1 = inr df /\ (get_open_positions w).1 = inr out /\
    rows out = List.filter is_open (rows df) /\ columns out = columns df.
Proof.
  intros Hok. destruct (get_data_ok w Hok) as (df & Hget & Ht & _).
  unfold get_open_positions, mbind, M_bind. rewrite Hget.
  destruct (df_empty df) eqn:He.
  - exists df, df. repeat (split; [done|]). split; [|done].
    by rewrite (frame_typed_empty df Ht He).
  - eexists df, _. repeat (split; [done|]). split; reflexivity.
Qed.

Lemma open_listing_in_storage_order_witness :
  cache_ok (MkWorld sheet_odd_status None) /\
  exists df out,
    (@get_data bare_pandas (MkWorld sheet_odd_status None)).1 = inr df /\
    (@get_open_positions bare_pandas (MkWorld sheet_odd_status None)).1 = inr out /\
    rows out = List.filter is_open (rows df) /\ columns out = columns df.
Proof.
  split; [exact I|].
  apply (@open_listing_in_storage_order bare_pandas (MkWorld sheet_odd_status None) I).
Defined.

(** ** Deleting *)

Lemma filter_dates_clean (p : row -> bool) (df : DataFrame) :
  dates_clean df = true -> dates_clean (filter_rows p df) = true.
Proof.
  rewrite !dates_clean_rows. unfold filter_rows. cbn [rows].
  rewrite !Forall_forall. intros Hall r Hr.
  apply Hall. apply list_elem_of_In. apply list_elem_of_In, filter_In in Hr. tauto.
Qed.

(** [delete] returns normally and rewrites the worksheet with exactly the
    rows whose id differs from the given one, in their order and with all
    their cells: each is written as [save_data] writes any row, a date as
    [YYYY-MM-DD] text, a missing value as the empty string and everything
    else as it is. Every row carrying the id goes, also when several do. *)
Theorem delete_removes_matching_rows `{Pandas} (w : world) trade_id :
  cache_ok w ->
  exists df,
    (get_data w).1 = inr df /\
    (delete_trade trade_id w).1 = inr tt /\
    let w' := (delete_trade trade_id w).2 in
    let kept := List.filter (fun r => negb (id_is trade_id r)) (rows df) in
    columns (sheet w') = columns df /\
    rows (sheet w') = map (saved_row (columns df)) kept /\
    (forall r, r ∈ kept <-> r ∈ rows df /\ int_val (cell_at r "id") <> trade_id) /\
    (forall r c, c ∈ columns df ->
       cell_at (saved_row (columns df) r) c = saved_cell c (cell_at r c)) /\
    ids (sheet w') = List.filter (fun z => negb (z =? trade_id)) (ids df) /\
    cache w' = Some df.
Proof.
  intros Hok. destruct (delete_trade_run w trade_id Hok) as (df & Hdf & Ht & Hrun).
  exists df. split; [done|]. rewrite Hrun. cbn [fst snd sheet cache]. split; [done|].
  cbv zeta. split; [reflexivity|]. split; [|split; [|split; [|split]]].
  - rewrite save_frame_rows. apply map_ext. intros r.
    change (columns df) with (columns (filter_rows (fun r => negb (id_is trade_id r)) df)).
    apply save_row_clean, filter_dates_clean. by apply frame_typed_dates_clean.
  - intros r. rewrite list_elem_of_In, filter_In, <- list_elem_of_In.
    split; intros [Hr Hid]; (split; [done|]).
    + destruct Ht as [_ Hall]. rewrite Forall_forall in Hall.
      rewrite (id_is_typed r trade_id (Hall r Hr)) in Hid.
      by apply negb_true_iff, Z.eqb_neq in Hid.
    + destruct Ht as [_ Hall]. rewrite Forall_forall in Hall.
      rewrite (id_is_typed r trade_id (Hall r Hr)).
      by apply negb_true_iff, Z.eqb_neq.
  - intros r c Hc. by apply cell_at_saved_row.
  - by apply deleted_ids.
  - reflexivity.
Qed.

Lemma delete_removes_matching_rows_witness :
  cache_ok (MkWorld sheet_odd_status None) /\
  ids (sheet (@delete_trade bare_pandas 7 (MkWorld sheet_odd_status None)).2) = [1; 3] /\
  map cells (rows (sheet (@delete_trade bare_pandas 7 (MkWorld sheet_odd_status None)).2)) =
    [[Int 1; Str "AAPL"; Int 100; Int 0; Int 10; Str "2024-01-05"; Str ""; Int 0; Int 0;
      Str "OPEN"; Str "a"];
     [Int 3; Str "GOOG"; Int 70; Int 77; Int 1; Str "2024-01-07"; Str "2024-03-01"; Int 7;
      Int 10; Str "CLOSED"; Str "c"]].
Proof.
  split; [exact I|].
  destruct (@delete_removes_matching_rows bare_pandas (MkWorld sheet_odd_status None) 7 I)
    as (df & Hdf & _ & _ & Hrows & _ & _ & Hids & _).
  rewrite Hids, Hrows. inversion Hdf. vm_compute. split; reflexivity.
Defined.

Lemma id_absent_no_match (l : list row) trade_id :
  Forall (fun r => row_typed r = true) l ->
  trade_id ∉ map (fun r => int_val (cell_at r "id")) l ->
  forall r, r ∈ l -> id_is trade_id r = false.
Proof.
  intros Hall Hnot r Hr. rewrite Forall_forall in Hall.
  rewrite (id_is_typed r trade_id (Hall r Hr)). apply Z.eqb_neq. intros Heq.
  apply Hnot. rewrite <- Heq.
  apply list_elem_of_In, (in_map (fun r => int_val (cell_at r "id"))).
  by apply list_elem_of_In.
Qed.

Lemma filter_all (p : row -> bool) (l : list row) :
  (forall r, r ∈ l -> p r = true) -> List.filter p l = l.
Proof.
  induction l as [|a l IH]; intros Hp; [reflexivity|]. cbn [List.filter].
  rewrite (Hp a) by left. f_equal. apply IH. intros r Hr. apply Hp. by right.
Qed.

(** Deleting an id no row carries changes no row: the worksheet is
    rewritten with the table [delete] read, unchanged. *)
Theorem delete_absent_id_keeps_table `{Pandas} (w : world) trade_id df :
  cache_ok w ->
  (get_data w).1 = inr df ->
  trade_id ∉ ids df ->
  delete_trade trade_id w = (inr tt, MkWorld (save_frame df) (Some df)).
Proof.
  intros Hok Hdf Hnot.
  destruct (delete_trade_run w trade_id Hok) as (df' & Hdf' & Ht & Hrun).
  rewrite Hdf in Hdf'. inversion Hdf'; subst df'. rewrite Hrun. do 3 f_equal.
  unfold filter_rows. rewrite filter_all; [by destruct df|].
  intros r Hr. apply negb_true_iff.
  by apply (id_absent_no_match (rows df) trade_id (proj2 Ht) Hnot).
Qed.

Lemma delete_absent_id_keeps_table_witness :
  @delete_trade bare_pandas 9 (MkWorld sheet_odd_status None) =
    (inr tt,
     MkWorld (@save_frame bare_pandas (@normalize bare_pandas (read_frame sheet_odd_status)))
             (Some (@normalize bare_pandas (read_frame sheet_odd_status)))).
Proof.
  apply (@delete_absent_id_keeps_table bare_pandas (MkWorld sheet_odd_status None) 9
           (@normalize bare_pandas (read_frame sheet_odd_status))).
  - exact I.
  - reflexivity.
  - vm_compute. intros Hin.
    repeat (apply elem_of_cons in Hin as [Hin|Hin]; [discriminate|]).
    by apply elem_of_nil in Hin.
Defined.

(** ** Closing: what is left alone *)

Lemma first_index_no_match (p : row -> bool) (l : list row) :
  (forall r, r ∈ l -> p r = false) -> first_index p l = None.
Proof.
  induction l as [|a l IH]; intros Hp; [reflexivity|]. simpl.
  rewrite (Hp a) by left. rewrite IH; [reflexivity|].
  intros r Hr. apply Hp. by right.
Qed.

(** Closing an id no row carries is a silent no-op: the call returns
    normally and writes nothing; the world is the one the initial read
    left. *)
Theorem close_missing_id_is_noop `{Pandas} (w : world) trade_id (sp : Q) cd notes df :
  cache_ok w ->
  (get_data w).1 = inr df ->
  trade_id ∉ ids df ->
  close_position trade_id sp cd notes w = (inr tt, (get_data w).2) /\
  (forall cached, cache w = Some cached ->
     close_position trade_id sp cd notes w = (inr tt, w)).
Proof.
  intros Hok Hdf Hnot.
  destruct (close_position_spec w trade_id sp cd notes Hok) as (df' & Hdf' & Ht & Hspec).
  rewrite Hdf in Hdf'. inversion Hdf'; subst df'.
  rewrite (first_index_no_match (id_is trade_id) (rows df)) in Hspec
    by by apply (id_absent_no_match (rows df) trade_id (proj2 Ht) Hnot).
  split; [exact Hspec|].
  intros cached Hc. rewrite Hspec. by rewrite (get_data_hit w cached Hc).
Qed.

Lemma close_missing_id_is_noop_witness :
  let w := MkWorld sheet_odd_status None in
  @close_position bare_pandas 9 (5#1) (MkDate 2024 5 1) "x" w
    = (inr tt, (@get_data bare_pandas w).2).
Proof.
  apply (@close_missing_id_is_noop bare_pandas (MkWorld sheet_odd_status None) 9 (5#1)
           (MkDate 2024 5 1) "x" (@normalize bare_pandas (read_frame sheet_odd_status))).
  - exact I.
  - reflexivity.
  - vm_compute. intros Hin.
    repeat (apply elem_of_cons in Hin as [Hin|Hin]; [discriminate|]).
    by apply elem_of_nil in Hin.
Defined.



(** ** Opening: the appended row *)

Lemma new_row_cells `{Pandas} i s p q d n :
  let r := new_row i s p q d n in
  cell_at r "symbol" = Str (py_upper s) /\
  cell_at r "buy_price" = Float p /\
  cell_at r "sell_price" = Float 0 /\
  cell_at r "quantity" = Int q /\
  cell_at r "open_date" = to_datetime_date d /\
  cell_at r "close_date" = PyNone /\
  cell_at r "pnl" = Float 0 /\
  cell_at r "pnl_percent" = Float 0 /\
  cell_at r "status" = Str "OPEN" /\
  cell_at r "notes" = Str n.
Proof.
  cbv zeta. unfold cell_at, new_row.
  repeat split; lookup_row; reflexivity.
Qed.

Lemma filter_none {A} (p : A -> bool) (l : list A) :
  (forall x, x ∈ l -> p x = false) -> List.filter p l = [].
Proof.
  induction l as [|a l IH]; intros Hp; [reflexivity|]. cbn [List.filter].
  rewrite (Hp a) by left. apply IH. intros x Hx. apply Hp. by right.
Qed.

Lemma concat_columns_typed (df b : DataFrame) :
  columns df ≡ₚ COLUMNS -> columns b = COLUMNS -> columns (concat df b) = columns df.
Proof.
  intros Hp Hb. unfold concat. cbn [columns]. rewrite Hb.
  rewrite filter_none; [by rewrite app_nil_r|].
  intros c Hc. apply negb_false_iff, bool_decide_eq_true. by rewrite Hp.
Qed.

Lemma concat_new_rows (df : DataFrame) (r : row) :
  columns df ≡ₚ COLUMNS ->
  rows (concat df (MkDF COLUMNS [r])) =
    (map (reindex (columns df)) (rows df) ++ [reindex (columns df) r])%list.
Proof.
  intros Hp. rewrite concat_rows.
  rewrite (concat_columns_typed df (MkDF COLUMNS [r]) Hp eq_refl).
  cbn [rows]. by rewrite map_app.
Qed.

(** The frame [add_buy_position] saves has datetimes in its date columns:
    those that were loaded, the open date of the new row, and no close
    date. *)
Lemma concat_dates_clean `{Pandas} (df : DataFrame) i s p q d n :
  frame_typed df ->
  dates_clean (concat df (MkDF COLUMNS [new_row i s p q d n])) = true.
Proof.
  intros Ht. apply dates_clean_rows. rewrite (concat_new_rows df _ (proj1 Ht)).
  destruct in_COLUMNS as (_ & _ & _ & _ & _ & Iod & Icd & _).
  pose proof (frame_typed_columns df "open_date" Ht Iod) as Hod.
  pose proof (frame_typed_columns df "close_date" Ht Icd) as Hcd.
  apply Forall_app. split.
  - apply Forall_map. destruct Ht as [_ Hall].
    eapply Forall_impl; [exact Hall|]. intros r Hr. cbv beta.
    rewrite !cell_at_reindex by done. by apply row_typed_dates.
  - apply Forall_singleton. rewrite !cell_at_reindex by done.
    destruct (new_row_cells i s p q d n) as (_ & _ & _ & _ & Cod & Ccd & _).
    cbv zeta in Cod, Ccd. rewrite Cod, Ccd. by split.
Qed.

Lemma saved_row_reindex (cols : list string) (r : row) :
  saved_row cols (reindex cols r) = saved_row cols r.
Proof.
  unfold saved_row. f_equal. apply map_ext_in. intros c Hc.
  by rewrite cell_at_reindex by by apply list_elem_of_In.
Qed.

(** The worksheet [add_buy_position] writes: the rows that were read, then
    the new row, each as [save_data] writes a row. *)
Lemma opened_frame_saved `{Pandas} (df : DataFrame) i s p q d n :
  frame_typed df ->
  rows (save_frame (concat df (MkDF COLUMNS [new_row i s p q d n]))) =
    (map (saved_row (columns df)) (rows df)
       ++ [saved_row (columns df) (new_row i s p q d n)])%list.
Proof.
  intros Ht. rewrite save_frame_rows.
  rewrite (map_ext _ _ (fun r => save_row_clean _ r (concat_dates_clean df i s p q d n Ht))).
  rewrite (concat_columns_typed df (MkDF COLUMNS [new_row i s p q d n]) (proj1 Ht) eq_refl).
  rewrite (concat_new_rows df _ (proj1 Ht)), map_app, map_map. cbn [map].
  rewrite saved_row_reindex. f_equal. apply map_ext. intros r. apply saved_row_reindex.
Qed.

Lemma add_buy_position_run `{Pandas} (w : world) s p q d n :
  cache_ok w ->
  exists df,
    (get_data w).1 = inr df /\ frame_typed df /\
    add_buy_position s p q d n w =
      (inr tt,
       MkWorld (save_frame (concat df (MkDF COLUMNS [new_row (max0 (ids df) + 1) s p q d n])))
               (Some df)).
Proof.
  intros Hok. destruct (get_data_ok w Hok) as (df & Hget & Ht & _).
  exists df. split; [by rewrite Hget|]. split; [done|].
  unfold add_buy_position, mbind, M_bind. rewrite Hget.
  unfold lift. rewrite (next_id_typed df Ht). reflexivity.
Qed.

(** [open] returns normally and rewrites the worksheet with the table it
    read and one row more, written last. The earlier rows keep their place
    and their values, each written as [save_data] writes a row (a number may
    change from integer to float with the dtype of its column, never its
    value). The new row carries the next id, the symbol as [str.upper]
    gives it (for ASCII text: a-z mapped to A-Z), the given price, quantity
    and notes, the open date as [YYYY-MM-DD] text, sell_price, pnl and
    pnl_percent 0.0, status OPEN and an empty close date. Stated for ids
    below the largest int64. *)
Theorem open_appends_row `{Pandas} (w : world) s p q d n df :
  cache_ok w ->
  (get_data w).1 = inr df ->
  max0 (ids df) < INT64_MAX ->
  let w' := (add_buy_position s p q d n w).2 in
  (add_buy_position s p q d n w).1 = inr tt /\
  columns (sheet w') = columns df /\
  length (rows (sheet w')) = S (length (rows df)) /\
  (forall j r0, rows df !! j = Some r0 ->
     exists r1, rows (sheet w') !! j = Some r1 /\
       forall c, c ∈ columns df -> same_value (cell_at r1 c) (saved_cell c (cell_at r0 c))) /\
  exists r',
    rows (sheet w') !! length (rows df) = Some r' /\
    cell_at r' "id" = Int (max0 (ids df) + 1) /\
    in_int64 (max0 (ids df) + 1) = true /\
    cell_at r' "symbol" = Str (py_upper s) /\
    (is_ascii s = true -> py_upper s = ascii_upper s) /\
    (is_ascii s = false -> py_upper s = upper_other s) /\
    cell_at r' "buy_price" = Float p /\
    cell_at r' "sell_price" = Float 0 /\
    cell_at r' "quantity" = Int q /\
    cell_at r' "open_date" =
      Str (strftime_ymd (MkTs (d_year d) (d_month d) (d_day d) 0)) /\
    cell_at r' "close_date" = Str "" /\
    cell_at r' "pnl" = Float 0 /\
    cell_at r' "pnl_percent" = Float 0 /\
    cell_at r' "status" = Str "OPEN" /\
    cell_at r' "notes" = Str n.
Proof.
  intros Hok Hdf Hmax. cbv zeta.
  destruct (add_buy_position_run w s p q d n Hok) as (df' & Hdf' & Ht & Hrun).
  rewrite Hdf in Hdf'. inversion Hdf'; subst df'. clear Hdf'.
  rewrite Hrun. cbn [fst snd sheet]. split; [reflexivity|].
  split.
  { rewrite save_frame_columns.
    apply (concat_columns_typed df (MkDF COLUMNS [_]) (proj1 Ht) eq_refl). }
  rewrite (opened_frame_saved df _ s p q d n Ht).
  set (nr := new_row (max0 (ids df) + 1) s p q d n).
  split; [by rewrite length_app, length_map, Nat.add_1_r|].
  split.
  { intros j r0 Hj. exists (saved_row (columns df) r0). split.
    - rewrite lookup_app_l by (rewrite length_map; by eapply lookup_lt_Some).
      by rewrite lookup_map, Hj.
    - intros c Hc. left. by apply cell_at_saved_row. }
  exists (saved_row (columns df) nr). split.
  { rewrite lookup_app_r by by rewrite length_map.
    by rewrite length_map, Nat.sub_diag. }
  destruct in_COLUMNS as (Hid & Hsym & Hbp & Hsp & Hq & Hod & Hcd & Hpnl & Hpct & Hst & Hno).
  destruct (new_row_cells (max0 (ids df) + 1) s p q d n)
    as (Csym & Cbp & Csp & Cq & Cod & Ccd & Cpnl & Cpct & Cst & Cno).
  fold nr in Csym, Cbp, Csp, Cq, Cod, Ccd, Cpnl, Cpct, Cst, Cno.
  pose proof (new_row_id (max0 (ids df) + 1) s p q d n) as Cid. fold nr in Cid.
  pose proof (max0_nonneg (ids df)) as Hnn.
  rewrite !cell_at_saved_row by by apply (frame_typed_columns df _ Ht).
  rewrite Cid, Csym, Cbp, Csp, Cq, Cod, Ccd, Cpnl, Cpct, Cst, Cno.
  repeat split; try reflexivity.
  - unfold in_int64, INT64_MIN, INT64_MAX in *. lia.
  - intros Ha. unfold py_upper. by rewrite Ha.
  - intros Ha. unfold py_upper. by rewrite Ha.
Qed.

Lemma open_appends_row_witness :
  let w := MkWorld sheet_one_open None in
  let w' := (@add_buy_position bare_pandas "msft" (50#1) 2 (MkDate 2024 3 1) "n" w).2 in
  cache_ok w /\
  ids (@normalize bare_pandas (read_frame sheet_one_open)) = [1] /\
  exists r',
    rows (sheet w') !! 1%nat = Some r' /\
    cell_at r' "id" = Int 2 /\
    cell_at r' "symbol" = Str "MSFT" /\ cell_at r' "status" = Str "OPEN" /\
    cell_at r' "open_date" = Str "2024-03-01" /\
    cell_at r' "close_date" = Str "".
Proof.
  cbv zeta. split; [exact I|]. split; [vm_compute; reflexivity|].
  destruct (@open_appends_row bare_pandas (MkWorld sheet_one_open None)
              "msft" (50#1) 2 (MkDate 2024 3 1) "n"
              (@normalize bare_pandas (read_frame sheet_one_open)))
    as (_ & _ & _ & _ & r' & Hrow & Hid & _ & Hsym & _ & _ & _ & _ & _ & Hod & Hcd & _ & _
        & Hst & _).
  - exact I.
  - reflexivity.
  - vm_compute. reflexivity.
  - exists r'. split; [exact Hrow|]. split; [exact Hid|]. split; [exact Hsym|].
    split; [exact Hst|]. split; [exact Hod|exact Hcd].
Defined.

(** ** Mutations seen by the next process *)

Lemma is_int_id (r : row) :
  is_int (cell_at r "id") = true -> cell_at r "id" = Int (int_val (cell_at r "id")).
Proof. destruct (cell_at r "id"); simpl; try discriminate. reflexivity. Qed.

Lemma frame_typed_id_typed (df : DataFrame) : frame_typed df -> id_typed df.
Proof.
  intros [Hp Hall]. split; [done|]. by apply typed_ids_int.
Qed.

(** The cell the next load starts from, for a column other than the dates
    of a row that was written. *)
Lemma loaded_saved_plain `{Pandas} (df : DataFrame) (r : row) c :
  c ∈ columns df -> c <> "open_date" -> c <> "close_date" ->
  loaded_cell (columns (read_frame (save_frame df))) (read_cell <$> save_row df r) c =
    read_cell (fillna_empty (cell_at r c)).
Proof.
  intros Hc Ho Hcd. unfold loaded_cell.
  change (columns (read_frame (save_frame df))) with (columns (save_frame df)).
  rewrite save_frame_columns, bool_decide_eq_true_2 by done.
  by rewrite cell_at_read, cell_at_save_row.
Qed.

(** A saved table with integer ids is loaded with the same ids, in the same
    order. *)
Lemma load_saved_ids `{Pandas} (df : DataFrame) :
  id_typed df ->
  exists out,
    (get_data (MkWorld (save_frame df) None)).1 = inr out /\
    ids out = ids df /\ frame_typed out /\
    length (rows out) = length (rows df).
Proof.
  intros [Hcols Hall]. rewrite (load_saved df Hcols).
  assert (Hid : "id" ∈ columns df) by (rewrite Hcols; apply in_COLUMNS).
  destruct (rows df) as [|r0 rs] eqn:Er.
  - exists empty_frame. unfold ids. rewrite Er.
    split; [reflexivity|]. split; [reflexivity|]. split; [exact empty_frame_typed|reflexivity].
  - exists (normalize (read_frame (save_frame df))). split; [reflexivity|].
    destruct (normalize_spec (read_frame (save_frame df))) as (_ & g & Hg_rows & Hg).
    rewrite read_saved_rows in Hg_rows. unfold ids. rewrite Hg_rows, Er.
    split; [|split; [apply normalize_typed|by rewrite !length_map]].
    rewrite !map_map. apply map_ext_in. intros r Hr.
    rewrite (Hg _ "id") by apply in_COLUMNS. rewrite coerce_cell_id.
    rewrite loaded_saved_plain by done.
    rewrite Forall_forall in Hall.
    rewrite (is_int_id r (Hall r (proj2 (list_elem_of_In _ _) Hr))). reflexivity.
Qed.

Lemma filter_rows_id_typed (p : row -> bool) (df : DataFrame) :
  frame_typed df -> id_typed (filter_rows p df).
Proof.
  intros Ht. apply frame_typed_id_typed. destruct Ht as [Hp Hall].
  split; [done|]. by apply filter_typed.
Qed.

(** A row removed by [delete] does not come back: the next process loads
    the remaining ids in their order, the deleted id is not among them, and
    closing it there is a silent no-op. *)
Theorem deleted_id_stays_gone `{Pandas} (w : world) trade_id :
  cache_ok w ->
  exists df out,
    (get_data w).1 = inr df /\
    let w1 := restart (delete_trade trade_id w).2 in
    (get_data w1).1 = inr out /\
    ids out = List.filter (fun z => negb (z =? trade_id)) (ids df) /\
    (trade_id ∉ ids out) /\
    forall sp cd notes,
      close_position trade_id sp cd notes w1 = (inr tt, (get_data w1).2).
Proof.
  intros Hok. destruct (delete_trade_run w trade_id Hok) as (df & Hdf & Ht & Hrun).
  set (fdf := filter_rows (fun r => negb (id_is trade_id r)) df) in *.
  destruct (load_saved_ids fdf (filter_rows_id_typed _ df Ht))
    as (out & Hout & Hids & Hto & _).
  exists df, out. split; [done|]. cbv zeta. rewrite Hrun.
  change (restart (inr (), MkWorld (save_frame fdf) (Some df)).2)
    with (MkWorld (save_frame fdf) None).
  assert (Hfilter : ids out = List.filter (fun z => negb (z =? trade_id)) (ids df)).
  { rewrite Hids. unfold ids, fdf, filter_rows. cbn [rows].
    apply ids_filter_rows. apply Ht. }
  assert (Hgone : trade_id ∉ ids out).
  { rewrite Hfilter. intros Hin. apply list_elem_of_In, filter_In in Hin as [_ Hne].
    by rewrite Z.eqb_refl in Hne. }
  split; [done|]. split; [done|]. split; [done|].
  intros sp cd notes.
  destruct (close_position_spec (MkWorld (save_frame fdf) None) trade_id sp cd notes I)
    as (out' & Hout' & Ht' & Hspec).
  rewrite Hout in Hout'. inversion Hout'; subst out'.
  rewrite (first_index_no_match (id_is trade_id) (rows out)) in Hspec
    by by apply (id_absent_no_match (rows out) trade_id (proj2 Ht') Hgone).
  exact Hspec.
Qed.

Lemma deleted_id_stays_gone_witness :
  cache_ok (MkWorld sheet_odd_status None) /\
  exists out,
    (@get_data bare_pandas
       (restart (@delete_trade bare_pandas 7 (MkWorld sheet_odd_status None)).2)).1
      = inr out /\
    7 ∉ ids out.
Proof.
  split; [exact I|].
  destruct (@deleted_id_stays_gone bare_pandas (MkWorld sheet_odd_status None) 7 I)
    as (df & out & _ & Hout & _ & Hgone & _).
  exists out. split; assumption.
Defined.

Lemma concat_id_typed (df : DataFrame) (r : row) z :
  frame_typed df -> cell_at r "id" = Int z ->
  id_typed (concat df (MkDF COLUMNS [r])).
Proof.
  intros Ht Hz. pose proof (concat_columns_typed df (MkDF COLUMNS [r]) (proj1 Ht) eq_refl) as Hc.
  pose proof (frame_typed_id_column df Ht) as Hidc.
  split; [rewrite Hc; apply Ht|].
  rewrite concat_rows, Hc. apply Forall_map, Forall_app. split.
  - destruct Ht as [_ Hall]. eapply Forall_impl; [exact Hall|].
    intros r0 Hr0. cbv beta in *.
    rewrite (cell_at_reindex _ _ _ Hidc).
    by rewrite (row_typed_id r0 Hr0).
  - apply Forall_singleton.
    rewrite (cell_at_reindex _ _ _ Hidc). by rewrite Hz.
Qed.

(** A position opened in one process is there for the next: a fresh load
    returns the ids that were read followed by the new id, and [listOpen]
    lists the new id. *)
Theorem opened_row_listed_after_restart `{Pandas} (w : world) s p q d n :
  cache_ok w ->
  exists df out listed,
    (get_data w).1 = inr df /\
    let w1 := restart (add_buy_position s p q d n w).2 in
    (get_data w1).1 = inr out /\
    ids out = (ids df ++ [max0 (ids df) + 1])%list /\
    (get_open_positions w1).1 = inr listed /\
    (max0 (ids df) + 1) ∈ ids listed.
Proof.
  intros Hok. destruct (add_buy_position_run w s p q d n Hok) as (df & Hget & Ht & Hrun).
  set (nr := new_row (max0 (ids df) + 1) s p q d n) in *.
  set (cdf := concat df (MkDF COLUMNS [nr])) in *.
  pose proof (concat_id_typed df nr _ Ht (new_row_id _ s p q d n)) as Hidt.
  fold cdf in Hidt.
  assert (Hcols : columns cdf = columns df)
    by apply (concat_columns_typed df (MkDF COLUMNS [nr]) (proj1 Ht) eq_refl).
  assert (Hw1 : restart (add_buy_position s p q d n w).2 = MkWorld (save_frame cdf) None)
    by by rewrite Hrun.
  assert (Hrows_cdf : rows cdf =
            (map (reindex (columns df)) (rows df) ++ [reindex (columns df) nr])%list)
    by apply (concat_new_rows df nr (proj1 Ht)).
  assert (Hload : (get_data (MkWorld (save_frame cdf) None)).1
                  = inr (normalize (read_frame (save_frame cdf)))).
  { rewrite (load_saved cdf (proj1 Hidt)), Hrows_cdf.
    by destruct (map (reindex (columns df)) (rows df)). }
  destruct (load_saved_ids cdf Hidt) as (out & Hout & Hids & Hto & _).
  rewrite Hload in Hout. inversion Hout as [Hout']. clear Hout.
  exists df, (normalize (read_frame (save_frame cdf))).
  destruct (get_open_positions_rows (MkWorld (save_frame cdf) None) I)
    as (out2 & listed & Hout2 & Hlisted & Hmem).
  rewrite Hload in Hout2. inversion Hout2; subst out2.
  exists listed. split; [done|]. cbv zeta. rewrite Hw1.
  split; [exact Hload|].
  pose proof (frame_typed_id_column df Ht) as Hidc.
  assert (Hids' : ids (normalize (read_frame (save_frame cdf)))
                  = (ids df ++ [max0 (ids df) + 1])%list).
  { rewrite Hout', Hids. unfold ids. rewrite Hrows_cdf.
    rewrite map_app, map_map. cbn [map]. f_equal.
    - apply map_ext_in. intros r0 _. by rewrite cell_at_reindex.
    - rewrite cell_at_reindex by done. unfold nr. by rewrite new_row_id. }
  split; [exact Hids'|]. split; [exact Hlisted|].
  destruct (normalize_spec (read_frame (save_frame cdf))) as (_ & g & Hg_rows & Hg).
  rewrite read_saved_rows in Hg_rows.
  set (last_row := g (read_cell <$> save_row cdf (reindex (columns df) nr))).
  destruct in_COLUMNS as (Hid & _ & _ & _ & _ & _ & _ & _ & _ & Hst & _).
  destruct (new_row_cells (max0 (ids df) + 1) s p q d n)
    as (_ & _ & _ & _ & _ & _ & _ & _ & Cst & _).
  fold nr in Cst.
  assert (Hlast_in : last_row ∈ rows (normalize (read_frame (save_frame cdf)))).
  { rewrite Hg_rows, Hrows_cdf.
    rewrite !map_app. cbn [map]. apply elem_of_app. right. by left. }
  assert (Hin_cols : forall c, c ∈ COLUMNS -> c ∈ columns cdf).
  { intros c Hc. by rewrite (proj1 Hidt). }
  assert (Hin_df : forall c, c ∈ COLUMNS -> c ∈ columns df).
  { intros c Hc. by apply (frame_typed_columns df c Ht). }
  assert (Hlast_st : cell_at last_row "status" = Str "OPEN").
  { unfold last_row. rewrite (Hg _ "status" Hst), coerce_cell_status.
    rewrite loaded_saved_plain by auto.
    rewrite cell_at_reindex by auto. by rewrite Cst. }
  assert (Hlast_id : cell_at last_row "id" = Int (max0 (ids df) + 1)).
  { unfold last_row. rewrite (Hg _ "id" Hid), coerce_cell_id.
    rewrite loaded_saved_plain by auto.
    rewrite cell_at_reindex by auto. unfold nr. by rewrite new_row_id. }
  assert (Hl : last_row ∈ rows listed) by (apply Hmem; by split).
  unfold ids. apply list_elem_of_In, in_map_iff. exists last_row.
  split; [by rewrite Hlast_id|]. by apply list_elem_of_In.
Qed.

Lemma opened_row_listed_after_restart_witness :
  cache_ok (MkWorld sheet_one_open None) /\
  exists out listed,
    (@get_data bare_pandas
       (restart (@add_buy_position bare_pandas "msft" (50#1) 2 (MkDate 2024 3 1) "n"
                   (MkWorld sheet_one_open None)).2)).1 = inr out /\
    (@get_open_positions bare_pandas
       (restart (@add_buy_position bare_pandas "msft" (50#1) 2 (MkDate 2024 3 1) "n"
                   (MkWorld sheet_one_open None)).2)).1 = inr listed /\
    2 ∈ ids listed.
Proof.
  split; [exact I|].
  destruct (@opened_row_listed_after_restart bare_pandas (MkWorld sheet_one_open None)
              "msft" (50#1) 2 (MkDate 2024 3 1) "n" I)
    as (df & out & listed & Hdf & Hout & _ & Hlisted & Hin).
  inversion Hdf; subst df.
  exists out, listed. repeat split; assumption.
Defined.

(** ** Closing: when the assignments go through *)

Lemma column_dtype_datetime (col : list cell) :
  col <> [] -> forallb is_datetime col = true -> column_dtype col = datetime64.
Proof.
  destruct col as [|c col]; [done|]. intros _ Hall.
  destruct c; simpl in Hall; try discriminate; simpl; by rewrite Hall.
Qed.

Lemma typed_close_date_dtype (df : DataFrame) (r : row) :
  frame_typed df -> r ∈ rows df ->
  column_dtype (column "close_date" df) = datetime64.
Proof.
  intros [_ Hall] Hr. apply column_dtype_datetime.
  - unfold column. destruct (rows df); [by apply elem_of_nil in Hr|discriminate].
  - unfold column. apply forallb_forall. intros x Hx.
    apply in_map_iff in Hx as (r0 & <- & Hr0).
    rewrite Forall_forall in Hall.
    specialize (Hall r0 (proj2 (list_elem_of_In _ _) Hr0)).
    unfold row_typed in Hall. rewrite !andb_true_iff in Hall. tauto.
Qed.

Lemma close_accepts_update `{Pandas} (df : DataFrame) (r : row) sp cd notes :
  close_accepts df r sp cd notes = true <->
  exists f, close_update df r sp cd notes = Some f.
Proof.
  unfold close_accepts. destruct (close_update df r sp cd notes) as [f|].
  - split; [eauto|done].
  - split; [discriminate|]. by intros [f Hf].
Qed.

(** A close is accepted on a table whose [sell_price], [pnl] and
    [pnl_percent] columns are float64 and whose [status] and [notes] columns
    hold text. *)
Lemma float_columns_accept `{Pandas} (df : DataFrame) (r : row) sp cd notes :
  frame_typed df -> r ∈ rows df ->
  column_dtype (column "sell_price" df) = float64 ->
  column_dtype (column "pnl" df) = float64 ->
  column_dtype (column "pnl_percent" df) = float64 ->
  column_dtype (column "status" df) = str_dtype ->
  column_dtype (column "notes" df) = str_dtype ->
  close_accepts df r sp cd notes = true.
Proof.
  intros Ht Hr Hsp Hpnl Hpct Hst Hno.
  assert (Htr : row_typed r = true).
  { destruct Ht as [_ Hall]. rewrite Forall_forall in Hall. by apply Hall. }
  destruct (row_typed_quantity r Htr) as (q & Hq).
  unfold close_accepts, close_update. rewrite Hq. unfold close_cells, stored.
  rewrite Hsp, Hpnl, Hpct, Hst, Hno, (typed_close_date_dtype df r Ht Hr).
  destruct (closing_notes_str (cell_at r "notes") notes) as (s & ->).
  unfold pct_of. by destruct (Qeq_bool _ 0).
Qed.

(** A price with a fraction does not fit an int64 [sell_price] column. *)
Lemma int_column_rejects `{Pandas} (df : DataFrame) (r : row) sp cd notes :
  column_dtype (column "sell_price" df) = int64 ->
  is_integral sp = false ->
  close_accepts df r sp cd notes = false.
Proof.
  intros Hsp Hfrac. unfold close_accepts, close_update.
  destruct (cell_at r "quantity"); try reflexivity.
  unfold close_cells, stored. rewrite Hsp. simpl. by rewrite Hfrac.
Qed.



(** On a table whose [sell_price], [pnl] and [pnl_percent] columns are
    float64 and whose [status] and [notes] columns hold text, every close
    of an id the table carries goes through, at any price. *)
Theorem close_accepted_on_float_columns `{Pandas} (w : world) trade_id (sp : Q) cd notes
    df idx r :
  cache_ok w ->
  (get_data w).1 = inr df ->
  first_index (id_is trade_id) (rows df) = Some idx ->
  rows df !! idx = Some r ->
  column_dtype (column "sell_price" df) = float64 ->
  column_dtype (column "pnl" df) = float64 ->
  column_dtype (column "pnl_percent" df) = float64 ->
  column_dtype (column "status" df) = str_dtype ->
  column_dtype (column "notes" df) = str_dtype ->
  close_accepts df r sp cd notes = true /\
  (close_position trade_id sp cd notes w).1 = inr tt.
Proof.
  intros Hok Hdf Hidx Hr Hsp Hpnl Hpct Hst Hno.
  destruct (get_data_ok w Hok) as (df' & Hget & Ht & _).
  rewrite Hget in Hdf. inversion Hdf; subst df'.
  assert (Hacc : close_accepts df r sp cd notes = true).
  { apply float_columns_accept; try done. by eapply list_elem_of_lookup_2. }
  split; [exact Hacc|].
  assert (Hdf' : (get_data w).1 = inr df) by by rewrite Hget.
  destruct (close_accepted_run w trade_id sp cd notes df idx r Hok Hdf' Hidx Hr Hacc)
    as (q & f & _ & _ & _ & Hrun).
  by rewrite Hrun.
Qed.

Lemma close_accepted_on_float_columns_witness :
  let w := MkWorld sheet_float_prices None in
  let df := @normalize bare_pandas (read_frame sheet_float_prices) in
  map (fun c => column_dtype (column c df))
      ["sell_price"; "pnl"; "pnl_percent"; "status"; "notes"]
    = [float64; float64; float64; str_dtype; str_dtype] /\
  (@close_position bare_pandas 1 (301 # 2) (MkDate 2024 2 1) "B" w).1 = inr tt.
Proof.
  cbv zeta. split; [vm_compute; reflexivity|].
  apply (@close_accepted_on_float_columns bare_pandas (MkWorld sheet_float_prices None) 1
           (301 # 2) (MkDate 2024 2 1) "B"
           (@normalize bare_pandas (read_frame sheet_float_prices)) 0%nat
           (default ∅ (rows (@normalize bare_pandas (read_frame sheet_float_prices))
                         !! 0%nat)));
    try exact I; vm_compute; reflexivity.
Defined.

(** The defect behind the failing closes, in general: when the
    [sell_price] column of the loaded table is int64 (every price in the
    worksheet is a whole number), a close at a price with a fraction raises
    [TypeError] at line 131 and writes nothing. *)
Theorem fractional_price_on_int_column_raises `{Pandas} (w : world) trade_id (sp : Q) cd
    notes df idx r :
  cache_ok w ->
  (get_data w).1 = inr df ->
  first_index (id_is trade_id) (rows df) = Some idx ->
  rows df !! idx = Some r ->
  column_dtype (column "sell_price" df) = int64 ->
  is_integral sp = false ->
  close_position trade_id sp cd notes w = (inl TypeError, (get_data w).2) /\
  (forall cached, cache w = Some cached ->
     (close_position trade_id sp cd notes w).2 = w).
Proof.
  intros Hok Hdf Hidx Hr Hsp Hfrac.
  pose proof (int_column_rejects df r sp cd notes Hsp Hfrac) as Hrej.
  pose proof (close_rejected_run w trade_id sp cd notes df idx r Hok Hdf Hidx Hr Hrej)
    as Hrun.
  split; [exact Hrun|]. intros cached Hc. rewrite Hrun.
  by rewrite (get_data_hit w cached Hc).
Qed.

Lemma fractional_price_on_int_column_raises_witness :
  let w := MkWorld sheet_one_open None in
  let df := @normalize bare_pandas (read_frame sheet_one_open) in
  column_dtype (column "sell_price" df) = int64 /\
  is_integral (301 # 2) = false /\
  @close_position bare_pandas 1 (301 # 2) (MkDate 2024 2 1) "B" w
    = (inl TypeError, (@get_data bare_pandas w).2).
Proof.
  cbv zeta. split; [vm_compute; reflexivity|]. split; [vm_compute; reflexivity|].
  apply (@fractional_price_on_int_column_raises bare_pandas (MkWorld sheet_one_open None) 1
           (301 # 2) (MkDate 2024 2 1) "B"
           (@normalize bare_pandas (read_frame sheet_one_open)) 0%nat
           (default ∅ (rows (@normalize bare_pandas (read_frame sheet_one_open)) !! 0%nat)));
    try exact I; vm_compute; reflexivity.
Defined.

(** * Properties of the page script *)

(** ** Form validation *)

Lemma Qpos_false (p : Q) : (p <= 0)%Q -> Qpos p = false.
Proof. intros Hp. unfold Qpos. apply Qle_bool_iff in Hp. by rewrite Hp. Qed.

Lemma Qpos_true (p : Q) : (0 < p)%Q -> Qpos p = true.
Proof.
  intros Hp. unfold Qpos. destruct (Qle_bool p 0) eqn:Hle; [|reflexivity].
  apply Qle_bool_iff in Hle. exfalso. by apply (Qlt_not_le 0 p).
Qed.

(** The buy form does nothing (not even a read) for an empty symbol, a
    non-positive price or a non-positive quantity; for any other input it
    runs [open], which succeeds from any world a run can be in. *)
Theorem buy_form_validates `{Pandas} (w : world) s (p : Q) q d n :
  (s = "" \/ (p <= 0)%Q \/ q <= 0 -> on_buy_submit s p q d n w = (inr false, w)) /\
  (s <> "" -> (0 < p)%Q -> 0 < q -> cache_ok w ->
     on_buy_submit s p q d n w = (inr true, (add_buy_position s p q d n w).2)).
Proof.
  split.
  - intros Hbad. unfold on_buy_submit.
    destruct Hbad as [-> | [Hp | Hq]].
    + reflexivity.
    + rewrite (Qpos_false p Hp). by rewrite andb_false_r.
    + replace (0 <? q) with false by (symmetry; apply Z.ltb_ge; lia).
      by rewrite andb_false_r.
  - intros Hs Hp Hq Hok. unfold on_buy_submit.
    replace (String.eqb s "") with false
      by (symmetry; apply String.eqb_neq; exact Hs).
    rewrite (Qpos_true p Hp).
    replace (0 <? q) with true by (symmetry; apply Z.ltb_lt; lia).
    cbn [negb andb]. unfold mbind, M_bind.
    destruct (add_buy_position_run w s p q d n Hok) as (df & _ & _ & Hrun).
    by rewrite Hrun.
Qed.

Lemma buy_form_validates_witness :
  @on_buy_submit bare_pandas "" (50#1) 2 (MkDate 2024 3 1) "n"
    (MkWorld sheet_one_open None) = (inr false, MkWorld sheet_one_open None) /\
  @on_buy_submit bare_pandas "msft" (50#1) 2 (MkDate 2024 3 1) "n"
    (MkWorld sheet_one_open None) =
    (inr true,
     (@add_buy_position bare_pandas "msft" (50#1) 2 (MkDate 2024 3 1) "n"
        (MkWorld sheet_one_open None)).2).
Proof.
  split.
  - apply (@buy_form_validates bare_pandas). by left.
  - apply (@buy_form_validates bare_pandas); [discriminate|reflexivity|reflexivity|exact I].
Defined.



(** ** Summary figures *)

Lemma filter_length_le {A} (p : A -> bool) (l : list A) :
  (length (List.filter p l) <= length l)%nat.
Proof.
  induction l as [|a l IH]; simpl; [lia|]. destruct (p a); simpl; lia.
Qed.

(** The win rate is a percentage: between 0 and 100 for every table, 0 for
    a table without rows, and 100 exactly when every row has a positive
    pnl. *)
Theorem win_rate_is_percentage (closed : DataFrame) :
  (0 <= win_rate closed <= 100)%Q /\
  (rows closed = [] -> win_rate closed = 0%Q) /\
  (rows closed <> [] ->
     ((win_rate closed == 100)%Q <->
      Forall (fun r => cell_pos (cell_at r "pnl") = true) (rows closed))).
Proof.
  unfold win_rate.
  set (p := fun r : row => cell_pos (cell_at r "pnl")).
  pose proof (filter_length_le p (rows closed)) as Hle.
  set (c := length (List.filter p (rows closed))) in *.
  set (n := length (rows closed)) in *.
  destruct (0 <? n)%nat eqn:Hn.
  - apply Nat.ltb_lt in Hn.
    assert (Hnq : (0 < inject_Z (Z.of_nat n))%Q).
    { rewrite <- (Zlt_Qlt 0). lia. }
    assert (Hcq : (0 <= inject_Z (Z.of_nat c))%Q).
    { rewrite <- (Zle_Qle 0). lia. }
    assert (Hcn : (inject_Z (Z.of_nat c) <= inject_Z (Z.of_nat n))%Q).
    { rewrite <- Zle_Qle. lia. }
    assert (Hlo : (0 <= inject_Z (Z.of_nat c) / inject_Z (Z.of_nat n))%Q).
    { apply Qle_shift_div_l; [done|]. by rewrite Qmult_0_l. }
    assert (Hhi : (inject_Z (Z.of_nat c) / inject_Z (Z.of_nat n) <= 1)%Q).
    { apply Qle_shift_div_r; [done|]. by rewrite Qmult_1_l. }
    split; [split; lra|]. split.
    + intros Hnil. unfold n in Hn. rewrite Hnil in Hn. simpl in Hn. lia.
    + intros _. split.
      * intros H100.
        assert (Heq1 : (inject_Z (Z.of_nat c) / inject_Z (Z.of_nat n) == 1)%Q) by lra.
        assert (Hcn' : (inject_Z (Z.of_nat c) == inject_Z (Z.of_nat n))%Q).
        { rewrite <- (Qmult_div_r (inject_Z (Z.of_nat c)) (inject_Z (Z.of_nat n))) by lra.
          rewrite Heq1. ring. }
        apply inject_Z_injective, Nat2Z.inj in Hcn'.
        unfold c, n in Hcn'. clear -Hcn'.
        induction (rows closed) as [|a l IH]; [constructor|].
        cbn [List.filter] in Hcn'. destruct (p a) eqn:Hpa.
        -- constructor; [exact Hpa|]. apply IH. simpl in Hcn'. lia.
        -- pose proof (filter_length_le p l). simpl in Hcn'. lia.
      * intros Hall.
        assert (Hc : c = n).
        { unfold c, n. clear -Hall. induction Hall as [|a l Ha _ IH]; [done|].
          cbn [List.filter]. change (p a = true) in Ha. rewrite Ha. simpl. by rewrite IH. }
        rewrite Hc. field. lra.
  - apply Nat.ltb_ge in Hn. split; [split; lra|]. split; [done|].
    intros Hne. destruct (rows closed); [contradiction|]. simpl in n. lia.
Qed.

(** Bars and win rate disagree on break-even trades only: every trade that
    counts as a win is drawn as profit, and a trade drawn as profit that
    does not count as a win has pnl 0. *)
Theorem win_and_label (q : Q) :
  (cell_pos (Float q) = true -> pnl_label q = "盈利") /\
  (pnl_label q = "盈利" /\ cell_pos (Float q) = false <-> (q == 0)%Q) /\
  (pnl_label q = "亏损" <-> (q < 0)%Q).
Proof.
  unfold pnl_label, cell_pos, Qpos.
  assert (H0 : Qle_bool 0 q = true <-> (0 <= q)%Q) by apply Qle_bool_iff.
  assert (H1 : Qle_bool q 0 = true <-> (q <= 0)%Q) by apply Qle_bool_iff.
  destruct (Qle_bool 0 q); destruct (Qle_bool q 0); cbn [negb];
    repeat split; intros;
    repeat match goal with H : _ /\ _ |- _ => destruct H end;
    try discriminate; try reflexivity;
    try (assert (0 <= q)%Q by (by apply H0));
    try (assert (q <= 0)%Q by (by apply H1));
    try (assert (~ (0 <= q)%Q) by (intros Hc; by apply H0 in Hc));
    try (assert (~ (q <= 0)%Q) by (intros Hc; by apply H1 in Hc));
    lra.
Qed.

(** * Properties of the stored format *)

Lemma fillna_empty_not_null (v : cell) :
  fillna_empty v <> PyNone /\ fillna_empty v <> NaN /\ fillna_empty v <> NaT.
Proof. destruct v; simpl; repeat split; discriminate. Qed.

(** Whatever table is saved, no cell of the worksheet is a missing value,
    and the two date columns hold text only: a [YYYY-MM-DD] date or the
    empty string. *)
Theorem saved_cells_never_null `{Pandas} (df : DataFrame) (r : row) c v :
  r ∈ rows (save_frame df) ->
  r !! c = Some v ->
  v <> PyNone /\ v <> NaN /\ v <> NaT /\
  (c = "open_date" \/ c = "close_date" ->
     v = Str "" \/ exists t, v = Str (strftime_ymd t)).
Proof.
  intros Hr Hv. rewrite save_frame_rows in Hr.
  apply list_elem_of_In, in_map_iff in Hr as (r0 & <- & _).
  rewrite lookup_save_row in Hv.
  destruct (bool_decide (c ∈ columns df)); [|discriminate].
  inversion Hv as [Hv']. clear Hv. unfold save_cell.
  destruct (bool_decide (c = "open_date" \/ c = "close_date")) eqn:Hd.
  - destruct (fillna_empty_not_null
                (dt_strftime (to_datetime (column c df) (cell_at r0 c))))
      as (H1 & H2 & H3).
    repeat (split; [done|]). intros _.
    pose proof (to_datetime_is_datetime (column c df) (cell_at r0 c)) as Hdt.
    destruct (to_datetime (column c df) (cell_at r0 c)) as [| | | | | |t];
      try discriminate.
    + by left.
    + right. by exists t.
  - apply bool_decide_eq_false in Hd.
    destruct (fillna_empty_not_null (cell_at r0 c)) as (H1 & H2 & H3).
    repeat (split; [done|]). intros Hc. contradiction.
Qed.

Lemma saved_cells_never_null_witness :
  exists r v,
    r ∈ rows (@save_frame bare_pandas (@normalize bare_pandas (read_frame sheet_dirty))) /\
    r !! "close_date" = Some v /\
    v <> PyNone /\ v <> NaN /\ v <> NaT /\
    ("close_date" = "open_date" \/ "close_date" = "close_date" ->
       v = Str "" \/ exists t, v = Str (strftime_ymd t)).
Proof.
  exists (default ∅ (rows (@save_frame bare_pandas
                             (@normalize bare_pandas (read_frame sheet_dirty))) !! 0%nat)),
         (Str "").
  assert (Hr : default ∅ (rows (@save_frame bare_pandas
                                  (@normalize bare_pandas (read_frame sheet_dirty)))
                             !! 0%nat)
               ∈ rows (@save_frame bare_pandas
                         (@normalize bare_pandas (read_frame sheet_dirty)))).
  { apply (list_elem_of_lookup_2 _ 0%nat). vm_compute. reflexivity. }
  assert (Hv : default ∅ (rows (@save_frame bare_pandas
                                  (@normalize bare_pandas (read_frame sheet_dirty)))
                             !! 0%nat) !! "close_date" = Some (Str "")).
  { vm_compute. reflexivity. }
  split; [exact Hr|]. split; [exact Hv|].
  exact (@saved_cells_never_null bare_pandas _ _ _ _ Hr Hv).
Defined.

Lemma forallb_map {A B} (f : A -> B) (p : B -> bool) (l : list A) :
  forallb p (map f l) = forallb (fun x => p (f x)) l.
Proof. induction l as [|a l IH]; [reflexivity|]. simpl. by rewrite IH. Qed.

Lemma coerce_float_int `{Pandas} (col : list cell) (z : Z) :
  all_int col = true -> coerce_float col (Int z) = Int z.
Proof. intros Hall. unfold coerce_float. cbn [to_numeric]. by rewrite Hall. Qed.

Lemma all_int_coerced `{Pandas} (col : list cell) :
  all_int col = true -> all_int (map (coerce_float col) col) = true.
Proof.
  intros Hall. unfold all_int at 1. rewrite forallb_map. apply forallb_forall.
  intros y Hy. apply list_elem_of_In in Hy.
  destruct (all_int_elem col y Hall Hy) as (zy & Hzy).
  unfold coerce_float. by rewrite Hzy, Hall.
Qed.

(** A second pass of the numeric coercion over a price column it produced
    changes nothing. *)
Lemma coerce_float_twice `{Pandas} (col : list cell) (x : cell) :
  coerce_float (map (coerce_float col) col) (coerce_float col x) = coerce_float col x.
Proof.
  assert (Hcase : (exists z, coerce_float col x = Int z /\ all_int col = true) \/
                  exists q, coerce_float col x = Float q).
  { unfold coerce_float.
    destruct (to_numeric x) as [[z|q]|]; [destruct (all_int col) eqn:Hall|..]; eauto. }
  destruct Hcase as [(z & -> & Hall) | (q & ->)]; [|reflexivity].
  apply coerce_float_int. by apply all_int_coerced.
Qed.

(** The coercion of a load is idempotent: a column that went through it is
    left as it is by a second pass. *)
Theorem coerce_column_idempotent `{Pandas} (c : string) (col : list cell) :
  coerce_column c (coerce_column c col) = coerce_column c col.
Proof.
  unfold coerce_column, coerce_cell.
  destruct (bool_decide (c = "id") || bool_decide (c = "quantity")).
  { rewrite map_map. apply map_ext. intros x.
    unfold coerce_int. by destruct (to_numeric x) as [[z|q]|]. }
  destruct (bool_decide (c = "buy_price") || bool_decide (c = "sell_price")
            || bool_decide (c = "pnl")).
  { rewrite map_map. apply map_ext. intros x. apply coerce_float_twice. }
  destruct (bool_decide (c = "open_date") || bool_decide (c = "close_date")).
  - rewrite map_map. apply map_ext. intros x.
    rewrite to_datetime_clean.
    + pose proof (to_datetime_is_datetime col x) as Hdt.
      by destruct (to_datetime col x).
    + rewrite forallb_map. apply forallb_forall. intros y _.
      pose proof (to_datetime_is_datetime col y) as Hdt.
      by destruct (to_datetime col y).
  - by rewrite map_id.
Qed.

(** Upper-casing ASCII text is idempotent and keeps the length of the
    symbol. *)
Lemma ascii_upper_idempotent (s : string) :
  ascii_upper (ascii_upper s) = ascii_upper s /\
  String.length (ascii_upper s) = String.length s.
Proof.
  induction s as [|a s [IH1 IH2]]; [done|]. cbn [ascii_upper String.length].
  rewrite IH1, IH2. split; [|reflexivity]. f_equal.
  unfold upper_char.
  destruct ((97 <=? nat_of_ascii a)%nat && (nat_of_ascii a <=? 122)%nat) eqn:Hlow.
  - apply andb_true_iff in Hlow as [Hl Hh].
    apply Nat.leb_le in Hl, Hh.
    rewrite nat_ascii_embedding by lia.
    replace ((97 <=? nat_of_ascii a - 32)%nat) with false
      by (symmetry; apply Nat.leb_gt; lia).
    reflexivity.
  - by rewrite Hlow.
Qed.

